(** * Mallgram payments: gateway adapters, initialisation and webhook reconciliation

    A shallow embedding of [routes/payments.js] (the Express router for
    [/payments/initialize], [/payments/webhook] and [/payments/methods]) and of
    the five gateway services it dispatches to ([koraPayService],
    [mtnService], [orangeService], [payGateService], [payFastService]),
    followed by the properties of the payment core.

    Conventions of the embedding:
    - JavaScript values are the inductive [Js]; a missing property is
      [JUndefined]; numbers are decimal amounts carried in hundredths.
    - a thrown exception is the [Throw] branch of [Res]; the router's
      [try/catch] blocks are matches on it.
    - the Supabase tables are finite maps keyed by their primary key [id].
    - wall-clock readings ([Date.now()], [new Date()]) are one parameter [now]
      per request, kept as epoch milliseconds.
    - outbound HTTP ([axios]) is answered by an oracle [net]; every request
      issued is appended to [net_log]; every confirmation e-mail handed to the
      e-mail service is appended to [outbox].
    - hashing, JSON rendering and URI coding are Node library functions: they
      are the fields of the class [Runtime] and every result holds for all of
      them. *)

From Stdlib Require Import ZArith Ascii String.
From stdpp Require Import gmap strings list pretty sorting.

Local Open Scope string_scope.
Local Open Scope Z_scope.

(** ** JavaScript values *)

#[local] Set Warnings "-register-all".

Inductive Js : Type :=
  | JUndefined
  | JNull
  | JBool (b : bool)
  | JNum (hundredths : Z)
  | JStr (s : string)
  | JObj (fields : list (string * Js)).

(** ** Exceptions and results *)

Inductive ErrorClass : Type :=
  | PlainError        (* new Error(..) *)
  | TypeError         (* raised by the engine *)
  | URIError          (* raised by decodeURIComponent *)
  | ValidationError   (* AppError, statusCode 400 *)
  | NotFoundError.    (* AppError, statusCode 404 *)

(** An error object: its class, [error.message], and [error.response?.data]
    (set by axios on an HTTP error reply, [undefined] otherwise). *)
Record Exn : Type := mkExn {
  exn_class : ErrorClass;
  exn_message : string;
  exn_response_data : Js
}.

Definition new_Error (msg : string) : Exn := mkExn PlainError msg JUndefined.
Definition new_ValidationError (msg : string) : Exn := mkExn ValidationError msg JUndefined.
Definition new_NotFoundError (msg : string) : Exn := mkExn NotFoundError msg JUndefined.

Inductive Res (A : Type) : Type :=
  | Ok (a : A)
  | Throw (e : Exn).
Arguments Ok {A} a.
Arguments Throw {A} e.

#[global] Instance Res_bind : MBind Res := λ A B k r,
  match r with
  | Ok a => k a
  | Throw e => Throw e
  end.

#[global] Instance Res_ret : MRet Res := λ A a, Ok a.

(** [errorHandler]: [processedError.statusCode || 500]. *)
Definition statusCode (e : Exn) : Z :=
  match exn_class e with
  | ValidationError => 400
  | NotFoundError => 404
  | PlainError | TypeError | URIError => 500
  end.

(** ** String helpers (the [String.prototype] methods the services use) *)

(** [s.split(sep)] for a one-character separator. *)
Fixpoint split (sep : ascii) (s : string) : list string :=
  match s with
  | EmptyString => [EmptyString]
  | String c rest =>
      if Ascii.eqb c sep then EmptyString :: split sep rest
      else match split sep rest with
           | [] => [String c EmptyString]
           | seg :: segs => String c seg :: segs
           end
  end.

(** [parts.join(sep)]. *)
Fixpoint join (sep : string) (parts : list string) : string :=
  match parts with
  | [] => ""
  | [p] => p
  | p :: ps => p +:+ sep +:+ join sep ps
  end.

Definition upper_ascii (c : ascii) : ascii :=
  let n := nat_of_ascii c in
  if (97 <=? n)%nat && (n <=? 122)%nat then ascii_of_nat (n - 32) else c.

(** [s.toUpperCase()] on ASCII text. *)
Fixpoint toUpperCase (s : string) : string :=
  match s with
  | EmptyString => EmptyString
  | String c rest => String (upper_ascii c) (toUpperCase rest)
  end.

Definition lower_ascii (c : ascii) : ascii :=
  let n := nat_of_ascii c in
  if (65 <=? n)%nat && (n <=? 90)%nat then ascii_of_nat (n + 32) else c.

(** [s.toLowerCase()] on ASCII text. *)
Fixpoint toLowerCase (s : string) : string :=
  match s with
  | EmptyString => EmptyString
  | String c rest => String (lower_ascii c) (toLowerCase rest)
  end.

(** [s.slice(-n)]: the last [n] characters. *)
Definition slice_last (n : nat) (s : string) : string :=
  String.substring (String.length s - n) n s.

(** [s.slice(0, -1)]. *)
Definition drop_last (s : string) : string :=
  String.substring 0 (String.length s - 1) s.

(** [s.replace(/%20/g, '+')]. *)
Fixpoint replace_pct20 (s : string) : string :=
  match s with
  | String "%" (String "2" (String "0" rest)) => String "+" (replace_pct20 rest)
  | String c rest => String c (replace_pct20 rest)
  | EmptyString => EmptyString
  end.

(** [s.replace(/\+/g, ' ')]. *)
Fixpoint replace_plus (s : string) : string :=
  match s with
  | String "+" rest => String " " (replace_plus rest)
  | String c rest => String c (replace_plus rest)
  | EmptyString => EmptyString
  end.

(** [s.startsWith(p)]. *)
Definition startsWith (p s : string) : bool := String.prefix p s.

Definition is_digit (c : ascii) : bool :=
  let n := nat_of_ascii c in (48 <=? n)%nat && (n <=? 57)%nat.

(** [s.replace(/\D/g, '')]. *)
Fixpoint digits_only (s : string) : string :=
  match s with
  | EmptyString => EmptyString
  | String c rest =>
      if is_digit c then String c (digits_only rest) else digits_only rest
  end.

(** A string of decimal digits. *)
Fixpoint all_digits (s : string) : bool :=
  match s with
  | EmptyString => true
  | String c rest => is_digit c && all_digits rest
  end.

(** The number a string of decimal digits denotes. *)
Fixpoint decimal (acc : Z) (s : string) : Z :=
  match s with
  | EmptyString => acc
  | String c rest => decimal (10 * acc + (Z.of_nat (nat_of_ascii c) - 48)) rest
  end.

(** The array index a property name denotes, when it is one: the name is
    the canonical decimal rendering of an integer below 2^32 - 1. *)
Definition array_index (k : string) : option Z :=
  if all_digits k && negb (String.eqb k "")
     && (String.eqb k "0" || negb (startsWith "0" k))
     && (decimal 0 k <? 4294967295)
  then Some (decimal 0 k) else None.

(** Insertion of a key into a list sorted by code-unit order, and
    [keys.sort()]. *)
Fixpoint insert_sorted (k : string) (ks : list string) : list string :=
  match ks with
  | [] => [k]
  | k' :: rest =>
      if String.leb k k' then k :: ks else k' :: insert_sorted k rest
  end.

Definition sort_keys (ks : list string) : list string :=
  foldr insert_sorted [] ks.

(** ** Numbers: decimal amounts in hundredths *)

Definition two_digits (n : Z) : string :=
  if n <? 10 then "0" +:+ pretty n else pretty n.

(** The sign in front of the digits of the absolute value. The amounts of
    this program are values of [NUMERIC(12,2)] columns, below ten thousand
    million, where JavaScript prints plain decimals (exponent form begins
    at 1e21). *)
Definition sign (h : Z) : string := if h <? 0 then "-" else "".

(** [x.toFixed(2)]. *)
Definition toFixed2 (h : Z) : string :=
  sign h +:+ pretty (Z.abs h / 100) +:+ "." +:+ two_digits (Z.abs h mod 100).

(** [x.toString()] / [`${x}`]: shortest decimal rendering. *)
Definition number_toString (h : Z) : string :=
  if Z.abs h mod 100 =? 0 then sign h +:+ pretty (Z.abs h / 100)
  else if Z.abs h mod 10 =? 0
       then sign h +:+ pretty (Z.abs h / 100) +:+ "." +:+ pretty ((Z.abs h mod 100) / 10)
  else toFixed2 h.

(** ** Operations on [Js] values *)

(** [`${v}`], [String(v)], [v.toString()] where defined. *)
Definition js_toString (v : Js) : string :=
  match v with
  | JUndefined => "undefined"
  | JNull => "null"
  | JBool true => "true"
  | JBool false => "false"
  | JNum h => number_toString h
  | JStr s => s
  | JObj _ => "[object Object]"
  end.

(** Truthiness, for [!v], [a || b], [a && b], [if (v)]. *)
Definition truthy (v : Js) : bool :=
  match v with
  | JUndefined | JNull => false
  | JBool b => b
  | JNum h => negb (h =? 0)
  | JStr s => negb (String.eqb s "")
  | JObj _ => true
  end.

(** [a || b]. *)
Definition js_or (a b : Js) : Js := if truthy a then a else b.

(** [v === 'lit']. *)
Definition is_str (v : Js) (lit : string) : bool :=
  match v with
  | JStr s => String.eqb s lit
  | _ => false
  end.

Fixpoint assoc (k : string) (fields : list (string * Js)) : Js :=
  match fields with
  | [] => JUndefined
  | (k', v) :: rest => if String.eqb k k' then v else assoc k rest
  end.

Definition type_error_reading (v : Js) (k : string) : Exn :=
  mkExn TypeError
    ("Cannot read properties of " +:+ js_toString v +:+ " (reading '" +:+ k +:+ "')")
    JUndefined.

(** [v.k]: a [TypeError] on [undefined] and [null], [undefined] when the
    property is missing. *)
Definition get (v : Js) (k : string) : Res Js :=
  match v with
  | JUndefined | JNull => Throw (type_error_reading v k)
  | JObj fields => Ok (assoc k fields)
  | _ => Ok JUndefined
  end.

(** [v?.k]. *)
Definition get_opt (v : Js) (k : string) : Js :=
  match v with
  | JObj fields => assoc k fields
  | _ => JUndefined
  end.

(** [Object.keys(v)] of an object literal or parsed body. *)
Definition keys (fields : list (string * Js)) : list string := fields.*1.

(** [delete obj.k]. *)
Definition delete_key (k : string) (fields : list (string * Js)) : list (string * Js) :=
  filter (fun kv => negb (String.eqb (fst kv) k) = true) fields.

(** [obj.k = v] for a name [k] written in the program (none of them is an
    array index): overwrite in place, or append a new property. *)
Fixpoint set_key (k : string) (v : Js) (fields : list (string * Js)) : list (string * Js) :=
  match fields with
  | [] => [(k, v)]
  | (k', v') :: rest =>
      if String.eqb k k' then (k, v) :: rest else (k', v') :: set_key k v rest
  end.

(** A new property whose name is the array index [n]: own properties are
    listed with the array indices first, in ascending order, and the other
    names after them in the order of their creation. *)
Fixpoint insert_index (n : Z) (k : string) (v : Js) (fields : list (string * Js))
    : list (string * Js) :=
  match fields with
  | [] => [(k, v)]
  | (k', v') :: rest =>
      match array_index k' with
      | Some m => if m <? n then (k', v') :: insert_index n k v rest else (k, v) :: fields
      | None => (k, v) :: fields
      end
  end.

(** [obj[k] = v] for a computed name [k] and a string [v], on an object
    made by [{}]: the name [__proto__] is the accessor inherited from
    [Object.prototype], whose setter ignores a value that is not an
    object, so no property is created; an existing property is overwritten
    in place; a new one takes its place in the listing order. *)
Definition assign (k : string) (v : Js) (fields : list (string * Js)) : list (string * Js) :=
  if String.eqb k "__proto__" then fields
  else if bool_decide (k ∈ keys fields) then set_key k v fields
  else match array_index k with
       | Some n => insert_index n k v fields
       | None => (fields ++ [(k, v)])%list
       end.

(** A nullable column as the JSON value the database client returns. *)
Definition nullable {A} (f : A → Js) (x : option A) : Js :=
  match x with
  | Some a => f a
  | None => JNull
  end.

(** ** The Node runtime *)

(** Library functions of Node and of the browser-compatible globals that the
    services call. They are not part of this repository; the development is
    parametric in them. *)
Class Runtime : Type := {
  (** [crypto.createHash('md5').update(s).digest('hex')] *)
  md5_hex : string → string;
  (** [crypto.createHmac('sha512', key).update(s).digest('hex')] *)
  hmac_sha512_hex : string → string → string;
  JSON_stringify : Js → string;
  encodeURIComponent : string → string;
  (** [None] when it throws [URIError] (a malformed escape sequence). *)
  decodeURIComponent : string → option string;
  (** [String.prototype.trim] *)
  trim : string → string;
  (** [new URLSearchParams(obj).toString()] *)
  URLSearchParams_toString : list (string * Js) → string;
  (** [Buffer.from(s).toString('base64')] *)
  base64 : string → string;
  (** [new Date(ms).toISOString()] *)
  toISOString : Z → string
}.

(** ** Configuration *)

(** The fields the five service singletons read from [process.env] in their
    constructors (defaults already applied where the constructor applies one),
    and the environment variables read at call time. A variable that is not
    set is [JUndefined]. *)
Record Config : Type := mkConfig {
  FRONTEND_URL : Js;
  API_URL : Js;
  testMode : bool;                     (* NODE_ENV !== 'production' *)
  kora_baseUrl : string;
  kora_secretKey : Js;
  kora_webhookSecret : Js;
  mtn_baseUrl : string;
  mtn_subscriptionKey : Js;
  mtn_apiKey : Js;
  mtn_apiSecret : Js;
  mtn_environment : string;
  orange_baseUrl : string;
  orange_clientId : Js;
  orange_clientSecret : Js;
  orange_merchantKey : Js;
  paygate_baseUrl : string;
  paygate_payGateId : Js;
  paygate_payGateKey : Js;
  payfast_baseUrl : string;
  payfast_merchantId : Js;
  payfast_merchantKey : Js;
  payfast_passphrase : Js
}.

(** ** Data model: the rows of the tables the router touches *)

(** A nullable column is an [option]: [None] is SQL NULL, which PostgREST
    returns as [null]. [users.full_name] is [TEXT] and [orders.total_price]
    is [NUMERIC(12,2)], both nullable. *)
Record User : Type := mkUser {
  u_id : string;
  u_email : string;
  u_full_name : option string;
  u_country : string;
  u_phone_number : Js
}.

(** A row of [order_items] with its embedded [products(name)]:
    [item_products] is the name of the product row, [None] when
    [product_id] is NULL ([item.products] is then [null]). *)
Record OrderItem : Type := mkOrderItem {
  item_products : option string;
  item_quantity : Z;
  item_unit_price : Z
}.

Record Order : Type := mkOrder {
  o_id : string;
  o_user_id : string;
  o_status : string;            (* fulfillment status *)
  o_payment_status : string;
  o_total_price : option Z;     (* hundredths *)
  o_tracking_number : Js;
  o_promo_code_id : option string;
  o_order_items : list OrderItem;
  o_updated_at : Z
}.

Record Payment : Type := mkPayment {
  p_id : string;
  p_order_id : string;
  p_user_id : string;
  p_payment_method : string;
  p_amount : option Z;
  p_currency : string;
  p_status : string;
  p_gateway_transaction_id : Js;
  p_gateway_response : Js;
  p_processed_at : option Z;
  p_created_at : Z;
  p_updated_at : Z
}.

Record PromoCode : Type := mkPromoCode {
  pc_affiliate_id : option string;
  pc_admin_id : option string
}.

Record AffiliateStat : Type := mkAffiliateStat {
  as_affiliate_id : string;
  as_promo_code_id : string;
  as_user_id : string;
  as_order_id : string;
  as_created_at : Z
}.

(** A line of the confirmation e-mail: [{name, quantity, price}]. *)
Record EmailItem : Type := mkEmailItem {
  ei_name : string;
  ei_quantity : Z;
  ei_price : Z
}.

(** A confirmation e-mail handed to [emailService.sendOrderConfirmationEmail]:
    the address, the members of the order data (all but [estimatedDelivery],
    a rendering of the clock), and the user id. *)
Record Email : Type := mkEmail {
  em_to : string;
  em_name : option string;
  em_orderNumber : string;
  em_orderId : string;
  em_total : option Z;
  em_items : list EmailItem;
  em_trackingNumber : Js;
  em_user_id : string
}.

(** An outbound HTTP request made through axios and its outcome. *)
Record HttpRequest : Type := mkHttpRequest {
  rq_method : string;
  rq_url : string;
  rq_body : Js;
  rq_headers : list (string * string)
}.

Inductive AxiosOutcome : Type :=
  | Responded (status : Z) (data : Js)
  | Failed (message : string) (response_data : Js).

(** ** State: the database, and the log of effects on the outside world *)

Record State : Type := mkState {
  payments : gmap string Payment;
  orders : gmap string Order;
  users : gmap string User;
  promo_codes : gmap string PromoCode;
  affiliate_stats : list AffiliateStat;
  outbox : list Email;
  net_log : list HttpRequest
}.

Definition with_payments (f : gmap string Payment → gmap string Payment) (st : State) : State :=
  mkState (f (payments st)) (orders st) (users st) (promo_codes st)
          (affiliate_stats st) (outbox st) (net_log st).

Definition with_orders (f : gmap string Order → gmap string Order) (st : State) : State :=
  mkState (payments st) (f (orders st)) (users st) (promo_codes st)
          (affiliate_stats st) (outbox st) (net_log st).

Definition with_affiliate_stats (f : list AffiliateStat → list AffiliateStat) (st : State) : State :=
  mkState (payments st) (orders st) (users st) (promo_codes st)
          (f (affiliate_stats st)) (outbox st) (net_log st).

Definition with_outbox (f : list Email → list Email) (st : State) : State :=
  mkState (payments st) (orders st) (users st) (promo_codes st)
          (affiliate_stats st) (f (outbox st)) (net_log st).

Definition with_net_log (f : list HttpRequest → list HttpRequest) (st : State) : State :=
  mkState (payments st) (orders st) (users st) (promo_codes st)
          (affiliate_stats st) (outbox st) (f (net_log st)).

(** ** The monad of a request handler: state passing with exceptions *)

Definition M (A : Type) : Type := State → Res A * State.

Definition ret {A} (a : A) : M A := fun st => (Ok a, st).
Definition throw {A} (e : Exn) : M A := fun st => (Throw e, st).
Definition lift {A} (r : Res A) : M A := fun st => (r, st).

Definition bindM {A B} (m : M A) (k : A → M B) : M B := fun st =>
  match m st with
  | (Ok a, st') => k a st'
  | (Throw e, st') => (Throw e, st')
  end.

(** [try { m } catch (error) { h error }] *)
Definition try_catch {A} (m : M A) (h : Exn → M A) : M A := fun st =>
  match m st with
  | (Ok a, st') => (Ok a, st')
  | (Throw e, st') => h e st'
  end.

Notation "'let*' x ':=' m 'in' k" := (bindM m (fun x => k))
  (at level 10, x name, m at level 100, k at level 200).

(** [await axios.post(url, body, {headers})] and [axios.get]: the request is
    logged and the oracle [net] gives the gateway's answer. axios rejects on a
    transport failure and on a reply outside 2xx; the rejection carries
    [error.message] and [error.response.data]. *)
Definition axios (net : HttpRequest → AxiosOutcome) (rq : HttpRequest) : M (Z * Js) := fun st =>
  let st' := with_net_log (fun l => (l ++ [rq])%list) st in
  match net rq with
  | Responded status data =>
      if (200 <=? status) && (status <? 300) then (Ok (status, data), st')
      else (Throw (mkExn PlainError ("Request failed with status code " +:+ pretty status) data),
            st')
  | Failed message response_data => (Throw (mkExn PlainError message response_data), st')
  end.

(** ** What the services return to the router *)

(** The object returned by every [initializePayment]. *)
Record PaymentResult : Type := mkPaymentResult {
  payment_id : string;
  transaction_id : Js;
  payment_url : Js;
  currency : string;
  expires_at : Z;
  gateway_response : Js;
  instructions : string
}.

(** The object returned by every [handleWebhook] (when it is not [null]). *)
Record WebhookUpdate : Type := mkWebhookUpdate {
  wu_payment_id : Js;
  wu_transaction_id : Js;
  wu_status : string;
  wu_gateway_response : Js
}.

(** A literal lookup table [{ 'k': 'v', ... }] indexed by a string: the own
    properties of the literal. The keys the services look up are country
    codes; for a name that [Object.prototype] defines ([constructor],
    [toString], ...) the code reads the inherited member, which the table
    does not hold. *)
Fixpoint table_get (k : string) (tbl : list (string * string)) : option string :=
  match tbl with
  | [] => None
  | (k', v) :: rest => if String.eqb k k' then Some v else table_get k rest
  end.

(** [`mg_${order.id}_${Date.now()}`] *)
Definition reference_of (order_id : string) (now : Z) : string :=
  "mg_" +:+ order_id +:+ "_" +:+ pretty now.

(** [`Mallgram Order #${order.id.slice(-8).toUpperCase()}`] *)
Definition order_label (order : Order) : string :=
  "Mallgram Order #" +:+ toUpperCase (slice_last 8 (o_id order)).

(** [error.response?.data?.message || error.message], rendered in a template. *)
Definition gateway_error_detail (e : Exn) : string :=
  js_toString (js_or (get_opt (exn_response_data e) "message") (JStr (exn_message e))).

Definition minutes (n : Z) : Z := n * 60 * 1000.

(** The object returned by every [verifyPayment]. *)
Record VerificationResult : Type := mkVerificationResult {
  v_status : string;
  v_response : Js
}.

(** [cond ? 'verified' : 'failed'] *)
Definition verdict (cond : bool) : string := if cond then "verified" else "failed".

(** The message of the [TypeError] that [hash.update(undefined)] throws. *)
Definition invalid_data_argument : string :=
  "The " +:+ String (ascii_of_nat 34) "data" +:+ String (ascii_of_nat 34)
    " argument must be of type string or an instance of Buffer, TypedArray, or DataView. Received undefined".

(** [order.total_price.toString()] *)
Definition total_price_toString (total_price : option Z) : Res string :=
  match total_price with
  | Some h => Ok (number_toString h)
  | None => Throw (type_error_reading JNull "toString")
  end.

(** [order.total_price.toFixed(2)] *)
Definition total_price_toFixed2 (total_price : option Z) : Res string :=
  match total_price with
  | Some h => Ok (toFixed2 h)
  | None => Throw (type_error_reading JNull "toFixed")
  end.

(** [Math.round(order.total_price * 100)]: [null] counts as zero. *)
Definition total_price_cents (total_price : option Z) : Js :=
  match total_price with
  | Some h => JNum (h * 100)
  | None => JNum 0
  end.

(** [user.full_name.split(' ')] *)
Definition full_name_split (full_name : option string) : Res (list string) :=
  match full_name with
  | Some name => Ok (split " " name)
  | None => Throw (type_error_reading JNull "split")
  end.

Module KoraPay.
Section KoraPay.
Context {rt : Runtime} (cfg : Config) (net : HttpRequest → AxiosOutcome) (now : Z).

Definition currencyMap : list (string * string) :=
  [("ZA", "ZAR"); ("NG", "NGN"); ("KE", "KES"); ("GH", "GHS"); ("CM", "XAF")].

Definition getCurrency (country : string) : string :=
  default "USD" (table_get country currencyMap).

Definition paymentData (order : Order) (user : User) (returnUrl : Js) : list (string * Js) :=
  [ ("amount", nullable JNum (o_total_price order));
    ("currency", JStr (getCurrency (u_country user)));
    ("reference", JStr (reference_of (o_id order) now));
    ("customer", JObj [ ("name", nullable JStr (u_full_name user));
                        ("email", JStr (u_email user));
                        ("phone", u_phone_number user) ]);
    ("redirect_url",
      js_or returnUrl (JStr (js_toString (FRONTEND_URL cfg) +:+ "/payment/success")));
    ("notification_url", JStr (js_toString (API_URL cfg) +:+ "/payments/webhook"));
    ("description", JStr (order_label order));
    ("metadata", JObj [ ("order_id", JStr (o_id order));
                        ("user_id", JStr (u_id user));
                        ("platform", JStr "mallgram") ]) ].

Definition initializePayment (order : Order) (user : User) (returnUrl : Js) : M PaymentResult :=
  try_catch
    (let data := paymentData order user returnUrl in
     let* response := axios net
       (mkHttpRequest "POST" (kora_baseUrl cfg +:+ "/merchant/api/v1/charges/initialize")
          (JObj data)
          [ ("Authorization", "Bearer " +:+ js_toString (kora_secretKey cfg));
            ("Content-Type", "application/json") ]) in
     let result := snd response in
     let* status := lift (get result "status") in
     let* rdata := lift (get result "data") in
     if truthy status && truthy rdata then
       let* reference := lift (get rdata "reference") in
       let* checkout_url := lift (get rdata "checkout_url") in
       ret {| payment_id := reference_of (o_id order) now;
              transaction_id := reference;
              payment_url := checkout_url;
              currency := getCurrency (u_country user);
              expires_at := now + minutes 30;
              gateway_response := result;
              instructions := "You will be redirected to complete your payment securely." |}
     else
       let* message := lift (get result "message") in
       throw (new_Error (js_toString (js_or message (JStr "Payment initialization failed")))))
    (fun error => throw (new_Error ("Kora Pay error: " +:+ gateway_error_detail error))).

(** [verifyWebhookSignature(payload, signature)]: [JSON.stringify] of
    [undefined] is [undefined], which [hmac.update] refuses. *)
Definition verifyWebhookSignature (payload signature : Js) : Res bool :=
  if negb (truthy (kora_webhookSecret cfg)) then Ok true
  else
    match payload with
    | JUndefined => Throw (mkExn TypeError invalid_data_argument JUndefined)
    | _ =>
        Ok (is_str signature
              (hmac_sha512_hex (js_toString (kora_webhookSecret cfg)) (JSON_stringify payload)))
    end.

(** [event.data.reference.split('_')[1]] *)
Definition reference_segment (event : Js) : Res (Js * Js) :=
  data ← get event "data";
  reference ← get data "reference";
  match reference with
  | JStr s => Ok (default JUndefined (JStr <$> (split "_" s !! 1%nat)), reference)
  | JUndefined | JNull => Throw (type_error_reading reference "split")
  | _ => Throw (mkExn TypeError "event.data.reference.split is not a function" JUndefined)
  end.

Definition handleWebhook (payload signature : Js) : Res (option WebhookUpdate) :=
  valid ← verifyWebhookSignature payload signature;
  if negb valid then
    Throw (new_Error "Invalid webhook signature")
  else
    let event := payload in
    ev ← get event "event";
    if is_str ev "charge.success" then
      seg ← reference_segment event;
      Ok (Some {| wu_payment_id := fst seg; wu_transaction_id := snd seg;
                  wu_status := "success"; wu_gateway_response := event |})
    else if is_str ev "charge.failed" then
      seg ← reference_segment event;
      Ok (Some {| wu_payment_id := fst seg; wu_transaction_id := snd seg;
                  wu_status := "failed"; wu_gateway_response := event |})
    else Ok None.

(** [verifyPayment(paymentId, transactionReference)] *)
Definition verifyPayment (paymentId transactionReference : Js) : M VerificationResult :=
  try_catch
    (let* response := axios net
       (mkHttpRequest "GET"
          (kora_baseUrl cfg +:+ "/merchant/api/v1/charges/" +:+ js_toString transactionReference)
          JUndefined
          [ ("Authorization", "Bearer " +:+ js_toString (kora_secretKey cfg)) ]) in
     let result := snd response in
     let* data := lift (get result "data") in
     let* status := lift (get data "status") in
     ret {| v_status := verdict (is_str status "success"); v_response := result |})
    (fun error => throw (new_Error ("Verification failed: " +:+ exn_message error))).
End KoraPay.
End KoraPay.

(** [phoneNumber.replace(/\D/g, '')]: the router passes [req.body.phone_number]
    as it came; [replace] exists on strings only. *)
Definition phone_digits (phoneNumber : Js) : Res string :=
  match phoneNumber with
  | JStr s => Ok (digits_only s)
  | JUndefined | JNull => Throw (type_error_reading phoneNumber "replace")
  | _ => Throw (mkExn TypeError "phoneNumber.replace is not a function" JUndefined)
  end.

(** The shared body of the two [formatPhoneNumber] methods, before the
    Orange-only [+] prefix. *)
Definition with_country_code (countryCodes : list (string * string))
    (cleaned country : string) : string :=
  match table_get country countryCodes with
  | Some countryCode =>
      if negb (String.eqb countryCode "") && negb (startsWith countryCode cleaned) then
        countryCode +:+ (if startsWith "0" cleaned
                         then String.substring 1 (String.length cleaned - 1) cleaned
                         else cleaned)
      else cleaned
  | None => cleaned
  end.

Module MTN.
Section MTN.
Context {rt : Runtime} (cfg : Config) (net : HttpRequest → AxiosOutcome) (now : Z).

Definition countryCodes : list (string * string) :=
  [("CM", "237"); ("GH", "233"); ("UG", "256"); ("RW", "250"); ("ZM", "260")].

Definition currencyMap : list (string * string) :=
  [("CM", "XAF"); ("GH", "GHS"); ("UG", "UGX"); ("RW", "RWF"); ("ZM", "ZMW")].

Definition getCurrency (country : string) : string :=
  default "XAF" (table_get country currencyMap).

Definition formatPhoneNumber (phoneNumber : Js) (country : string) : Res string :=
  cleaned ← phone_digits phoneNumber;
  Ok (with_country_code countryCodes cleaned country).

Definition getAccessToken : M Js :=
  try_catch
    (let credentials :=
       base64 (js_toString (mtn_apiKey cfg) +:+ ":" +:+ js_toString (mtn_apiSecret cfg)) in
     let* response := axios net
       (mkHttpRequest "POST" (mtn_baseUrl cfg +:+ "/collection/token/") (JObj [])
          [ ("Authorization", "Basic " +:+ credentials);
            ("Ocp-Apim-Subscription-Key", js_toString (mtn_subscriptionKey cfg)) ]) in
     lift (get (snd response) "access_token"))
    (fun _ => throw (new_Error "Failed to get MTN access token")).

Definition initializePayment (order : Order) (user : User) (phoneNumber : Js) : M PaymentResult :=
  try_catch
    (let* accessToken := getAccessToken in
     let* amount := lift (total_price_toString (o_total_price order)) in
     let cur := getCurrency (u_country user) in
     let externalId := reference_of (o_id order) now in
     let* partyId := lift (formatPhoneNumber phoneNumber (u_country user)) in
     let paymentData :=
       [ ("amount", JStr amount);
         ("currency", JStr cur);
         ("externalId", JStr externalId);
         ("payer", JObj [ ("partyIdType", JStr "MSISDN"); ("partyId", JStr partyId) ]);
         ("payerMessage", JStr ("Payment for " +:+ order_label order));
         ("payeeNote", JStr "Mallgram order payment") ] in
     let* response := axios net
       (mkHttpRequest "POST" (mtn_baseUrl cfg +:+ "/collection/v1_0/requesttopay")
          (JObj paymentData)
          [ ("Authorization", "Bearer " +:+ js_toString accessToken);
            ("X-Reference-Id", externalId);
            ("X-Target-Environment", mtn_environment cfg);
            ("Content-Type", "application/json");
            ("Ocp-Apim-Subscription-Key", js_toString (mtn_subscriptionKey cfg)) ]) in
     if fst response =? 202 then
       ret {| payment_id := externalId;
              transaction_id := JStr externalId;
              payment_url := JNull;
              currency := cur;
              expires_at := now + minutes 15;
              gateway_response := snd response;
              instructions :=
                "Please check your phone for the MTN Mobile Money payment request and follow the prompts to complete your payment of "
                +:+ cur +:+ " " +:+ amount +:+ "." |}
     else throw (new_Error "Payment initialization failed"))
    (fun error => throw (new_Error ("MTN MoMo error: " +:+ gateway_error_detail error))).

(** [handleWebhook(payload, signature)]: the signature argument is not used. *)
Definition handleWebhook (payload signature : Js) : Res (option WebhookUpdate) :=
  status ← get payload "status";
  referenceId ← get payload "referenceId";
  financialTransactionId ← get payload "financialTransactionId";
  if is_str status "SUCCESSFUL" then
    Ok (Some {| wu_payment_id := referenceId;
                wu_transaction_id := js_or financialTransactionId referenceId;
                wu_status := "success";
                wu_gateway_response := payload |})
  else if is_str status "FAILED" then
    Ok (Some {| wu_payment_id := referenceId;
                wu_transaction_id := referenceId;
                wu_status := "failed";
                wu_gateway_response := payload |})
  else Ok None.

(** [verifyPayment(paymentId, transactionReference)] *)
Definition verifyPayment (paymentId transactionReference : Js) : M VerificationResult :=
  try_catch
    (let* accessToken := getAccessToken in
     let* response := axios net
       (mkHttpRequest "GET"
          (mtn_baseUrl cfg +:+ "/collection/v1_0/requesttopay/" +:+ js_toString transactionReference)
          JUndefined
          [ ("Authorization", "Bearer " +:+ js_toString accessToken);
            ("X-Target-Environment", mtn_environment cfg);
            ("Ocp-Apim-Subscription-Key", js_toString (mtn_subscriptionKey cfg)) ]) in
     let result := snd response in
     let* status := lift (get result "status") in
     ret {| v_status := verdict (is_str status "SUCCESSFUL"); v_response := result |})
    (fun error => throw (new_Error ("Verification failed: " +:+ exn_message error))).

(** [checkPaymentStatus(transactionReference)], for polling. *)
Definition checkPaymentStatus (transactionReference : Js) : M bool :=
  try_catch
    (let* verification := verifyPayment JNull transactionReference in
     ret (String.eqb (v_status verification) "verified"))
    (fun _ => ret false).
End MTN.
End MTN.

Module Orange.
Section Orange.
Context {rt : Runtime} (cfg : Config) (net : HttpRequest → AxiosOutcome) (now : Z).

Definition countryCodes : list (string * string) :=
  [("CM", "237"); ("SN", "221"); ("ML", "223"); ("BF", "226"); ("CI", "225");
   ("NE", "227"); ("MG", "261")].

Definition currencyMap : list (string * string) :=
  [("CM", "XAF"); ("SN", "XOF"); ("ML", "XOF"); ("BF", "XOF"); ("CI", "XOF");
   ("NE", "XOF"); ("MG", "MGA")].

Definition getCurrency (country : string) : string :=
  default "XAF" (table_get country currencyMap).

Definition formatPhoneNumber (phoneNumber : Js) (country : string) : Res string :=
  cleaned ← phone_digits phoneNumber;
  Ok ("+" +:+ with_country_code countryCodes cleaned country).

Definition supportedCountries : list string := ["CM"; "SN"; "ML"; "BF"; "CI"; "NE"; "MG"].

Definition isAvailableInCountry (country : string) : bool :=
  bool_decide (country ∈ supportedCountries).

Definition getAccessToken : M Js :=
  try_catch
    (let credentials :=
       base64 (js_toString (orange_clientId cfg) +:+ ":" +:+ js_toString (orange_clientSecret cfg)) in
     let* response := axios net
       (mkHttpRequest "POST" (orange_baseUrl cfg +:+ "/oauth/v2/token")
          (JStr "grant_type=client_credentials")
          [ ("Authorization", "Basic " +:+ credentials);
            ("Content-Type", "application/x-www-form-urlencoded");
            ("Accept", "application/json") ]) in
     lift (get (snd response) "access_token"))
    (fun _ => throw (new_Error "Failed to get Orange Money access token")).

Definition initializePayment (order : Order) (user : User) (phoneNumber : Js) : M PaymentResult :=
  try_catch
    (let* accessToken := getAccessToken in
     let cur := getCurrency (u_country user) in
     let order_id := reference_of (o_id order) now in
     let* phone := lift (formatPhoneNumber phoneNumber (u_country user)) in
     let paymentData :=
       [ ("merchant_key", orange_merchantKey cfg);
         ("currency", JStr cur);
         ("order_id", JStr order_id);
         ("amount", nullable JNum (o_total_price order));
         ("return_url", JStr (js_toString (FRONTEND_URL cfg) +:+ "/payment/success"));
         ("cancel_url", JStr (js_toString (FRONTEND_URL cfg) +:+ "/payment/cancel"));
         ("notif_url", JStr (js_toString (API_URL cfg) +:+ "/payments/webhook"));
         ("lang", JStr "en");
         ("reference", JStr (order_label order));
         ("customer", JObj [ ("name", nullable JStr (u_full_name user));
                             ("email", JStr (u_email user));
                             ("phone", JStr phone) ]) ] in
     let* response := axios net
       (mkHttpRequest "POST" (orange_baseUrl cfg +:+ "/orange-money-webpay/dev/v1/webpayment")
          (JObj paymentData)
          [ ("Authorization", "Bearer " +:+ js_toString accessToken);
            ("Content-Type", "application/json");
            ("Accept", "application/json") ]) in
     let result := snd response in
     let* status := lift (get result "status") in
     let* pay_token := lift (get result "pay_token") in
     if truthy status && truthy pay_token then
       let* url := lift (get result "payment_url") in
       ret {| payment_id := order_id;
              transaction_id := pay_token;
              payment_url := url;
              currency := cur;
              expires_at := now + minutes 30;
              gateway_response := result;
              instructions := "You will be redirected to Orange Money to complete your payment." |}
     else
       let* message := lift (get result "message") in
       throw (new_Error (js_toString (js_or message (JStr "Payment initialization failed")))))
    (fun error => throw (new_Error ("Orange Money error: " +:+ gateway_error_detail error))).

(** [verifyWebhookSignature(payload, signature)]; the inner [try/catch]
    turns a [signature] without [toLowerCase] into [false]. *)
Definition verifyWebhookSignature (payload signature : Js) : bool :=
  if negb (truthy (orange_merchantKey cfg)) then true
  else
    let expectedSignature :=
      md5_hex (JSON_stringify payload +:+ js_toString (orange_merchantKey cfg)) in
    match signature with
    | JStr s => String.eqb (toLowerCase s) (toLowerCase expectedSignature)
    | _ => false
    end.

Definition handleWebhook (payload signature : Js) : Res (option WebhookUpdate) :=
  if truthy signature && negb (verifyWebhookSignature payload signature) then
    Throw (new_Error "Invalid webhook signature")
  else
    status ← get payload "status";
    order_id ← get payload "order_id";
    txnid ← get payload "txnid";
    pay_token ← get payload "pay_token";
    if is_str status "SUCCESS" then
      Ok (Some {| wu_payment_id := order_id;
                  wu_transaction_id := js_or txnid pay_token;
                  wu_status := "success";
                  wu_gateway_response := payload |})
    else if is_str status "FAILED" || is_str status "CANCELLED" then
      Ok (Some {| wu_payment_id := order_id;
                  wu_transaction_id := js_or txnid pay_token;
                  wu_status := "failed";
                  wu_gateway_response := payload |})
    else Ok None.

(** [verifyPayment(paymentId, transactionReference)] *)
Definition verifyPayment (paymentId transactionReference : Js) : M VerificationResult :=
  try_catch
    (let* accessToken := getAccessToken in
     let* response := axios net
       (mkHttpRequest "POST" (orange_baseUrl cfg +:+ "/orange-money-webpay/dev/v1/transactionstatus")
          (JObj [ ("order_id", paymentId); ("amount", JNull); ("pay_token", transactionReference) ])
          [ ("Authorization", "Bearer " +:+ js_toString accessToken);
            ("Content-Type", "application/json") ]) in
     let result := snd response in
     let* status := lift (get result "status") in
     ret {| v_status := verdict (is_str status "SUCCESS"); v_response := result |})
    (fun error => throw (new_Error ("Verification failed: " +:+ exn_message error))).
End Orange.
End Orange.

(** ** Form-encoded bodies (PayGate and PayFast) *)

(** [Object.keys(data)] and [data[key]] on whatever the body parser produced:
    a primitive has no own enumerable keys. *)
Definition fields_of (data : Js) : list (string * Js) :=
  match data with
  | JObj fields => fields
  | _ => []
  end.

Section FormData.
Context {rt : Runtime}.

(** [decodeURIComponent(s)] *)
Definition decode (s : string) : Res string :=
  match decodeURIComponent s with
  | Some decoded => Ok decoded
  | None => Throw (mkExn URIError "URI malformed" JUndefined)
  end.

(** One step of the [forEach] of [parseFormData]; [plus] says whether the
    value has its [+] replaced by a space before decoding (PayFast does,
    PayGate does not). *)
Definition form_step (plus : bool) (result : list (string * Js)) (entry : string)
    : Res (list (string * Js)) :=
  match split "=" entry with
  | key :: value :: _ =>
      if negb (String.eqb key "") then
        name ← decode key;
        text ← decode (if plus then replace_plus value else value);
        Ok (assign name (JStr text) result)
      else Ok result
  | _ => Ok result
  end.

(** [pairs.forEach(step)]: an exception leaves the loop. *)
Fixpoint for_each (step : list (string * Js) → string → Res (list (string * Js)))
    (result : list (string * Js)) (pairs : list string) : Res (list (string * Js)) :=
  match pairs with
  | [] => Ok result
  | entry :: rest => result' ← step result entry; for_each step result' rest
  end.

(** [parseFormData(formString)] *)
Definition parseFormData (plus : bool) (formString : string) : Res Js :=
  result ← for_each (form_step plus) [] (split "&" formString);
  Ok (JObj result).

(** [typeof payload === 'string' ? this.parseFormData(payload) : payload] *)
Definition form_data (plus : bool) (payload : Js) : Res Js :=
  match payload with
  | JStr s => parseFormData plus s
  | _ => Ok payload
  end.
End FormData.

Module PayGate.
Section PayGate.
Context {rt : Runtime} (cfg : Config) (net : HttpRequest → AxiosOutcome) (now : Z).

(** An element of [array.join('')]: [undefined] and [null] render empty. *)
Definition join_item (v : Js) : string :=
  match v with
  | JUndefined | JNull => ""
  | _ => js_toString v
  end.

(** [generateChecksum(data)] *)
Definition generateChecksum (data : list (string * Js)) : string :=
  let sortedKeys :=
    sort_keys (filter (fun key => negb (String.eqb key "CHECKSUM") = true) (keys data)) in
  let valueString := join "" ((fun key => join_item (assoc key data)) <$> sortedKeys) in
  let stringToHash := valueString +:+ js_toString (paygate_payGateKey cfg) in
  toUpperCase (md5_hex stringToHash).

(** [verifyChecksum(data)] *)
Definition verifyChecksum (data : Js) : Res bool :=
  receivedChecksum ← get data "CHECKSUM";
  Ok (is_str receivedChecksum (generateChecksum (fields_of data))).

Fixpoint replace_first_T (s : string) : string :=
  match s with
  | String "T" rest => String " " rest
  | String c rest => String c (replace_first_T rest)
  | EmptyString => EmptyString
  end.

Definition double_quote : ascii := ascii_of_nat 34.

(** The longest prefix free of ampersands and double quotes. *)
Fixpoint take_token (s : string) : string :=
  match s with
  | String c rest =>
      if Ascii.eqb c "&" || Ascii.eqb c double_quote then EmptyString
      else String c (take_token rest)
  | EmptyString => EmptyString
  end.

(** The first capture group of [responseText.match(re)], where [re] is
    PAY_REQUEST_ID= followed by one or more characters other than an
    ampersand or a double quote. *)
Fixpoint match_PAY_REQUEST_ID (s : string) : option string :=
  match s with
  | EmptyString => None
  | String _ rest =>
      if startsWith "PAY_REQUEST_ID=" s then
        let token := take_token (String.substring 15 (String.length s - 15) s) in
        if String.eqb token "" then match_PAY_REQUEST_ID rest else Some token
      else match_PAY_REQUEST_ID rest
  end.

Definition paymentData (order : Order) (user : User) (returnUrl : Js) : list (string * Js) :=
  [ ("PAYGATE_ID", paygate_payGateId cfg);
    ("REFERENCE", JStr (reference_of (o_id order) now));
    ("AMOUNT", total_price_cents (o_total_price order));
    ("CURRENCY", JStr "ZAR");
    ("RETURN_URL",
      js_or returnUrl (JStr (js_toString (FRONTEND_URL cfg) +:+ "/payment/success")));
    ("TRANSACTION_DATE",
      JStr (replace_first_T (String.substring 0 19 (toISOString now))));
    ("LOCALE", JStr "en-za");
    ("COUNTRY", JStr "ZAF");
    ("EMAIL", JStr (u_email user));
    ("PAY_METHOD", JStr "");
    ("PAY_METHOD_DETAIL", JStr "");
    ("NOTIFY_URL", JStr (js_toString (API_URL cfg) +:+ "/payments/webhook"));
    ("USER1", JStr (o_id order));
    ("USER2", JStr (u_id user));
    ("USER3", JStr "mallgram") ].

Definition initializePayment (order : Order) (user : User) (returnUrl : Js) : M PaymentResult :=
  try_catch
    (let data := paymentData order user returnUrl in
     let data := set_key "CHECKSUM" (JStr (generateChecksum data)) data in
     let* response := axios net
       (mkHttpRequest "POST" (paygate_baseUrl cfg) (JObj data)
          [ ("Content-Type", "application/x-www-form-urlencoded") ]) in
     let responseText := snd response in
     let* payRequestId := lift
       match responseText with
       | JStr s => Ok (match_PAY_REQUEST_ID s)
       | JUndefined | JNull => Throw (type_error_reading responseText "match")
       | _ => Throw (mkExn TypeError "responseText.match is not a function" JUndefined)
       end in
     match payRequestId with
     | Some id =>
         ret {| payment_id := reference_of (o_id order) now;
                transaction_id := JStr id;
                payment_url :=
                  JStr ("https://secure.paygate.co.za/payweb3/process.trans?PAY_REQUEST_ID=" +:+ id);
                currency := "ZAR";
                expires_at := now + minutes 30;
                gateway_response := JObj [ ("PAY_REQUEST_ID", JStr id) ];
                instructions := "You will be redirected to PayGate to complete your payment securely." |}
     | None => throw (new_Error "Failed to get payment URL from PayGate")
     end)
    (fun error =>
       throw (new_Error ("PayGate error: " +:+
                         js_toString (js_or (exn_response_data error) (JStr (exn_message error)))))).

(** The status table of [handleWebhook]. *)
Definition map_status (transactionStatus : Js) : string :=
  if is_str transactionStatus "1" then "success"
  else if is_str transactionStatus "2" then "failed"
  else if is_str transactionStatus "4" then "cancelled"
  else "pending".

Definition handleWebhook (payload signature : Js) : Res (option WebhookUpdate) :=
  data ← form_data false payload;
  valid ← verifyChecksum data;
  if negb valid then Throw (new_Error "Invalid PayGate checksum")
  else
    transactionStatus ← get data "TRANSACTION_STATUS";
    user1 ← get data "USER1";
    pay_request_id ← get data "PAY_REQUEST_ID";
    Ok (Some {| wu_payment_id := user1;
                wu_transaction_id := pay_request_id;
                wu_status := map_status transactionStatus;
                wu_gateway_response := data |}).

Definition isAvailableInCountry (country : string) : bool := String.eqb country "ZA".

(** [verifyPayment(paymentId, transactionReference)] *)
Definition verifyPayment (paymentId transactionReference : Js) : M VerificationResult :=
  try_catch
    (let queryData :=
       [ ("PAYGATE_ID", paygate_payGateId cfg);
         ("PAY_REQUEST_ID", transactionReference);
         ("REFERENCE", paymentId) ] in
     let queryData := set_key "CHECKSUM" (JStr (generateChecksum queryData)) queryData in
     let* response := axios net
       (mkHttpRequest "POST" "https://secure.paygate.co.za/payweb3/query.trans" (JObj queryData)
          [ ("Content-Type", "application/x-www-form-urlencoded") ]) in
     let* result := lift
       match snd response with
       | JStr s => parseFormData false s
       | JUndefined | JNull => Throw (type_error_reading (snd response) "split")
       | _ => Throw (mkExn TypeError "formString.split is not a function" JUndefined)
       end in
     let* status := lift (get result "TRANSACTION_STATUS") in
     ret {| v_status := verdict (is_str status "1"); v_response := result |})
    (fun error => throw (new_Error ("Verification failed: " +:+ exn_message error))).
End PayGate.
End PayGate.

Module PayFast.
Section PayFast.
Context {rt : Runtime} (cfg : Config) (net : HttpRequest → AxiosOutcome) (now : Z).

Definition sandboxUrl : string := "https://sandbox.payfast.co.za/eng/process".

(** [encodeURIComponent(s.trim()).replace(/%20/g, '+')] *)
Definition encode_plus (s : string) : string :=
  replace_pct20 (encodeURIComponent (trim s)).

Definition signed_key (data : list (string * Js)) (key : string) : bool :=
  negb (String.eqb key "signature") &&
  match assoc key data with
  | JStr "" | JNull | JUndefined => false
  | _ => true
  end.

(** [generateSignature(data)] *)
Definition generateSignature (data : list (string * Js)) : string :=
  let sortedKeys := sort_keys (filter (fun key => signed_key data key = true) (keys data)) in
  let paramString :=
    drop_last (String.concat ""
      ((fun key => key +:+ "=" +:+ encode_plus (js_toString (assoc key data)) +:+ "&")
         <$> sortedKeys)) in
  let paramString :=
    if truthy (payfast_passphrase cfg)
    then paramString +:+ "&passphrase=" +:+ encode_plus (js_toString (payfast_passphrase cfg))
    else paramString in
  md5_hex paramString.

(** [verifySignature(data)]: the [signature] property is deleted from the
    object it is given, which is the request body itself; the second
    component is that object afterwards. *)
Definition verifySignature (data : Js) : Res (bool * Js) :=
  receivedSignature ← get data "signature";
  let data' := match data with
               | JObj fields => JObj (delete_key "signature" fields)
               | _ => data
               end in
  Ok (is_str receivedSignature (generateSignature (fields_of data')), data').

(** [validatePayment(data)]: asks PayFast whether the notification is its
    own; any failure of the request counts as not valid. *)
Definition validatePayment (data : Js) : M bool :=
  try_catch
    (let validateUrl :=
       if testMode cfg then "https://sandbox.payfast.co.za/eng/query/validate"
       else "https://www.payfast.co.za/eng/query/validate" in
     let fields := fields_of data in
     let paramString :=
       drop_last (String.concat ""
         ((fun key => key +:+ "=" +:+ encodeURIComponent (js_toString (assoc key fields)) +:+ "&")
            <$> filter (fun key => negb (String.eqb key "signature") = true) (keys fields))) in
     let* response := axios net
       (mkHttpRequest "POST" validateUrl (JStr paramString)
          [ ("Content-Type", "application/x-www-form-urlencoded") ]) in
     ret (is_str (snd response) "VALID"))
    (fun _ => ret false).

Definition paymentData (order : Order) (user : User) (returnUrl : Js)
    : Res (list (string * Js)) :=
  names ← full_name_split (u_full_name user);
  amount ← total_price_toFixed2 (o_total_price order);
  Ok
  [ ("merchant_id", payfast_merchantId cfg);
    ("merchant_key", payfast_merchantKey cfg);
    ("return_url",
      js_or returnUrl (JStr (js_toString (FRONTEND_URL cfg) +:+ "/payment/success")));
    ("cancel_url", JStr (js_toString (FRONTEND_URL cfg) +:+ "/payment/cancel"));
    ("notify_url", JStr (js_toString (API_URL cfg) +:+ "/payments/webhook"));
    ("name_first", js_or (JStr (default "" (head names))) (nullable JStr (u_full_name user)));
    ("name_last", js_or (JStr (join " " (tail names))) (JStr ""));
    ("email_address", JStr (u_email user));
    ("m_payment_id", JStr (reference_of (o_id order) now));
    ("amount", JStr amount);
    ("item_name", JStr (order_label order));
    ("item_description",
      JStr ("Payment for Mallgram order containing " +:+
            pretty (match o_order_items order with
                    | [] => 1%nat
                    | items => length items
                    end) +:+ " items"));
    ("custom_str1", JStr (o_id order));
    ("custom_str2", JStr (u_id user));
    ("custom_str3", JStr "mallgram");
    ("email_confirmation", JStr "1");
    ("confirmation_address", JStr (u_email user)) ].

Definition initializePayment (order : Order) (user : User) (returnUrl : Js) : M PaymentResult :=
  try_catch
    (let reference := reference_of (o_id order) now in
     let* data := lift (paymentData order user returnUrl) in
     let data := if truthy (payfast_passphrase cfg)
                 then set_key "passphrase" (payfast_passphrase cfg) data else data in
     let data := set_key "signature" (JStr (generateSignature data)) data in
     let data := delete_key "passphrase" data in
     let paymentUrl := if testMode cfg then sandboxUrl else payfast_baseUrl cfg in
     ret {| payment_id := reference;
            transaction_id := JStr reference;
            payment_url := JStr (paymentUrl +:+ "?" +:+ URLSearchParams_toString data);
            currency := "ZAR";
            expires_at := now + minutes 30;
            gateway_response := JObj data;
            instructions := "You will be redirected to PayFast to complete your payment securely." |})
    (fun error => throw (new_Error ("PayFast error: " +:+ exn_message error))).

(** The status table of [handleWebhook]. *)
Definition map_status (paymentStatus : Js) : string :=
  if is_str paymentStatus "COMPLETE" then "success"
  else if is_str paymentStatus "FAILED" || is_str paymentStatus "CANCELLED" then "failed"
  else "pending".

Definition handleWebhook (payload signature : Js) : M (option WebhookUpdate) :=
  let* data := lift (form_data true payload) in
  let* verified := lift (verifySignature data) in
  let data := snd verified in
  if negb (fst verified) then throw (new_Error "Invalid PayFast signature")
  else
    let* isValid := validatePayment data in
    if negb isValid then throw (new_Error "Payment validation failed")
    else
      let* paymentStatus := lift (get data "payment_status") in
      let* custom_str1 := lift (get data "custom_str1") in
      let* pf_payment_id := lift (get data "pf_payment_id") in
      let* m_payment_id := lift (get data "m_payment_id") in
      ret (Some {| wu_payment_id := custom_str1;
                   wu_transaction_id := js_or pf_payment_id m_payment_id;
                   wu_status := map_status paymentStatus;
                   wu_gateway_response := data |}).

Definition isAvailableInCountry (country : string) : bool := String.eqb country "ZA".

(** [verifyPayment(paymentId, transactionReference)]: PayFast has no query
    endpoint; the method answers without asking anyone. *)
Definition verifyPayment (paymentId transactionReference : Js) : M VerificationResult :=
  ret {| v_status := "verified";
         v_response := JObj [ ("message", JStr "PayFast verification completed via webhook") ] |}.
End PayFast.
End PayFast.

(** ** The router: [routes/payments.js] *)

(** A descriptor in the table of [GET /payments/methods]. *)
Record PaymentMethod : Type := mkPaymentMethod {
  pm_id : string;
  pm_name : string;
  pm_type : string;
  pm_logo : string;
  pm_description : string;
  pm_fees : string
}.

(** The body of a successful [POST /payments/initialize]. *)
Record InitResponse : Type := mkInitResponse {
  r_payment_id : string;
  r_payment_url : Js;
  r_payment_method : string;
  r_amount : option Z;
  r_currency : string;
  r_expires_at : Z;
  r_instructions : string
}.

(** What [POST /payments/webhook] sends back: the HTTP status and the text of
    [message] (on 200) or [error] (on 400). *)
Record WebhookResponse : Type := mkWebhookResponse {
  http_status : Z;
  http_text : string
}.

(** The [order] member of the body of [GET /payments/status/:id]: the
    columns [orders(id, status, payment_status, total_price)]. *)
Record OrderSummary : Type := mkOrderSummary {
  os_id : string;
  os_status : string;
  os_payment_status : string;
  os_total_price : option Z
}.

(** The body of [GET /payments/status/:id]. *)
Record StatusResponse : Type := mkStatusResponse {
  s_payment_id : string;
  s_status : string;
  s_amount : option Z;
  s_currency : string;
  s_payment_method : string;
  s_created_at : Z;
  s_processed_at : option Z;
  s_order : option OrderSummary
}.

(** The body of [POST /payments/verify]. *)
Record VerifyResponse : Type := mkVerifyResponse {
  vr_payment_id : Js;
  vr_verification_status : string;
  vr_gateway_response : Js;
  vr_verified_at : Z
}.

Inductive WebhookSource : Type :=
  | FromKora | FromMTN | FromOrange | FromPayGate | FromPayFast.

Module Router.

Definition paymentMethods : list (string * list PaymentMethod) :=
  [ ("ZA",
      [ mkPaymentMethod "paygate" "PayGate" "card" "/images/paygate-logo.png"
          "Credit/Debit Cards, EFT" "2.9% + R2.00";
        mkPaymentMethod "payfast" "PayFast" "card" "/images/payfast-logo.png"
          "Credit/Debit Cards, EFT, SnapScan" "2.9% + R2.00";
        mkPaymentMethod "kora" "Kora Pay" "card" "/images/kora-logo.png"
          "All major cards" "3.5%" ]);
    ("CM",
      [ mkPaymentMethod "orange" "Orange Money" "mobile_money" "/images/orange-logo.png"
          "Mobile Money" "1.5%";
        mkPaymentMethod "mtn" "MTN Mobile Money" "mobile_money" "/images/mtn-logo.png"
          "Mobile Money" "1.5%";
        mkPaymentMethod "kora" "Kora Pay" "card" "/images/kora-logo.png"
          "Credit/Debit Cards" "3.5%" ]) ].

(** [paymentMethods[country] || []], the list served for a given country. *)
Fixpoint methods_of (country : string) (tbl : list (string * list PaymentMethod))
    : list PaymentMethod :=
  match tbl with
  | [] => []
  | (c, ms) :: rest => if String.eqb country c then ms else methods_of country rest
  end.

Definition listAvailableMethods (country : string) : list PaymentMethod :=
  methods_of country paymentMethods.

(** Membership of a (method, country) pair in the static table. *)
Definition in_table (method country : string) : bool :=
  bool_decide (method ∈ pm_id <$> listAvailableMethods country).

(** *** The module's own [this]

    The route handlers are arrow functions: inside them [this] is the
    module's [this], the object [module.exports] had when the file started
    to load. Nothing is ever assigned to it; [processAffiliateCommission]
    is a function declaration in module scope, not a property of it. *)
Definition module_this : list (string * (string → M unit)) := [].

Fixpoint method_of (name : string) (obj : list (string * (string → M unit)))
    : option (string → M unit) :=
  match obj with
  | [] => None
  | (k, f) :: rest => if String.eqb name k then Some f else method_of name rest
  end.

(** [await this.name(arg)] *)
Definition call_this (name : string) (arg : string) : M unit :=
  match method_of name module_this with
  | Some f => f arg
  | None => throw (mkExn TypeError ("this." +:+ name +:+ " is not a function") JUndefined)
  end.

Section Router.
Context {rt : Runtime} (cfg : Config) (net : HttpRequest → AxiosOutcome) (now : Z).

(** [processAffiliateCommission(orderId)], the module-scope function. *)
Definition processAffiliateCommission (orderId : string) : M unit := fun st =>
  match orders st !! orderId with
  | Some order =>
      match o_promo_code_id order with
      | Some promo_id =>
          match promo_codes st !! promo_id with
          | Some promoCode =>
              match pc_affiliate_id promoCode with
              | Some affiliate =>
                  (Ok (), with_affiliate_stats
                            (fun l => (l ++ [mkAffiliateStat affiliate promo_id
                                               (o_user_id order) orderId now])%list) st)
              | None => (Ok (), st)
              end
          | None => (Ok (), st)
          end
      | None => (Ok (), st)
      end
  | None => (Ok (), st)
  end.

(** *** POST /payments/initialize *)

(** [supabase.from('orders').select(..).eq('id', order_id).eq('user_id',
    req.user.id).single()]: rows are stored under their [id]; a filter
    value is sent in its string rendering. *)
Definition select_order (order_id : Js) (user : User) : M (option Order) := fun st =>
  match orders st !! js_toString order_id with
  | Some order =>
      if String.eqb (o_user_id order) (u_id user) then (Ok (Some order), st)
      else (Ok None, st)
  | None => (Ok None, st)
  end.

(** [supabase.from('payments').insert(row).select().single()]: [id] is the
    primary key, so a second row under the same id is refused. *)
Definition insert_payment (row : Payment) : M (option Payment) := fun st =>
  match payments st !! p_id row with
  | Some _ => (Ok None, st)
  | None => (Ok (Some row), with_payments (insert (p_id row) row) st)
  end.

(** The [switch (payment_method)] of the handler. *)
Definition route_initialize (payment_method : Js) (order : Order) (user : User)
    (return_url phone_number : Js) : M PaymentResult :=
  if is_str payment_method "kora" then KoraPay.initializePayment cfg net now order user return_url
  else if is_str payment_method "mtn" then MTN.initializePayment cfg net now order user phone_number
  else if is_str payment_method "orange" then Orange.initializePayment cfg net now order user phone_number
  else if is_str payment_method "paygate" then PayGate.initializePayment cfg net now order user return_url
  else if is_str payment_method "payfast" then PayFast.initializePayment cfg now order user return_url
  else throw (new_ValidationError "Unsupported payment method").

(** The handler's [try { ... } catch (error) { ... }]: gateway initiation,
    then the insertion of the Payment row. *)
Definition create_payment (payment_method : Js) (order : Order) (user : User)
    (return_url phone_number : Js) : M InitResponse :=
  try_catch
    (let* paymentResult :=
       route_initialize payment_method order user return_url phone_number in
     let* stored := insert_payment
       {| p_id := payment_id paymentResult;
          p_order_id := o_id order;
          p_user_id := u_id user;
          p_payment_method := js_toString payment_method;
          p_amount := o_total_price order;
          p_currency := currency paymentResult;
          p_status := "pending";
          p_gateway_transaction_id := transaction_id paymentResult;
          p_gateway_response := gateway_response paymentResult;
          p_processed_at := None;
          p_created_at := now;
          p_updated_at := now |} in
     match stored with
     | None => throw (new_Error "Payment initialization failed")
     | Some payment =>
         ret {| r_payment_id := p_id payment;
                r_payment_url := payment_url paymentResult;
                r_payment_method := js_toString payment_method;
                r_amount := o_total_price order;
                r_currency := currency paymentResult;
                r_expires_at := expires_at paymentResult;
                r_instructions := instructions paymentResult |}
     end)
    (fun error =>
       throw (new_Error ("Payment initialization failed: " +:+ exn_message error))).

Definition initialize (user : User) (body : Js) : M InitResponse :=
  let* order_id := lift (get body "order_id") in
  let* payment_method := lift (get body "payment_method") in
  let* return_url := lift (get body "return_url") in
  let* phone_number := lift (get body "phone_number") in
  if negb (truthy order_id) || negb (truthy payment_method) then
    throw (new_ValidationError "Order ID and payment method are required")
  else
    let* found := select_order order_id user in
    match found with
    | None => throw (new_NotFoundError "Order not found")
    | Some order =>
        if negb (String.eqb (o_payment_status order) "pending") then
          throw (new_ValidationError "Order payment has already been processed")
        else if (is_str payment_method "mtn" || is_str payment_method "orange")
                && negb (truthy phone_number) then
          throw (new_ValidationError "Phone number is required for mobile money payments")
        else create_payment payment_method order user return_url phone_number
    end.

(** *** POST /payments/webhook *)

(** [req.headers[name]]: Node lower-cases header names; a header that was
    not sent is [undefined]. *)
Definition header (headers : gmap string string) (name : string) : Js :=
  match headers !! name with
  | Some v => JStr v
  | None => JUndefined
  end.

(** The [if / else if] chain that picks the service from the marker header,
    in the order the handler tests them. *)
Definition webhook_source (headers : gmap string string) : option WebhookSource :=
  if truthy (header headers "x-kora-signature") then Some FromKora
  else if truthy (header headers "x-mtn-signature") then Some FromMTN
  else if truthy (header headers "x-orange-signature") then Some FromOrange
  else if truthy (header headers "x-paygate-signature") then Some FromPayGate
  else if truthy (header headers "x-payfast-signature") then Some FromPayFast
  else None.

(** [service.handleWebhook(payload, signature)] of the service picked. *)
Definition handleWebhook (source : WebhookSource) (payload signature : Js)
    : M (option WebhookUpdate) :=
  match source with
  | FromKora => lift (KoraPay.handleWebhook cfg payload signature)
  | FromMTN => lift (MTN.handleWebhook payload signature)
  | FromOrange => lift (Orange.handleWebhook cfg payload signature)
  | FromPayGate => lift (PayGate.handleWebhook cfg payload signature)
  | FromPayFast => PayFast.handleWebhook cfg net payload signature
  end.

(** [req.headers['x-signature'] || req.headers['x-kora-signature']] *)
Definition signature_of (headers : gmap string string) : Js :=
  js_or (header headers "x-signature") (header headers "x-kora-signature").

Definition route_webhook (headers : gmap string string) (payload : Js)
    : M (option WebhookUpdate) :=
  match webhook_source headers with
  | Some source => handleWebhook source payload (signature_of headers)
  | None => throw (new_ValidationError "Unknown webhook source")
  end.

(** The row written by [.update({...})]: a property whose value is
    [undefined] is absent from the JSON sent, so its column keeps its
    value. *)
Definition updated_payment (u : WebhookUpdate) (row : Payment) : Payment :=
  {| p_id := p_id row;
     p_order_id := p_order_id row;
     p_user_id := p_user_id row;
     p_payment_method := p_payment_method row;
     p_amount := p_amount row;
     p_currency := p_currency row;
     p_status := wu_status u;
     p_gateway_transaction_id :=
       match wu_transaction_id u with
       | JUndefined => p_gateway_transaction_id row
       | v => v
       end;
     p_gateway_response :=
       match wu_gateway_response u with
       | JUndefined => p_gateway_response row
       | v => v
       end;
     p_processed_at := if String.eqb (wu_status u) "success" then Some now else None;
     p_created_at := p_created_at row;
     p_updated_at := now |}.

(** [supabase.from('payments').update({...}).eq('id',
    paymentUpdate.payment_id).select().single()]: the only filter is the
    id; [single()] reports an error when no row was matched. *)
Definition update_payment (u : WebhookUpdate) : M (option Payment) := fun st =>
  let id := js_toString (wu_payment_id u) in
  match payments st !! id with
  | Some row =>
      let row' := updated_payment u row in
      (Ok (Some row'), with_payments (insert id row') st)
  | None => (Ok None, st)
  end.

Definition paid_order (order : Order) : Order :=
  {| o_id := o_id order;
     o_user_id := o_user_id order;
     o_status := "paid";
     o_payment_status := "success";
     o_total_price := o_total_price order;
     o_tracking_number := o_tracking_number order;
     o_promo_code_id := o_promo_code_id order;
     o_order_items := o_order_items order;
     o_updated_at := now |}.

(** [supabase.from('orders').update({payment_status: 'success', status:
    'paid', updated_at}).eq('id', payment.order_id)]; its outcome is not
    inspected. *)
Definition mark_order_paid (order_id : string) : M unit := fun st =>
  (Ok (), with_orders (fun os => match os !! order_id with
                                 | Some order => <[order_id := paid_order order]> os
                                 | None => os
                                 end) st).

(** [order.order_items.map(item => ({name: item.products.name, quantity:
    item.quantity, price: item.unit_price}))]: reading [name] of a [null]
    [products] throws. *)
Fixpoint email_items (items : list OrderItem) : Res (list EmailItem) :=
  match items with
  | [] => Ok []
  | item :: rest =>
      match item_products item with
      | Some name =>
          lines ← email_items rest;
          Ok (mkEmailItem name (item_quantity item) (item_unit_price item) :: lines)
      | None => Throw (type_error_reading JNull "name")
      end
  end.

(** The order is read back with its user and its items, and when order and
    user are there the confirmation e-mail is built and handed to the
    e-mail service inside its own [try/catch]: an exception while the
    argument is built means no e-mail is handed over, and neither that nor
    the outcome of the send has an effect on what follows. *)
Definition send_confirmation (order_id : string) : M unit := fun st =>
  match orders st !! order_id with
  | Some order =>
      match users st !! o_user_id order with
      | Some user =>
          match email_items (o_order_items order) with
          | Ok items =>
              (Ok (), with_outbox
                        (fun l => (l ++ [ {| em_to := u_email user;
                                             em_name := u_full_name user;
                                             em_orderNumber :=
                                               toUpperCase (slice_last 8 (o_id order));
                                             em_orderId := o_id order;
                                             em_total := o_total_price order;
                                             em_items := items;
                                             em_trackingNumber := o_tracking_number order;
                                             em_user_id := o_user_id order |} ])%list) st)
          | Throw _ => (Ok (), st)
          end
      | None => (Ok (), st)
      end
  | None => (Ok (), st)
  end.

(** The body of the handler's [try] block. *)
Definition reconcile (headers : gmap string string) (payload : Js) : M unit :=
  let* paymentUpdate := route_webhook headers payload in
  let* u := match paymentUpdate with
            | Some u => ret u
            | None => throw (type_error_reading JNull "status")
            end in
  let* updated := update_payment u in
  match updated with
  | None => throw (new_Error "Failed to update payment record")
  | Some payment =>
      if String.eqb (wu_status u) "success" then
        let* _ := mark_order_paid (p_order_id payment) in
        let* _ := send_confirmation (p_order_id payment) in
        call_this "processAffiliateCommission" (p_order_id payment)
      else ret ()
  end.

Definition webhook (headers : gmap string string) (payload : Js)
    : State → WebhookResponse * State := fun st =>
  match reconcile headers payload st with
  | (Ok _, st') => (mkWebhookResponse 200 "Webhook processed successfully", st')
  | (Throw error, st') => (mkWebhookResponse 400 (exn_message error), st')
  end.

(** *** GET /payments/status/:id and POST /payments/verify *)

(** [supabase.from('payments').select(..).eq('id', id).eq('user_id',
    req.user.id).single()] *)
Definition select_payment (id : Js) (user : User) : M (option Payment) := fun st =>
  match payments st !! js_toString id with
  | Some payment =>
      if String.eqb (p_user_id payment) (u_id user) then (Ok (Some payment), st)
      else (Ok None, st)
  | None => (Ok None, st)
  end.

(** The embedded [orders(id, status, payment_status, total_price)]. *)
Definition order_summary (payment : Payment) (st : State) : option OrderSummary :=
  (fun order => mkOrderSummary (o_id order) (o_status order) (o_payment_status order)
                  (o_total_price order)) <$> orders st !! p_order_id payment.

(** The handler of [GET /payments/status/:id]; [id] is [req.params.id]. *)
Definition status (user : User) (id : string) : M StatusResponse :=
  let* found := select_payment (JStr id) user in
  match found with
  | None => throw (new_NotFoundError "Payment not found")
  | Some payment => fun st =>
      (Ok {| s_payment_id := p_id payment;
             s_status := p_status payment;
             s_amount := p_amount payment;
             s_currency := p_currency payment;
             s_payment_method := p_payment_method payment;
             s_created_at := p_created_at payment;
             s_processed_at := p_processed_at payment;
             s_order := order_summary payment st |}, st)
  end.

(** The [switch (payment.payment_method)] of the verify handler. *)
Definition route_verify (payment_method : string) (payment_id transaction_reference : Js)
    : M VerificationResult :=
  if String.eqb payment_method "kora" then
    KoraPay.verifyPayment cfg net payment_id transaction_reference
  else if String.eqb payment_method "mtn" then
    MTN.verifyPayment cfg net payment_id transaction_reference
  else if String.eqb payment_method "orange" then
    Orange.verifyPayment cfg net payment_id transaction_reference
  else if String.eqb payment_method "paygate" then
    PayGate.verifyPayment cfg net payment_id transaction_reference
  else if String.eqb payment_method "payfast" then
    PayFast.verifyPayment payment_id transaction_reference
  else throw (new_ValidationError "Unsupported payment method for verification").

(** The handler of [POST /payments/verify]. *)
Definition verify (user : User) (body : Js) : M VerifyResponse :=
  let* payment_id := lift (get body "payment_id") in
  let* transaction_reference := lift (get body "transaction_reference") in
  if negb (truthy payment_id) then throw (new_ValidationError "Payment ID is required")
  else
    let* found := select_payment payment_id user in
    match found with
    | None => throw (new_NotFoundError "Payment not found")
    | Some payment =>
        try_catch
          (let* verificationResult :=
             route_verify (p_payment_method payment) payment_id transaction_reference in
           ret {| vr_payment_id := payment_id;
                  vr_verification_status := v_status verificationResult;
                  vr_gateway_response := v_response verificationResult;
                  vr_verified_at := now |})
          (fun error =>
             throw (new_Error ("Payment verification failed: " +:+ exn_message error)))
    end.
End Router.
End Router.

(** ** The error middleware: [middleware/errorHandler.js] *)

(** The properties of an error object that the middleware reads. A property
    that is not set is [JUndefined] ([None] for numbers); [eo_response_status]
    is [error.response.status], present on the rejections of axios that
    carry a reply. *)
Record ErrorObject : Type := mkErrorObject {
  eo_name : string;
  eo_message : string;
  eo_statusCode : option Z;
  eo_code : Js;
  eo_isOperational : bool;
  eo_field : Js;
  eo_service : Js;
  eo_response_status : option Z;
  eo_baseURL : Js
}.

(** What the middleware sends: the status, and the [error] member of the
    body without its echo of the request ([timestamp], [path], [method]).
    [er_details] says whether [stack], [details] and [debug] are included. *)
Record ErrorResponse : Type := mkErrorResponse {
  er_status : Z;
  er_message : string;
  er_code : Js;
  er_field : Js;
  er_service : Js;
  er_details : bool
}.

Module ErrorHandler.

(** [new AppError(message, statusCode, code)] and its subclasses; none of
    them sets [name]. *)
Definition AppError (message : string) (statusCode : Z) (code : Js) : ErrorObject :=
  {| eo_name := "Error"; eo_message := message; eo_statusCode := Some statusCode;
     eo_code := code; eo_isOperational := true; eo_field := JUndefined;
     eo_service := JUndefined; eo_response_status := None; eo_baseURL := JUndefined |}.

Definition with_field (field : Js) (e : ErrorObject) : ErrorObject :=
  mkErrorObject (eo_name e) (eo_message e) (eo_statusCode e) (eo_code e) (eo_isOperational e)
    field (eo_service e) (eo_response_status e) (eo_baseURL e).

Definition with_service (service : Js) (e : ErrorObject) : ErrorObject :=
  mkErrorObject (eo_name e) (eo_message e) (eo_statusCode e) (eo_code e) (eo_isOperational e)
    (eo_field e) service (eo_response_status e) (eo_baseURL e).

Definition ValidationError (message : string) : ErrorObject :=
  with_field JNull (AppError message 400 (JStr "VALIDATION_ERROR")).

Definition AuthenticationError (message : string) : ErrorObject :=
  AppError message 401 (JStr "AUTHENTICATION_ERROR").

Definition NotFoundError (message : string) : ErrorObject :=
  AppError message 404 (JStr "NOT_FOUND").

Definition ConflictError (message : string) : ErrorObject :=
  AppError message 409 (JStr "CONFLICT").

Definition ExternalServiceError (service message : string) : ErrorObject :=
  with_service (JStr service)
    (AppError (service +:+ ": " +:+ message) 503 (JStr "EXTERNAL_SERVICE_ERROR")).

(** The Supabase/PostgreSQL block of [handleKnownErrors]: [None] when it
    falls through. *)
Definition postgres_error (code : string) : option ErrorObject :=
  if startsWith "23" code then
    if String.eqb code "23505" then Some (ConflictError "Resource already exists")
    else if String.eqb code "23503" then Some (ValidationError "Referenced resource does not exist")
    else if String.eqb code "23502" then Some (ValidationError "Required field is missing")
    else None
  else None.

(** The Axios/HTTP block. *)
Definition http_error (error : ErrorObject) : option ErrorObject :=
  match eo_response_status error with
  | Some status =>
      let service := js_toString (js_or (eo_baseURL error) (JStr "External service")) in
      if (400 <=? status) && (status <? 500) then
        Some (ValidationError (service +:+ " client error: " +:+ eo_message error))
      else if 500 <=? status then Some (ExternalServiceError service (eo_message error))
      else None
  | None => None
  end.

(** The JWT and validation-name blocks and the Axios block, tried in that
    order; the error itself when none applies. *)
Definition by_name_or_response (error : ErrorObject) : ErrorObject :=
  if String.eqb (eo_name error) "JsonWebTokenError" then
    AuthenticationError "Invalid authentication token"
  else if String.eqb (eo_name error) "TokenExpiredError" then
    AuthenticationError "Authentication token has expired"
  else if String.eqb (eo_name error) "ValidationError" then ValidationError (eo_message error)
  else default error (http_error error).

(** [handleKnownErrors(error)]. A truthy [code] that is not a string has no
    [startsWith]. *)
Definition handleKnownErrors (error : ErrorObject) : Res ErrorObject :=
  if truthy (eo_code error) then
    match eo_code error with
    | JStr code => Ok (default (by_name_or_response error) (postgres_error code))
    | _ => Throw (mkExn TypeError "error.code.startsWith is not a function" JUndefined)
    end
  else Ok (by_name_or_response error).

(** [formatErrorResponse(error, req)] under [process.env.NODE_ENV], paired
    with the status. *)
Definition formatErrorResponse (NODE_ENV : Js) (statusCode : Z) (error : ErrorObject)
    : ErrorResponse :=
  let isDevelopment := is_str NODE_ENV "development" in
  let isProduction := is_str NODE_ENV "production" in
  let masked := isProduction && negb (eo_isOperational error) in
  {| er_status := statusCode;
     er_message :=
       if masked then "An internal server error occurred"
       else if String.eqb (eo_message error) "" then "An unexpected error occurred"
       else eo_message error;
     er_code := if masked then JStr "INTERNAL_ERROR"
                else js_or (eo_code error) (JStr "INTERNAL_ERROR");
     er_field := if truthy (eo_field error) then eo_field error else JUndefined;
     er_service := if truthy (eo_service error) then eo_service error else JUndefined;
     er_details := isDevelopment |}.

(** [processedError.statusCode || 500] *)
Definition status_or_500 (error : ErrorObject) : Z :=
  match eo_statusCode error with
  | Some status => if status =? 0 then 500 else status
  | None => 500
  end.

(** [errorHandler(error, req, res, next)] for a response not yet started. *)
Definition errorHandler (NODE_ENV : Js) (error : ErrorObject) : ErrorResponse :=
  match handleKnownErrors error with
  | Ok processedError =>
      formatErrorResponse NODE_ENV (status_or_500 processedError) processedError
  | Throw _ =>
      {| er_status := 500; er_message := "An unexpected error occurred";
         er_code := JStr "HANDLER_ERROR"; er_field := JUndefined; er_service := JUndefined;
         er_details := false |}
  end.

End ErrorHandler.

(** An error made by [new Error(message)] or raised by the engine: no
    status, no code, not operational. *)
Definition native_error (name message : string) : ErrorObject :=
  {| eo_name := name; eo_message := message; eo_statusCode := None; eo_code := JUndefined;
     eo_isOperational := false; eo_field := JUndefined; eo_service := JUndefined;
     eo_response_status := None; eo_baseURL := JUndefined |}.

(** The error object behind an exception that leaves a payment handler: one
    of the two application classes the router imports, a [new Error], or an
    engine [TypeError]. *)
Definition error_object (e : Exn) : ErrorObject :=
  match exn_class e with
  | ValidationError => ErrorHandler.ValidationError (exn_message e)
  | NotFoundError => ErrorHandler.NotFoundError (exn_message e)
  | PlainError => native_error "Error" (exn_message e)
  | TypeError => native_error "TypeError" (exn_message e)
  | URIError => native_error "URIError" (exn_message e)
  end.

(** What the client of a handler wrapped in [asyncHandler] receives when the
    handler throws. *)
Definition error_response (NODE_ENV : Js) (e : Exn) : ErrorResponse :=
  ErrorHandler.errorHandler NODE_ENV (error_object e).

(** * Vocabulary of the statements *)

(** [st'] differs from [st] at most in the log of outbound requests. *)
Definition same_rows (st st' : State) : Prop :=
  payments st' = payments st ∧ orders st' = orders st ∧ users st' = users st ∧
  promo_codes st' = promo_codes st ∧ affiliate_stats st' = affiliate_stats st ∧
  outbox st' = outbox st.

(** A computation every run of which keeps all rows. *)
Definition quiet {A} (m : M A) : Prop :=
  ∀ st r st', m st = (r, st') → same_rows st st'.

(** The error of the status guard of [initialize]. *)
Definition already_processed : Exn :=
  new_ValidationError "Order payment has already been processed".

(** What the caller sees when the [switch] falls to its [default]. *)
Definition unsupported_method : Exn :=
  new_Error "Payment initialization failed: Unsupported payment method".

(** The five method ids of the handler's [switch]. *)
Definition known_method (payment_method : Js) : bool :=
  is_str payment_method "kora" || is_str payment_method "mtn" ||
  is_str payment_method "orange" || is_str payment_method "paygate" ||
  is_str payment_method "payfast".

(** Mobile money asked for without a phone number. *)
Definition phone_missing (payment_method phone_number : Js) : bool :=
  (is_str payment_method "mtn" || is_str payment_method "orange") &&
  negb (truthy phone_number).

(** The call returned rather than threw. *)
Definition is_ok {A} (r : Res A) : bool :=
  match r with
  | Ok _ => true
  | Throw _ => false
  end.

(** The two answers of the webhook endpoint. *)
Definition processed : WebhookResponse :=
  mkWebhookResponse 200 "Webhook processed successfully".

Definition rejected (reason : string) : WebhookResponse :=
  mkWebhookResponse 400 reason.

(** The line of the e-mail for an item, and the e-mail built for an order
    of a user from the lines. *)
Definition email_line (item : OrderItem) : EmailItem :=
  {| ei_name := default "" (item_products item);
     ei_quantity := item_quantity item;
     ei_price := item_unit_price item |}.

Definition confirmation (order : Order) (user : User) (items : list EmailItem) : Email :=
  {| em_to := u_email user;
     em_name := u_full_name user;
     em_orderNumber := toUpperCase (slice_last 8 (o_id order));
     em_orderId := o_id order;
     em_total := o_total_price order;
     em_items := items;
     em_trackingNumber := o_tracking_number order;
     em_user_id := o_user_id order |}.

Section Outcomes.
Context (now : Z).

(** The state a success leaves: the Payment row rewritten, the parent
    Order marked paid, the confirmation e-mail handed over. *)
Definition after_success (u : WebhookUpdate) (row : Payment) (st1 : State) : State :=
  snd (Router.send_confirmation (p_order_id row)
    (snd (Router.mark_order_paid now (p_order_id row)
      (with_payments (insert (js_toString (wu_payment_id u)) (Router.updated_payment now u row))
         st1)))).

(** The state any other status leaves: the Payment row rewritten. *)
Definition after_other (u : WebhookUpdate) (row : Payment) (st1 : State) : State :=
  with_payments (insert (js_toString (wu_payment_id u)) (Router.updated_payment now u row)) st1.
End Outcomes.

Section Verification.
Context {rt : Runtime} (cfg : Config).

(** The verification the picked service performs on this request, and its
    failing. MTN's handler has none. KoraPay's answers [true] when no
    webhook secret is configured; Orange's is only consulted when a
    signature was passed, and answers [true] when no merchant key is
    configured. *)
Definition signature_fails (source : WebhookSource) (payload signature : Js) : Prop :=
  match source with
  | FromKora => KoraPay.verifyWebhookSignature cfg payload signature = Ok false
  | FromMTN => False
  | FromOrange =>
      truthy signature = true ∧ Orange.verifyWebhookSignature cfg payload signature = false
  | FromPayGate =>
      ∃ data, form_data false payload = Ok data ∧ PayGate.verifyChecksum cfg data = Ok false
  | FromPayFast =>
      ∃ data data', form_data true payload = Ok data
                    ∧ PayFast.verifySignature cfg data = Ok (false, data')
  end.

(** The message each service throws on a failed verification. *)
Definition invalid_signature (source : WebhookSource) : string :=
  match source with
  | FromPayGate => "Invalid PayGate checksum"
  | FromPayFast => "Invalid PayFast signature"
  | _ => "Invalid webhook signature"
  end.
End Verification.

(** A hexadecimal digit. *)
Definition is_hex (c : ascii) : bool :=
  let n := nat_of_ascii c in
  is_digit c || ((97 <=? n)%nat && (n <=? 102)%nat) || ((65 <=? n)%nat && (n <=? 70)%nat).

(** The text of a UUID, the type of [orders.id]: hexadecimal digits in
    groups of 8, 4, 4, 4 and 12 with a hyphen between the groups. [i] is
    the position of the first character of [s]. *)
Fixpoint uuid_from (i : nat) (s : string) : bool :=
  match s with
  | EmptyString => (i =? 36)%nat
  | String c rest =>
      (if bool_decide (i ∈ [8; 13; 18; 23]%nat) then Ascii.eqb c "-" else is_hex c)
      && uuid_from (S i) rest
  end.

Definition is_uuid (s : string) : bool := uuid_from 0 s.

(** The character [c] occurs in [s]. *)
Fixpoint contains (c : ascii) (s : string) : bool :=
  match s with
  | EmptyString => false
  | String c' rest => Ascii.eqb c' c || contains c rest
  end.


(** The status values of a Payment. *)
Definition tri_state : list string := ["pending"; "success"; "failed"].

(** The status in what a service returned. *)
Definition status_of (r : Res (option WebhookUpdate)) : Res (option string) :=
  match r with
  | Ok update => Ok (wu_status <$> update)
  | Throw e => Throw e
  end.

(** ** A runtime and a deployment to run the model on

    Digests are the tagged input text, so distinct inputs have distinct
    digests; JSON is rendered without escaping. *)

Fixpoint render_json (v : Js) : string :=
  match v with
  | JObj fields =>
      let fix members (l : list (string * Js)) : list string :=
        match l with
        | [] => []
        | (k, x) :: rest => (k +:+ ":" +:+ render_json x) :: members rest
        end in
      "{" +:+ join "," (members fields) +:+ "}"
  | JStr s => s
  | _ => js_toString v
  end.

Definition symbolic_runtime : Runtime :=
  {| md5_hex := fun s => "md5(" +:+ s +:+ ")";
     hmac_sha512_hex := fun key s => "hmac-sha512(" +:+ key +:+ "," +:+ s +:+ ")";
     JSON_stringify := render_json;
     encodeURIComponent := fun s => s;
     decodeURIComponent := fun s => Some s;
     trim := fun s => s;
     URLSearchParams_toString := fun fields => join "&" ((fun kv => fst kv +:+ "=" +:+ js_toString (snd kv)) <$> fields);
     base64 := fun s => "base64(" +:+ s +:+ ")";
     toISOString := fun ms => "2023-11-14T22:13:20.000Z" |}.

Definition sample_config : Config :=
  {| FRONTEND_URL := JStr "https://mallgram.example";
     API_URL := JStr "https://api.mallgram.example";
     testMode := true;
     kora_baseUrl := "https://api.korahq.com";
     kora_secretKey := JStr "sk_kora";
     kora_webhookSecret := JStr "whsec_kora";
     mtn_baseUrl := "https://sandbox.momodeveloper.mtn.com";
     mtn_subscriptionKey := JStr "sub_mtn";
     mtn_apiKey := JStr "key_mtn";
     mtn_apiSecret := JStr "secret_mtn";
     mtn_environment := "sandbox";
     orange_baseUrl := "https://api.orange.com";
     orange_clientId := JStr "id_orange";
     orange_clientSecret := JStr "secret_orange";
     orange_merchantKey := JStr "mk_orange";
     paygate_baseUrl := "https://secure.paygate.co.za/payweb3/process.trans";
     paygate_payGateId := JStr "10011072130";
     paygate_payGateKey := JStr "secret_paygate";
     payfast_baseUrl := "https://www.payfast.co.za/eng/process";
     payfast_merchantId := JStr "10000100";
     payfast_merchantKey := JStr "46f0cd694581a";
     payfast_passphrase := JUndefined |}.

Definition sample_user (country : string) : User :=
  {| u_id := "u1"; u_email := "ama@example.com"; u_full_name := Some "Ama Mensah";
     u_country := country; u_phone_number := JStr "0670000000" |}.

Definition sample_order (payment_status status : string) : Order :=
  {| o_id := "o1"; o_user_id := "u1"; o_status := status;
     o_payment_status := payment_status; o_total_price := Some 100000;
     o_tracking_number := JNull; o_promo_code_id := None;
     o_order_items := [mkOrderItem (Some "Kettle") 1 100000];
     o_updated_at := 1699999000000 |}.

Definition sample_payment (method status : string) : Payment :=
  {| p_id := "mg_o1_1700000000000"; p_order_id := "o1"; p_user_id := "u1";
     p_payment_method := method; p_amount := Some 100000; p_currency := "XAF";
     p_status := status; p_gateway_transaction_id := JStr "mg_o1_1700000000000";
     p_gateway_response := JObj []; p_processed_at := None;
     p_created_at := 1700000000000; p_updated_at := 1700000000000 |}.

(** A database holding one user, their order, and the given Payment rows. *)
Definition sample_state (country : string) (order : Order) (ps : list Payment) : State :=
  {| payments := list_to_map ((fun p => (p_id p, p)) <$> ps);
     orders := {[ o_id order := order ]};
     users := {[ "u1" := sample_user country ]};
     promo_codes := ∅;
     affiliate_stats := [];
     outbox := [];
     net_log := [] |}.

(** A gateway that is unreachable, and one that accepts every request. *)
Definition net_down : HttpRequest → AxiosOutcome :=
  fun _ => Failed "connect ECONNREFUSED" JUndefined.

(** Every gateway refuses the credentials it is shown. *)
Definition net_refusing : HttpRequest → AxiosOutcome :=
  fun _ => Responded 401 (JObj [ ("message", JStr "Invalid secret key") ]).

Definition net_accepting : HttpRequest → AxiosOutcome :=
  fun rq =>
    if String.eqb (rq_url rq) "https://sandbox.payfast.co.za/eng/query/validate"
    then Responded 200 (JStr "VALID")
    else if String.eqb (rq_url rq) "https://sandbox.momodeveloper.mtn.com/collection/v1_0/requesttopay"
    then Responded 202 (JStr "")
    else Responded 200 (JObj [ ("access_token", JStr "tok");
                                ("status", JBool true);
                                ("pay_token", JStr "pt_1");
                                ("payment_url", JStr "https://pay.example/pt_1");
                                ("data", JObj [ ("reference", JStr "KPY-1");
                                                ("checkout_url", JStr "https://pay.example/k1") ]) ]).

Definition t0 : Z := 1700000000000.

Definition paid_elsewhere : State :=
  sample_state "ZA" (sample_order "success" "paid") [].

Definition payable (country : string) : State :=
  sample_state country (sample_order "pending" "pending") [].

Definition kora_request : list (string * Js) :=
  [("order_id", JStr "o1"); ("payment_method", JStr "kora")].

Definition kora_down : Exn := new_Error "Kora Pay error: connect ECONNREFUSED".

Definition mtn_request : Js :=
  JObj [("order_id", JStr "o1"); ("payment_method", JStr "mtn");
        ("phone_number", JStr "0670000000")].

Definition marker (name : string) : gmap string string := {[ name := "1" ]}.

Definition forged_paygate : Js :=
  JObj [("PAY_REQUEST_ID", JStr "REQ-1"); ("TRANSACTION_STATUS", JStr "1");
        ("USER1", JStr "mg_o1_1700000000000"); ("CHECKSUM", JStr "0123456789ABCDEF")].

Definition pending_mtn : State :=
  sample_state "CM" (sample_order "pending" "pending") [sample_payment "mtn" "pending"].

Definition forged_mtn_headers : gmap string string :=
  {[ "x-mtn-signature" := "forged"; "x-signature" := "forged" ]}.

Definition mtn_failed : Js :=
  JObj [("status", JStr "FAILED"); ("referenceId", JStr "mg_o1_1700000000000")].

Definition mtn_successful : Js :=
  JObj [("status", JStr "SUCCESSFUL"); ("referenceId", JStr "mg_o1_1700000000000");
        ("financialTransactionId", JStr "FT-9")].

Definition mtn_failed_update : WebhookUpdate :=
  {| wu_payment_id := JStr "mg_o1_1700000000000";
     wu_transaction_id := JStr "mg_o1_1700000000000";
     wu_status := "failed";
     wu_gateway_response := mtn_failed |}.

Definition failed_mtn : State :=
  sample_state "CM" (sample_order "pending" "pending") [sample_payment "mtn" "failed"].

Definition mtn_successful_update : WebhookUpdate :=
  {| wu_payment_id := JStr "mg_o1_1700000000000";
     wu_transaction_id := JStr "FT-9";
     wu_status := "success";
     wu_gateway_response := mtn_successful |}.

(** Three deliveries for one Payment: the success notification, the same
    notification again, and then a failure notification. *)
Definition first_delivery : WebhookResponse * State :=
  Router.webhook (rt:=symbolic_runtime) sample_config net_accepting (t0 + 5000)
    (marker "x-mtn-signature") mtn_successful pending_mtn.

Definition replayed_delivery : WebhookResponse * State :=
  Router.webhook (rt:=symbolic_runtime) sample_config net_accepting (t0 + 9000)
    (marker "x-mtn-signature") mtn_successful (snd first_delivery).

Definition late_failure : WebhookResponse * State :=
  Router.webhook (rt:=symbolic_runtime) sample_config net_accepting (t0 + 9500)
    (marker "x-mtn-signature") mtn_failed (snd replayed_delivery).

Definition mtn_unknown_payment : Js :=
  JObj [("status", JStr "FAILED"); ("referenceId", JStr "mg_o7_1700000000000")].

Definition kora_other_event : Js :=
  JObj [("event", JStr "transfer.success");
        ("data", JObj [("reference", JStr "mg_o1_1700000000000")])].

Definition kora_signed (payload : Js) : gmap string string :=
  {[ "x-kora-signature" :=
       hmac_sha512_hex (Runtime:=symbolic_runtime) "whsec_kora"
         (JSON_stringify (Runtime:=symbolic_runtime) payload) ]}.

Definition payfast_request : Js :=
  JObj [("order_id", JStr "o1"); ("payment_method", JStr "payfast")].

(** The notification PayFast posts for the attempt [mg_o1_1700000000000] of
    order o1 once it is paid, signed as PayFast signs it. *)
Definition payfast_complete_fields : list (string * Js) :=
  [ ("m_payment_id", JStr "mg_o1_1700000000000");
    ("pf_payment_id", JStr "1089250");
    ("payment_status", JStr "COMPLETE");
    ("item_name", JStr "Mallgram Order #O1");
    ("amount_gross", JStr "1000.00");
    ("custom_str1", JStr "o1");
    ("custom_str2", JStr "u1");
    ("custom_str3", JStr "mallgram") ].

Definition payfast_complete `{Runtime} (cfg : Config) : Js :=
  JObj (payfast_complete_fields ++
        [("signature", JStr (PayFast.generateSignature cfg payfast_complete_fields))])%list.

Section Deliveries.
Context {rt : Runtime}.

(** The order o1 after [initialize] with PayFast at [t0]. *)
Definition payfast_initialized : Res InitResponse * State :=
  Router.initialize sample_config net_accepting t0 (sample_user "ZA") payfast_request (payable "ZA").

Definition payfast_notified : WebhookResponse * State :=
  Router.webhook sample_config net_accepting (t0 + 60000) (marker "x-payfast-signature")
    (payfast_complete sample_config) (snd payfast_initialized).
End Deliveries.

Definition payfast_complete_update : WebhookUpdate :=
  {| wu_payment_id := JStr "o1";
     wu_transaction_id := JStr "1089250";
     wu_status := "success";
     wu_gateway_response := JObj payfast_complete_fields |}.


Definition kora_charge_success (reference : string) : Js :=
  JObj [("event", JStr "charge.success"); ("data", JObj [("reference", JStr reference)])].

Definition order_a_b : Order :=
  {| o_id := "a_b"; o_user_id := "u1"; o_status := "pending";
     o_payment_status := "pending"; o_total_price := Some 100000;
     o_tracking_number := JNull; o_promo_code_id := None;
     o_order_items := []; o_updated_at := 1699999000000 |}.

(** The notification PayGate posts when the customer cancels, with the
    checksum PayGate's scheme gives it. *)
Definition paygate_cancelled_fields : list (string * Js) :=
  [ ("PAYGATE_ID", JStr "10011072130");
    ("PAY_REQUEST_ID", JStr "REQ-1");
    ("REFERENCE", JStr "mg_o1_1700000000000");
    ("TRANSACTION_STATUS", JStr "4");
    ("RESULT_CODE", JStr "990028");
    ("USER1", JStr "o1") ].

Definition paygate_cancelled `{Runtime} (cfg : Config) : Js :=
  JObj (paygate_cancelled_fields ++
        [("CHECKSUM", JStr (PayGate.generateChecksum cfg paygate_cancelled_fields))])%list.

(** * Vocabulary of the further properties *)

(** The body [k1=v1&k2=v2...] of a form post. *)
Definition form_string (pairs : list (string * string)) : string :=
  join "&" ((fun kv => fst kv +:+ "=" +:+ snd kv) <$> pairs).

(** A key or value that holds neither separator of a form body. *)
Definition separator_free (s : string) : bool :=
  negb (contains "&" s) && negb (contains "=" s).

(** The order of [keys.sort()]. *)
Definition key_le (a b : string) : Prop := String.leb a b = true.

(** The columns of a Payment row that nothing but its insertion sets. *)
Definition immutable_columns (p : Payment)
    : string * string * string * string * option Z * string * Z :=
  (p_id p, p_order_id p, p_user_id p, p_payment_method p, p_amount p, p_currency p,
   p_created_at p).

(** Order rows are stored under their primary key. *)
Definition orders_keyed (st : State) : Prop :=
  ∀ id order, orders st !! id = Some order → o_id order = id.

(** A computation whose answer does not depend on the state it starts in. *)
Definition stateless {A} (m : M A) : Prop :=
  ∀ st1 st2, fst (m st1) = fst (m st2).

(** PayFast's validation endpoint, as [validatePayment] addresses it. *)
Definition payfast_validate_url (cfg : Config) : string :=
  if testMode cfg then "https://sandbox.payfast.co.za/eng/query/validate"
  else "https://www.payfast.co.za/eng/query/validate".

(** The gateway answers [VALID], with a 2xx status, to every request sent
    to PayFast's validation endpoint. *)
Definition answers_valid (cfg : Config) (net : HttpRequest → AxiosOutcome) : Prop :=
  ∀ rq, rq_url rq = payfast_validate_url cfg →
    ∃ status, (200 <=? status) && (status <? 300) = true
              ∧ net rq = Responded status (JStr "VALID").

(** A Payment row with nothing but its [updated_at] column set anew. *)
Definition touch (at_time : Z) (row : Payment) : Payment :=
  {| p_id := p_id row;
     p_order_id := p_order_id row;
     p_user_id := p_user_id row;
     p_payment_method := p_payment_method row;
     p_amount := p_amount row;
     p_currency := p_currency row;
     p_status := p_status row;
     p_gateway_transaction_id := p_gateway_transaction_id row;
     p_gateway_response := p_gateway_response row;
     p_processed_at := p_processed_at row;
     p_created_at := p_created_at row;
     p_updated_at := at_time |}.

(** The [currencies] member of the body of [GET /payments/methods]: the
    currency advertised for each country of the table. *)
Definition currencies : list (string * string) := [("ZA", "ZAR"); ("CM", "XAF")].

(** The four messages of the guards of [initialize]. *)
Definition guard_messages : list string :=
  [ "Order ID and payment method are required";
    "Order not found";
    "Order payment has already been processed";
    "Phone number is required for mobile money payments" ].

(** The notification Orange Money posts for a successful payment. *)
Definition orange_success (order_id txnid : string) : Js :=
  JObj [("status", JStr "SUCCESS"); ("order_id", JStr order_id); ("txnid", JStr txnid)].

(** Its headers: the marker the router looks for, and the digest of the
    body and the merchant key. *)
Definition orange_signed `{Runtime} (cfg : Config) (payload : Js) : gmap string string :=
  {[ "x-orange-signature" := "1";
     "x-signature" :=
       md5_hex (JSON_stringify payload +:+ js_toString (orange_merchantKey cfg)) ]}.

(** Another customer. *)
Definition other_user : User :=
  {| u_id := "u2"; u_email := "kofi@example.com"; u_full_name := Some "Kofi Boateng";
     u_country := "CM"; u_phone_number := JStr "0680000000" |}.

Definition orange_request : Js :=
  JObj [("order_id", JStr "o1"); ("payment_method", JStr "orange");
        ("phone_number", JStr "0670000000")].

Definition verify_request : list (string * Js) :=
  [("payment_id", JStr "mg_o1_1700000000000"); ("transaction_reference", JStr "1089250")].

(** A PayFast Payment that has failed. *)
Definition failed_payfast : State :=
  sample_state "ZA" (sample_order "pending" "pending") [sample_payment "payfast" "failed"].

(** A unique-key violation as Supabase reports it. *)
Definition duplicate_key : ErrorObject :=
  {| eo_name := "Error"; eo_message := "duplicate key value violates unique constraint";
     eo_statusCode := None; eo_code := JStr "23505"; eo_isOperational := false;
     eo_field := JUndefined; eo_service := JUndefined; eo_response_status := None;
     eo_baseURL := JUndefined |}.

Definition paygate_reply : string :=
  "PAYGATE_ID=10011072130&PAY_REQUEST_ID=REQ-1&REFERENCE=mg_o1_1700000000000".

(** * Properties *)

(** ** The helpers on a few inputs *)

Example split_reference : split "_" "mg_o1_1700" = ["mg"; "o1"; "1700"].
Proof. reflexivity. Qed.

Example toFixed2_1000 : toFixed2 100000 = "1000.00".
Proof. reflexivity. Qed.

Example number_toString_examples :
  number_toString 100000 = "1000" ∧ number_toString 1050 = "10.5" ∧
  number_toString 1005 = "10.05".
Proof. repeat split; reflexivity. Qed.

Example sort_keys_example : sort_keys ["b"; "a"; "C"] = ["C"; "a"; "b"].
Proof. reflexivity. Qed.

(** ** Handlers that touch nothing but the network log *)

Lemma same_rows_refl st : same_rows st st.
Proof. by repeat split. Qed.

Lemma same_rows_trans st1 st2 st3 :
  same_rows st1 st2 → same_rows st2 st3 → same_rows st1 st3.
Proof.
  unfold same_rows. intros (?&?&?&?&?&?) (?&?&?&?&?&?).
  repeat split; congruence.
Qed.

Lemma quiet_ret {A} (a : A) : quiet (ret a).
Proof. intros st r st' [= <- <-]. apply same_rows_refl. Qed.

Lemma quiet_throw {A} (e : Exn) : quiet (throw (A:=A) e).
Proof. intros st r st' [= <- <-]. apply same_rows_refl. Qed.

Lemma quiet_lift {A} (x : Res A) : quiet (lift x).
Proof. intros st r st' [= <- <-]. apply same_rows_refl. Qed.

Lemma quiet_bind {A B} (m : M A) (k : A → M B) :
  quiet m → (∀ a, quiet (k a)) → quiet (bindM m k).
Proof.
  intros Hm Hk st r st'. unfold bindM.
  destruct (m st) as [[a|e] st1] eqn:E; intros H.
  - eapply same_rows_trans; [by eapply Hm | by eapply Hk].
  - injection H as <- <-. by eapply Hm.
Qed.

Lemma quiet_try_catch {A} (m : M A) (h : Exn → M A) :
  quiet m → (∀ e, quiet (h e)) → quiet (try_catch m h).
Proof.
  intros Hm Hh st r st'. unfold try_catch.
  destruct (m st) as [[a|e] st1] eqn:E; intros H.
  - injection H as <- <-. by eapply Hm.
  - eapply same_rows_trans; [by eapply Hm | by eapply Hh].
Qed.

Lemma quiet_axios net rq : quiet (axios net rq).
Proof.
  intros st r st'. unfold axios.
  destruct (net rq); [destruct (_ && _)|]; intros [= <- <-]; by repeat split.
Qed.

Ltac quiet_step :=
  first
    [ apply quiet_ret | apply quiet_throw | apply quiet_lift | apply quiet_axios
    | apply quiet_bind; [| intros ?]
    | apply quiet_try_catch; [| intros ?]
    | match goal with
      | |- quiet (if ?b then _ else _) => destruct b
      | |- quiet (match ?x with _ => _ end) => destruct x
      end ].

Ltac quiet_auto := cbv zeta; repeat quiet_step.

Section Quiet.
Context {rt : Runtime} (cfg : Config) (net : HttpRequest → AxiosOutcome) (now : Z).

Lemma quiet_kora_initializePayment order user returnUrl :
  quiet (KoraPay.initializePayment cfg net now order user returnUrl).
Proof. unfold KoraPay.initializePayment. quiet_auto. Qed.

Lemma quiet_mtn_initializePayment order user phone :
  quiet (MTN.initializePayment cfg net now order user phone).
Proof. unfold MTN.initializePayment, MTN.getAccessToken. quiet_auto. Qed.

Lemma quiet_orange_initializePayment order user phone :
  quiet (Orange.initializePayment cfg net now order user phone).
Proof. unfold Orange.initializePayment, Orange.getAccessToken. quiet_auto. Qed.

Lemma quiet_paygate_initializePayment order user returnUrl :
  quiet (PayGate.initializePayment cfg net now order user returnUrl).
Proof. unfold PayGate.initializePayment. quiet_auto. Qed.

Lemma quiet_payfast_initializePayment order user returnUrl :
  quiet (PayFast.initializePayment cfg now order user returnUrl).
Proof. unfold PayFast.initializePayment. quiet_auto. Qed.

Lemma quiet_route_initialize pm order user return_url phone :
  quiet (Router.route_initialize cfg net now pm order user return_url phone).
Proof.
  unfold Router.route_initialize.
  repeat match goal with |- quiet (if ?b then _ else _) => destruct b end;
    auto using quiet_kora_initializePayment, quiet_mtn_initializePayment,
      quiet_orange_initializePayment, quiet_paygate_initializePayment,
      quiet_payfast_initializePayment, quiet_throw.
Qed.

Lemma quiet_payfast_handleWebhook payload signature :
  quiet (PayFast.handleWebhook cfg net payload signature).
Proof. unfold PayFast.handleWebhook, PayFast.validatePayment. quiet_auto. Qed.

Lemma quiet_handleWebhook source payload signature :
  quiet (Router.handleWebhook cfg net source payload signature).
Proof.
  destruct source; simpl; auto using quiet_lift, quiet_payfast_handleWebhook.
Qed.

Lemma quiet_route_webhook headers payload :
  quiet (Router.route_webhook cfg net headers payload).
Proof.
  unfold Router.route_webhook.
  destruct (Router.webhook_source headers);
    auto using quiet_handleWebhook, quiet_throw.
Qed.
End Quiet.

(** ** POST /payments/initialize *)

Lemma try_catch_throw_inv {A} (m : M A) (f : Exn → Exn) st e st' :
  try_catch m (fun error => throw (f error)) st = (Throw e, st') →
  ∃ e0, e = f e0.
Proof.
  unfold try_catch, throw. destruct (m st) as [[a|e0] st1]; [done|].
  intros [= <- <-]. by exists e0.
Qed.

Section Initialize.
Context {rt : Runtime} (cfg : Config) (net : HttpRequest → AxiosOutcome) (now : Z).

(** Once the request names an order of the caller, [initialize] is the
    status guard, the phone-number check, and the gateway block. *)
Lemma initialize_checked user fields st order :
  truthy (assoc "order_id" fields) = true →
  truthy (assoc "payment_method" fields) = true →
  orders st !! js_toString (assoc "order_id" fields) = Some order →
  o_user_id order = u_id user →
  Router.initialize cfg net now user (JObj fields) st =
    if negb (String.eqb (o_payment_status order) "pending") then
      (Throw already_processed, st)
    else if phone_missing (assoc "payment_method" fields) (assoc "phone_number" fields) then
      (Throw (new_ValidationError "Phone number is required for mobile money payments"), st)
    else
      Router.create_payment cfg net now (assoc "payment_method" fields) order user
        (assoc "return_url" fields) (assoc "phone_number" fields) st.
Proof.
  intros Hid Hpm Hfound Howner.
  unfold Router.initialize, bindM, lift, get, Router.select_order.
  rewrite Hid, Hpm. simpl. rewrite Hfound, Howner, String.eqb_refl.
  unfold phone_missing.
  destruct (negb (String.eqb (o_payment_status order) "pending")); [done|].
  by destruct (_ && _).
Qed.

(** A failure inside the gateway block reaches the caller as a plain
    [Error] whose message starts with the fixed text, in the state the
    adapter left. *)
Lemma create_payment_adapter_failure pm order user return_url phone st e st1 :
  Router.route_initialize cfg net now pm order user return_url phone st = (Throw e, st1) →
  Router.create_payment cfg net now pm order user return_url phone st =
    (Throw (new_Error ("Payment initialization failed: " +:+ exn_message e)), st1).
Proof.
  intros H. unfold Router.create_payment, try_catch, bindM. by rewrite H.
Qed.

(** Every adapter reports its failures under its own name. *)
Lemma known_adapter_error pm order user return_url phone st e st1 :
  known_method pm = true →
  Router.route_initialize cfg net now pm order user return_url phone st = (Throw e, st1) →
  exn_message e ≠ "Unsupported payment method".
Proof.
  unfold known_method, Router.route_initialize. intros Hk H.
  destruct (is_str pm "kora").
  { apply try_catch_throw_inv in H as [e0 ->]. simpl. discriminate. }
  destruct (is_str pm "mtn").
  { apply try_catch_throw_inv in H as [e0 ->]. simpl. discriminate. }
  destruct (is_str pm "orange").
  { apply try_catch_throw_inv in H as [e0 ->]. simpl. discriminate. }
  destruct (is_str pm "paygate").
  { apply try_catch_throw_inv in H as [e0 ->]. simpl. discriminate. }
  destruct (is_str pm "payfast"); [|done].
  apply try_catch_throw_inv in H as [e0 ->]. simpl. discriminate.
Qed.

(** C7. [initialize] refuses every order of the caller whose payment status
    is not [pending] with the already-processed error, leaving the state
    (rows, network log) as it was and without consulting the gateway
    oracle; so a call that returns a result or changes anything was made
    for an order whose payment status is [pending]. *)
Theorem initialize_guards_processed_orders user fields st order :
  truthy (assoc "order_id" fields) = true →
  truthy (assoc "payment_method" fields) = true →
  orders st !! js_toString (assoc "order_id" fields) = Some order →
  o_user_id order = u_id user →
  (o_payment_status order ≠ "pending" →
     Router.initialize cfg net now user (JObj fields) st = (Throw already_processed, st))
  ∧ (∀ r st', Router.initialize cfg net now user (JObj fields) st = (r, st') →
       (∃ a, r = Ok a) ∨ st' ≠ st →
       o_payment_status order = "pending").
Proof.
  intros Hid Hpm Hfound Howner.
  assert (Hguard : o_payment_status order ≠ "pending" →
    Router.initialize cfg net now user (JObj fields) st = (Throw already_processed, st)).
  { intros Hne. rewrite (initialize_checked _ _ _ order) by done.
    destruct (String.eqb_spec (o_payment_status order) "pending"); [done|]. done. }
  split; [done|].
  intros r st' Hrun Hprogress.
  destruct (String.eqb_spec (o_payment_status order) "pending") as [|Hne]; [done|].
  rewrite (Hguard Hne) in Hrun. injection Hrun as <- <-.
  destruct Hprogress as [[a Ha]|Hst]; [discriminate | done].
Qed.

(** C6 (amended). When the adapter selected for a payable order fails,
    [initialize] fails with a plain [Error] whose message is
    "Payment initialization failed: " followed by the adapter's own
    message, and no row of [payments] (or of [orders]) is added or changed.
    The client is answered 500 under every [NODE_ENV]; in production the
    body carries the fixed internal-error text and code, and under every
    other [NODE_ENV] it carries the message with the adapter's text. *)
Theorem initialize_adapter_failure_persists_nothing user fields st order e st1 :
  truthy (assoc "order_id" fields) = true →
  truthy (assoc "payment_method" fields) = true →
  orders st !! js_toString (assoc "order_id" fields) = Some order →
  o_user_id order = u_id user →
  o_payment_status order = "pending" →
  phone_missing (assoc "payment_method" fields) (assoc "phone_number" fields) = false →
  Router.route_initialize cfg net now (assoc "payment_method" fields) order user
    (assoc "return_url" fields) (assoc "phone_number" fields) st = (Throw e, st1) →
  let failure := new_Error ("Payment initialization failed: " +:+ exn_message e) in
  Router.initialize cfg net now user (JObj fields) st = (Throw failure, st1)
  ∧ statusCode failure = 500
  ∧ payments st1 = payments st
  ∧ orders st1 = orders st
  ∧ (∀ NODE_ENV, er_status (error_response NODE_ENV failure) = 500)
  ∧ er_message (error_response (JStr "production") failure)
    = "An internal server error occurred"
  ∧ er_code (error_response (JStr "production") failure) = JStr "INTERNAL_ERROR"
  ∧ (∀ NODE_ENV, is_str NODE_ENV "production" = false →
       er_message (error_response NODE_ENV failure)
       = "Payment initialization failed: " +:+ exn_message e).
Proof.
  intros Hid Hpm Hfound Howner Hpending Hphone Hfail failure. subst failure.
  rewrite (initialize_checked _ _ _ order) by done.
  rewrite Hpending, Hphone. simpl.
  split; [by apply create_payment_adapter_failure|].
  split; [done|].
  apply quiet_route_initialize in Hfail as (?&?&_).
  split; [done|]. split; [done|].
  split; [done|]. split; [done|]. split; [done|].
  intros NODE_ENV Hdev. unfold error_response, error_object. cbn.
  unfold ErrorHandler.formatErrorResponse. cbn. by rewrite Hdev.
Qed.

(** C10 (amended). [initialize] picks the adapter from the method id alone:
    for a payable order, a method id outside the five known ones fails
    with the unsupported-method error and leaves the state as it was,
    while a known method id is never refused as unsupported, whatever the
    country of the caller and whether or not the availability table lists
    the pair. *)
Theorem initialize_resolves_by_method_only user fields st order :
  truthy (assoc "order_id" fields) = true →
  truthy (assoc "payment_method" fields) = true →
  orders st !! js_toString (assoc "order_id" fields) = Some order →
  o_user_id order = u_id user →
  o_payment_status order = "pending" →
  phone_missing (assoc "payment_method" fields) (assoc "phone_number" fields) = false →
  (known_method (assoc "payment_method" fields) = false →
     Router.initialize cfg net now user (JObj fields) st = (Throw unsupported_method, st))
  ∧ (known_method (assoc "payment_method" fields) = true →
     ∀ r st', Router.initialize cfg net now user (JObj fields) st = (r, st') →
       r ≠ Throw unsupported_method).
Proof.
  intros Hid Hpm Hfound Howner Hpending Hphone.
  rewrite (initialize_checked _ _ _ order) by done.
  rewrite Hpending, Hphone. simpl.
  set (pm := assoc "payment_method" fields) in *.
  split.
  - unfold known_method. intros Hk.
    apply orb_false_elim in Hk as [Hk Hpf]. apply orb_false_elim in Hk as [Hk Hpg].
    apply orb_false_elim in Hk as [Hk Ho]. apply orb_false_elim in Hk as [Hk Hm].
    apply create_payment_adapter_failure with (e := new_ValidationError "Unsupported payment method").
    unfold Router.route_initialize. by rewrite Hk, Hm, Ho, Hpg, Hpf.
  - intros Hk r st'. unfold Router.create_payment, try_catch.
    destruct (bindM _ _ st) as [[a|e0] st2] eqn:Hblock; [by intros [= <- _]|].
    intros [= <- _] [= Hmsg].
    unfold bindM in Hblock.
    destruct (Router.route_initialize _ _ _ _ _ _ _ _ st) as [[res|e1] st3] eqn:Hroute.
    + unfold Router.insert_payment in Hblock.
      destruct (payments st3 !! _); simpl in Hblock; [|discriminate].
      injection Hblock as <- <-. simpl in Hmsg. discriminate.
    + injection Hblock as <- <-. change (exn_message e1 = "Unsupported payment method") in Hmsg.
      by eapply known_adapter_error.
Qed.
End Initialize.

(** C7, an instance: an order already paid is refused, nothing moves. *)
Lemma initialize_guards_processed_orders_witness :
  Router.initialize (rt:=symbolic_runtime) sample_config net_accepting t0 (sample_user "ZA")
    (JObj [("order_id", JStr "o1"); ("payment_method", JStr "payfast")]) paid_elsewhere
  = (Throw already_processed, paid_elsewhere).
Proof.
  apply (initialize_guards_processed_orders (rt:=symbolic_runtime) sample_config net_accepting t0
           (sample_user "ZA") [("order_id", JStr "o1"); ("payment_method", JStr "payfast")]
           paid_elsewhere (sample_order "success" "paid")).
  - reflexivity.
  - reflexivity.
  - vm_compute. reflexivity.
  - reflexivity.
  - vm_compute. discriminate.
Defined.

(** C6, an instance: Kora Pay is unreachable; the call fails with the
    prefixed message of the adapter and the table of payments is as
    before. *)
Lemma initialize_adapter_failure_persists_nothing_witness :
  ∃ st1,
    Router.initialize (rt:=symbolic_runtime) sample_config net_down t0 (sample_user "ZA")
      (JObj kora_request) (payable "ZA")
    = (Throw (new_Error ("Payment initialization failed: " +:+ exn_message kora_down)), st1)
    ∧ payments st1 = payments (payable "ZA")
    ∧ er_message
        (error_response (JStr "production")
           (new_Error ("Payment initialization failed: " +:+ exn_message kora_down)))
      = "An internal server error occurred".
Proof.
  eexists.
  edestruct (initialize_adapter_failure_persists_nothing (rt:=symbolic_runtime) sample_config
               net_down t0 (sample_user "ZA") kora_request (payable "ZA")
               (sample_order "pending" "pending") kora_down)
    as (Hrun & _ & Hpayments & _ & _ & Hmasked & _).
  - reflexivity.
  - reflexivity.
  - vm_compute. reflexivity.
  - reflexivity.
  - reflexivity.
  - reflexivity.
  - vm_compute. reflexivity.
  - split; [exact Hrun|]. split; [exact Hpayments|exact Hmasked].
Defined.

(** Outside production the words of the gateway reach the client: Kora Pay
    refuses the secret key, and the body of the 500 answer of [initialize]
    quotes its refusal. *)
Lemma gateway_text_reaches_the_client :
  ∃ e st',
    Router.initialize (rt:=symbolic_runtime) sample_config net_refusing t0 (sample_user "ZA")
      (JObj kora_request) (payable "ZA") = (Throw e, st')
    ∧ payments st' = payments (payable "ZA")
    ∧ er_status (error_response (JStr "development") e) = 500
    ∧ er_message (error_response (JStr "development") e)
      = "Payment initialization failed: Kora Pay error: Invalid secret key".
Proof. eexists _, _. split; [vm_compute; reflexivity|]. by vm_compute. Qed.

(** C10, an instance of the amended statement: an unknown method id. *)
Lemma initialize_resolves_by_method_only_witness :
  Router.initialize (rt:=symbolic_runtime) sample_config net_accepting t0 (sample_user "ZA")
    (JObj [("order_id", JStr "o1"); ("payment_method", JStr "paypal")]) (payable "ZA")
  = (Throw unsupported_method, payable "ZA").
Proof.
  apply (initialize_resolves_by_method_only (rt:=symbolic_runtime) sample_config net_accepting t0
           (sample_user "ZA") [("order_id", JStr "o1"); ("payment_method", JStr "paypal")]
           (payable "ZA") (sample_order "pending" "pending")).
  - reflexivity.
  - reflexivity.
  - vm_compute. reflexivity.
  - reflexivity.
  - reflexivity.
  - reflexivity.
  - reflexivity.
Defined.

(** C10, as stated, fails: the pair (mtn, ZA) is not in the availability
    table, yet [initialize] with method [mtn] for a caller in ZA succeeds and
    stores a pending MTN Payment. *)
Lemma mtn_initialized_outside_its_countries :
  Router.in_table "mtn" "ZA" = false
  ∧ Router.in_table "mtn" "CM" = true
  ∧ is_ok (fst (Router.initialize (rt:=symbolic_runtime) sample_config net_accepting t0
                  (sample_user "ZA") mtn_request (payable "ZA"))) = true
  ∧ (p_payment_method <$>
       payments (snd (Router.initialize (rt:=symbolic_runtime) sample_config net_accepting t0
                        (sample_user "ZA") mtn_request (payable "ZA")))
         !! "mg_o1_1700000000000") = Some "mtn".
Proof. vm_compute. repeat split; reflexivity. Qed.

(** ** POST /payments/webhook *)

Section Webhook.
Context {rt : Runtime} (cfg : Config) (net : HttpRequest → AxiosOutcome) (now : Z).

Lemma send_confirmation_returns order_id st :
  Router.send_confirmation order_id st = (Ok (), snd (Router.send_confirmation order_id st)).
Proof.
  unfold Router.send_confirmation.
  destruct (orders st !! order_id) as [order|]; [|done].
  destruct (users st !! o_user_id order); [|done].
  by destruct (Router.email_items (o_order_items order)).
Qed.

Lemma send_confirmation_rows order_id st :
  payments (snd (Router.send_confirmation order_id st)) = payments st
  ∧ orders (snd (Router.send_confirmation order_id st)) = orders st.
Proof.
  unfold Router.send_confirmation.
  destruct (orders st !! order_id) as [order|]; [|done].
  destruct (users st !! o_user_id order); [|done].
  by destruct (Router.email_items (o_order_items order)).
Qed.

(** The service threw (bad signature, malformed body, unknown source). *)
Lemma webhook_thrown headers payload st e st1 :
  Router.route_webhook cfg net headers payload st = (Throw e, st1) →
  Router.webhook cfg net now headers payload st = (rejected (exn_message e), st1).
Proof.
  intros H. unfold Router.webhook, Router.reconcile, bindM. by rewrite H.
Qed.

(** The service returned [null]. *)
Lemma webhook_no_update headers payload st st1 :
  Router.route_webhook cfg net headers payload st = (Ok None, st1) →
  Router.webhook cfg net now headers payload st =
    (rejected "Cannot read properties of null (reading 'status')", st1).
Proof.
  intros H. unfold Router.webhook, Router.reconcile, bindM. by rewrite H.
Qed.

(** No row under the parsed payment id. *)
Lemma webhook_not_found headers payload st u st1 :
  Router.route_webhook cfg net headers payload st = (Ok (Some u), st1) →
  payments st !! js_toString (wu_payment_id u) = None →
  Router.webhook cfg net now headers payload st =
    (rejected "Failed to update payment record", st1).
Proof.
  intros H Hrow.
  pose proof (quiet_route_webhook cfg net headers payload _ _ _ H) as (Hp&_).
  unfold Router.webhook, Router.reconcile, bindM. rewrite H. simpl.
  unfold Router.update_payment. by rewrite Hp, Hrow.
Qed.

(** A row under the parsed payment id: the handler runs to its end. *)
Lemma webhook_found headers payload st u st1 row :
  Router.route_webhook cfg net headers payload st = (Ok (Some u), st1) →
  payments st !! js_toString (wu_payment_id u) = Some row →
  Router.webhook cfg net now headers payload st =
    if String.eqb (wu_status u) "success" then
      (rejected "this.processAffiliateCommission is not a function", after_success now u row st1)
    else (processed, after_other now u row st1).
Proof.
  intros H Hrow.
  pose proof (quiet_route_webhook cfg net headers payload _ _ _ H) as (Hp&_).
  unfold Router.webhook, Router.reconcile, bindM. rewrite H. simpl.
  unfold Router.update_payment. rewrite Hp, Hrow.
  destruct (String.eqb (wu_status u) "success"); [|done].
  rewrite send_confirmation_returns. reflexivity.
Qed.
End Webhook.

Section Reconcile.
Context {rt : Runtime} (cfg : Config) (net : HttpRequest → AxiosOutcome) (now : Z).

Lemma after_other_rows u row st st1 :
  same_rows st st1 →
  orders (after_other now u row st1) = orders st
  ∧ outbox (after_other now u row st1) = outbox st
  ∧ payments (after_other now u row st1) =
      <[js_toString (wu_payment_id u) := Router.updated_payment now u row]> (payments st).
Proof. intros (Hp&Ho&_&_&_&Hm). unfold after_other. simpl. by rewrite Hp, Ho, Hm. Qed.

Lemma after_success_payments u row st st1 :
  same_rows st st1 →
  payments (after_success now u row st1) =
    <[js_toString (wu_payment_id u) := Router.updated_payment now u row]> (payments st).
Proof.
  intros (Hp&_). unfold after_success.
  rewrite (proj1 (send_confirmation_rows _ _)). simpl. by rewrite Hp.
Qed.

(** The lines of the e-mail when every item has its product, and the
    exception when one has none. *)
Lemma email_items_Ok items :
  Forall (fun item => item_products item ≠ None) items →
  Router.email_items items = Ok (email_line <$> items).
Proof.
  induction 1 as [|item items Hitem _ IH]; [done|]. cbn [Router.email_items].
  rewrite fmap_cons. unfold email_line at 1.
  destruct (item_products item) as [name|]; [|done].
  by rewrite IH.
Qed.

Lemma email_items_Throw items :
  Exists (fun item => item_products item = None) items →
  ∃ e, Router.email_items items = Throw e.
Proof.
  induction 1 as [item items Hitem|item items _ [e IH]]; cbn [Router.email_items].
  - rewrite Hitem. by eexists.
  - destruct (item_products item); [|by eexists]. rewrite IH. by eexists.
Qed.

Lemma after_success_order u row st st1 order user :
  same_rows st st1 →
  orders st !! p_order_id row = Some order →
  users st !! o_user_id order = Some user →
  orders (after_success now u row st1) =
    <[p_order_id row := Router.paid_order now order]> (orders st)
  ∧ outbox (after_success now u row st1) =
      match Router.email_items (o_order_items order) with
      | Ok items => (outbox st ++ [ confirmation order user items ])%list
      | Throw _ => outbox st
      end.
Proof.
  intros (Hp&Ho&Hu&_&_&Hm) Horder Huser. unfold after_success.
  unfold Router.send_confirmation, Router.mark_order_paid. simpl.
  rewrite Ho, Horder, lookup_insert_eq. simpl. rewrite Hu, Huser. simpl.
  destruct (Router.email_items (o_order_items order)); simpl; by rewrite Ho, Horder, Hm.
Qed.

(** C1 (amended). The update of the Payment row is keyed on the payment id
    alone: whenever the service yields an update and a row exists under the
    parsed id, whatever the row's current status, the row's status,
    transaction id, raw response, processed and updated timestamps are
    overwritten with those of this webhook (a member the update leaves
    undefined keeps the stored value) and its other columns stay. With a
    parsed status other than [success] nothing else changes and the answer
    is 200; with a parsed [success] the parent Order gets payment status
    [success], status [paid] and a new update time, its other columns
    staying, and, when the Order's user exists, a confirmation e-mail is
    handed to the e-mail service if every item of the order has its
    product, and none if an item has no product, on every delivery. *)
Theorem reconcile_overwrites_whatever_status headers payload st u st1 row :
  Router.route_webhook cfg net headers payload st = (Ok (Some u), st1) →
  payments st !! js_toString (wu_payment_id u) = Some row →
  (∃ row',
     payments (snd (Router.webhook cfg net now headers payload st))
       !! js_toString (wu_payment_id u) = Some row'
     ∧ p_status row' = wu_status u
     ∧ p_gateway_transaction_id row' =
         match wu_transaction_id u with
         | JUndefined => p_gateway_transaction_id row
         | sent => sent
         end
     ∧ p_gateway_response row' =
         match wu_gateway_response u with
         | JUndefined => p_gateway_response row
         | sent => sent
         end
     ∧ p_processed_at row' = (if String.eqb (wu_status u) "success" then Some now else None)
     ∧ p_updated_at row' = now
     ∧ p_id row' = p_id row ∧ p_order_id row' = p_order_id row
     ∧ p_user_id row' = p_user_id row ∧ p_payment_method row' = p_payment_method row
     ∧ p_amount row' = p_amount row ∧ p_currency row' = p_currency row
     ∧ p_created_at row' = p_created_at row)
  ∧ (wu_status u ≠ "success" →
       fst (Router.webhook cfg net now headers payload st) = processed
       ∧ orders (snd (Router.webhook cfg net now headers payload st)) = orders st
       ∧ outbox (snd (Router.webhook cfg net now headers payload st)) = outbox st)
  ∧ (wu_status u = "success" →
       ∀ order user,
         orders st !! p_order_id row = Some order →
         users st !! o_user_id order = Some user →
         (∃ order',
            orders (snd (Router.webhook cfg net now headers payload st))
              !! p_order_id row = Some order'
            ∧ o_payment_status order' = "success" ∧ o_status order' = "paid"
            ∧ o_updated_at order' = now
            ∧ o_id order' = o_id order ∧ o_user_id order' = o_user_id order
            ∧ o_total_price order' = o_total_price order
            ∧ o_tracking_number order' = o_tracking_number order
            ∧ o_promo_code_id order' = o_promo_code_id order
            ∧ o_order_items order' = o_order_items order)
         ∧ (Forall (fun item => item_products item ≠ None) (o_order_items order) →
            outbox (snd (Router.webhook cfg net now headers payload st)) =
              (outbox st ++
               [ {| em_to := u_email user;
                    em_name := u_full_name user;
                    em_orderNumber := toUpperCase (slice_last 8 (o_id order));
                    em_orderId := o_id order;
                    em_total := o_total_price order;
                    em_items :=
                      (fun item =>
                         {| ei_name := default "" (item_products item);
                            ei_quantity := item_quantity item;
                            ei_price := item_unit_price item |}) <$> o_order_items order;
                    em_trackingNumber := o_tracking_number order;
                    em_user_id := o_user_id order |} ])%list)
         ∧ (Exists (fun item => item_products item = None) (o_order_items order) →
            outbox (snd (Router.webhook cfg net now headers payload st)) = outbox st)).
Proof.
  intros Hroute Hrow.
  pose proof (quiet_route_webhook cfg net headers payload _ _ _ Hroute) as Hsame.
  rewrite (webhook_found cfg net now headers payload st u st1 row Hroute Hrow).
  destruct (String.eqb_spec (wu_status u) "success") as [Hs|Hs]; cbn [fst snd].
  - split.
    { exists (Router.updated_payment now u row).
      split; [by rewrite (after_success_payments _ _ st), lookup_insert_eq|].
      cbn. rewrite Hs. by repeat split. }
    split; [done|].
    intros _ order user Horder Huser.
    destruct (after_success_order u row st st1 order user Hsame Horder Huser) as [-> ->].
    split; [|split].
    + exists (Router.paid_order now order). split; [by rewrite lookup_insert_eq|].
      by repeat split.
    + intros Hitems. by rewrite (email_items_Ok _ Hitems).
    + intros Hitems. by destruct (email_items_Throw _ Hitems) as [e ->].
  - destruct (after_other_rows u row st st1 Hsame) as (Ho&Hm&Hp).
    split.
    { exists (Router.updated_payment now u row).
      split; [by rewrite Hp, lookup_insert_eq|].
      cbn. destruct (String.eqb_spec (wu_status u) "success"); [done|]. by repeat split. }
    split; [done|]. done.
Qed.

(** C8 (amended). A webhook parsed as [failed] for an existing Payment
    rewrites that Payment row and nothing else: every Order row, the
    parent's payment status included, is as it was. *)
Theorem failed_webhook_leaves_orders_untouched headers payload st u st1 row :
  Router.route_webhook cfg net headers payload st = (Ok (Some u), st1) →
  payments st !! js_toString (wu_payment_id u) = Some row →
  wu_status u = "failed" →
  Router.webhook cfg net now headers payload st = (processed, after_other now u row st1)
  ∧ orders (after_other now u row st1) = orders st
  ∧ payments (after_other now u row st1) !! js_toString (wu_payment_id u)
      = Some (Router.updated_payment now u row)
  ∧ p_status (Router.updated_payment now u row) = "failed".
Proof.
  intros Hroute Hrow Hfailed.
  pose proof (quiet_route_webhook cfg net headers payload _ _ _ Hroute) as Hsame.
  rewrite (webhook_found cfg net now headers payload st u st1 row Hroute Hrow).
  rewrite Hfailed. cbn [String.eqb Ascii.eqb Bool.eqb].
  destruct (after_other_rows u row st st1 Hsame) as (Ho&_&Hp).
  split; [done|]. split; [done|].
  split; [by rewrite Hp, lookup_insert_eq|done].
Qed.

(** The answers of the endpoint when no order is paid: 200 when the
    service yields an update whose status is not [success] and a Payment
    row exists under the parsed id, whatever that row's current status; 400
    when no marker header is recognised, when the service throws (a
    rejected signature or checksum among the causes), when the service
    yields no update, and when no Payment row exists under the parsed id;
    in the last four cases no row changes. *)
Lemma webhook_response_codes headers payload st :
  (∀ u st1 row,
     Router.route_webhook cfg net headers payload st = (Ok (Some u), st1) →
     payments st !! js_toString (wu_payment_id u) = Some row →
     wu_status u ≠ "success" →
     http_status (fst (Router.webhook cfg net now headers payload st)) = 200)
  ∧ (Router.webhook_source headers = None →
     Router.webhook cfg net now headers payload st = (rejected "Unknown webhook source", st))
  ∧ (∀ e st1,
     Router.route_webhook cfg net headers payload st = (Throw e, st1) →
     http_status (fst (Router.webhook cfg net now headers payload st)) = 400
     ∧ same_rows st (snd (Router.webhook cfg net now headers payload st)))
  ∧ (∀ st1,
     Router.route_webhook cfg net headers payload st = (Ok None, st1) →
     http_status (fst (Router.webhook cfg net now headers payload st)) = 400
     ∧ same_rows st (snd (Router.webhook cfg net now headers payload st)))
  ∧ (∀ u st1,
     Router.route_webhook cfg net headers payload st = (Ok (Some u), st1) →
     payments st !! js_toString (wu_payment_id u) = None →
     http_status (fst (Router.webhook cfg net now headers payload st)) = 400
     ∧ same_rows st (snd (Router.webhook cfg net now headers payload st))).
Proof.
  split; [|split; [|split; [|split]]].
  - intros u st1 row Hroute Hrow Hs.
    rewrite (webhook_found cfg net now headers payload st u st1 row Hroute Hrow).
    by destruct (String.eqb_spec (wu_status u) "success").
  - intros Hsrc.
    apply (webhook_thrown cfg net now headers payload st
             (new_ValidationError "Unknown webhook source") st).
    unfold Router.route_webhook. by rewrite Hsrc.
  - intros e st1 Hroute.
    rewrite (webhook_thrown cfg net now headers payload st e st1 Hroute).
    split; [done|]. by eapply quiet_route_webhook.
  - intros st1 Hroute.
    rewrite (webhook_no_update cfg net now headers payload st st1 Hroute).
    split; [done|]. by eapply quiet_route_webhook.
  - intros u st1 Hroute Hrow.
    rewrite (webhook_not_found cfg net now headers payload st u st1 Hroute Hrow).
    split; [done|]. by eapply quiet_route_webhook.
Qed.

(** C5, where the code goes wrong: whenever the service yields a [success]
    update for an existing Payment row, the handler writes the Payment
    ([success]) and the Order ([success], [paid]) and then calls
    [this.processAffiliateCommission], which is not a function inside the
    arrow function of the route; the [catch] of the handler answers 400
    with that message, although the processing succeeded. No commission
    is recorded. *)
Theorem successful_webhook_is_answered_400 headers payload st u st1 row :
  Router.route_webhook cfg net headers payload st = (Ok (Some u), st1) →
  payments st !! js_toString (wu_payment_id u) = Some row →
  wu_status u = "success" →
  fst (Router.webhook cfg net now headers payload st)
    = rejected "this.processAffiliateCommission is not a function"
  ∧ http_status (fst (Router.webhook cfg net now headers payload st)) = 400
  ∧ (p_status <$> payments (snd (Router.webhook cfg net now headers payload st))
                   !! js_toString (wu_payment_id u)) = Some "success"
  ∧ (∀ order,
       orders st !! p_order_id row = Some order →
       (o_payment_status <$> orders (snd (Router.webhook cfg net now headers payload st))
                              !! p_order_id row) = Some "success"
       ∧ (o_status <$> orders (snd (Router.webhook cfg net now headers payload st))
                        !! p_order_id row) = Some "paid")
  ∧ affiliate_stats (snd (Router.webhook cfg net now headers payload st)) = affiliate_stats st.
Proof.
  intros Hroute Hrow Hs.
  pose proof (quiet_route_webhook cfg net headers payload _ _ _ Hroute) as Hsame.
  rewrite (webhook_found cfg net now headers payload st u st1 row Hroute Hrow), Hs.
  cbn [String.eqb Ascii.eqb Bool.eqb fst snd].
  split; [done|]. split; [done|].
  split.
  { rewrite (after_success_payments _ _ st) by done. rewrite lookup_insert_eq. cbn.
    by rewrite Hs. }
  split.
  - intros order Horder. destruct Hsame as (_ & Ho & _). unfold after_success.
    rewrite (proj2 (send_confirmation_rows _ _)). cbn. rewrite Ho, Horder.
    by rewrite lookup_insert_eq.
  - destruct Hsame as (_ & _ & _ & _ & Ha & _). unfold after_success, Router.send_confirmation.
    cbn. repeat case_match; cbn; done.
Qed.
End Reconcile.

(** ** Signature and checksum verification at the webhook *)

Section Signatures.
Context {rt : Runtime} (cfg : Config) (net : HttpRequest → AxiosOutcome) (now : Z).

(** Where a verification exists and fails (KoraPay, Orange, PayGate,
    PayFast), the webhook is answered with 400 and the whole state, every
    Payment and Order row included, is as it was. *)
Lemma rejected_signature_changes_nothing headers payload st source :
  Router.webhook_source headers = Some source →
  signature_fails cfg source payload (Router.signature_of headers) →
  Router.webhook cfg net now headers payload st = (rejected (invalid_signature source), st).
Proof.
  intros Hsrc Hfail.
  apply (webhook_thrown cfg net now headers payload st
           (new_Error (invalid_signature source)) st).
  unfold Router.route_webhook. rewrite Hsrc.
  destruct source; simpl in *.
  - unfold lift, KoraPay.handleWebhook. by rewrite Hfail.
  - done.
  - destruct Hfail as [Hsig Hfail].
    unfold lift, Orange.handleWebhook. by rewrite Hsig, Hfail.
  - destruct Hfail as (data & Hdata & Hfail).
    unfold lift, PayGate.handleWebhook. rewrite Hdata. cbn [mbind Res_bind].
    by rewrite Hfail.
  - destruct Hfail as (data & data' & Hdata & Hfail).
    unfold PayFast.handleWebhook, bindM, lift. by rewrite Hdata, Hfail.
Qed.
End Signatures.

(** A PayGate notification with a made-up checksum is turned away. *)
Example forged_paygate_is_rejected :
  Router.webhook (rt:=symbolic_runtime) sample_config net_accepting (t0 + 5000)
    (marker "x-paygate-signature") forged_paygate pending_mtn
  = (rejected "Invalid PayGate checksum", pending_mtn).
Proof.
  apply (rejected_signature_changes_nothing (rt:=symbolic_runtime) sample_config net_accepting
           (t0 + 5000) (marker "x-paygate-signature") forged_paygate pending_mtn FromPayGate).
  - vm_compute. reflexivity.
  - eexists. split; vm_compute; reflexivity.
Defined.

Section Unverified.
Context {rt : Runtime}.

(** C4 at a failing input, for every runtime. A request carrying the MTN
    marker header and signature values nobody issued is not rejected: it is
    processed, answered with 200, and moves the pending Payment to
    [failed]. The MTN service never looks at the signature it is given. *)
Theorem forged_mtn_webhook_is_applied :
  (p_status <$> payments pending_mtn !! "mg_o1_1700000000000") = Some "pending"
  ∧ Router.signature_of forged_mtn_headers = JStr "forged"
  ∧ fst (Router.webhook sample_config net_accepting (t0 + 5000)
           forged_mtn_headers mtn_failed pending_mtn) = processed
  ∧ (p_status <$>
       payments (snd (Router.webhook sample_config net_accepting
                        (t0 + 5000) forged_mtn_headers mtn_failed pending_mtn))
         !! "mg_o1_1700000000000") = Some "failed".
Proof. vm_compute. repeat split; reflexivity. Qed.

(** Nor does the answer depend on the signature at all. *)
Lemma mtn_ignores_signature payload signature signature' :
  MTN.handleWebhook payload signature = MTN.handleWebhook payload signature'.
Proof. reflexivity. Qed.
End Unverified.

(** C8, as stated, fails: after a [failed] webhook for the pending Payment
    of order o1, the Payment is [failed] but the Order's payment status is
    still [pending]. *)
Lemma failed_webhook_keeps_order_pending :
  fst (Router.webhook (rt:=symbolic_runtime) sample_config net_accepting (t0 + 5000)
         (marker "x-mtn-signature") mtn_failed pending_mtn) = processed
  ∧ (p_status <$>
       payments (snd (Router.webhook (rt:=symbolic_runtime) sample_config net_accepting
                        (t0 + 5000) (marker "x-mtn-signature") mtn_failed pending_mtn))
         !! "mg_o1_1700000000000") = Some "failed"
  ∧ (o_payment_status <$>
       orders (snd (Router.webhook (rt:=symbolic_runtime) sample_config net_accepting
                      (t0 + 5000) (marker "x-mtn-signature") mtn_failed pending_mtn))
         !! "o1") = Some "pending".
Proof. vm_compute. repeat split; reflexivity. Qed.

(** C8, an instance of the amended statement. *)
Lemma failed_webhook_leaves_orders_untouched_witness :
  Router.webhook (rt:=symbolic_runtime) sample_config net_accepting (t0 + 5000)
    (marker "x-mtn-signature") mtn_failed pending_mtn
  = (processed, after_other (t0 + 5000) mtn_failed_update (sample_payment "mtn" "pending") pending_mtn)
  ∧ orders (after_other (t0 + 5000) mtn_failed_update (sample_payment "mtn" "pending") pending_mtn)
    = orders pending_mtn
  ∧ payments (after_other (t0 + 5000) mtn_failed_update (sample_payment "mtn" "pending") pending_mtn)
      !! js_toString (wu_payment_id mtn_failed_update)
    = Some (Router.updated_payment (t0 + 5000) mtn_failed_update (sample_payment "mtn" "pending"))
  ∧ p_status (Router.updated_payment (t0 + 5000) mtn_failed_update (sample_payment "mtn" "pending"))
    = "failed".
Proof.
  apply (failed_webhook_leaves_orders_untouched (rt:=symbolic_runtime) sample_config net_accepting
           (t0 + 5000) (marker "x-mtn-signature") mtn_failed pending_mtn mtn_failed_update
           pending_mtn (sample_payment "mtn" "pending")).
  - vm_compute. reflexivity.
  - vm_compute. reflexivity.
  - reflexivity.
Defined.

(** C1, an instance of the amended statement: the Payment is already
    [failed] when a [SUCCESSFUL] notification arrives, and is overwritten. *)
Lemma reconcile_overwrites_whatever_status_witness :
  ∃ row',
    payments (snd (Router.webhook (rt:=symbolic_runtime) sample_config net_accepting (t0 + 5000)
                     (marker "x-mtn-signature") mtn_successful failed_mtn))
      !! "mg_o1_1700000000000" = Some row'
    ∧ p_status row' = "success"
    ∧ p_gateway_transaction_id row' = JStr "FT-9"
    ∧ p_gateway_response row' = mtn_successful
    ∧ p_processed_at row' = Some (t0 + 5000)
    ∧ p_updated_at row' = t0 + 5000.
Proof.
  edestruct (reconcile_overwrites_whatever_status (rt:=symbolic_runtime) sample_config
               net_accepting (t0 + 5000) (marker "x-mtn-signature") mtn_successful failed_mtn
               mtn_successful_update failed_mtn (sample_payment "mtn" "failed"))
    as [(row' & Hrow' & Hstatus & Htx & Hresp & Hproc & Hupd & _) _].
  { vm_compute. reflexivity. }
  { vm_compute. reflexivity. }
  exists row'. split; [exact Hrow'|]. split; [exact Hstatus|]. split; [exact Htx|].
  split; [exact Hresp|]. split; [exact Hproc|exact Hupd].
Defined.

(** C1, as stated, fails: once the Payment is [success], replaying the
    notification rewrites the row (new timestamps) and hands a second
    confirmation e-mail to the e-mail service, and a later failure
    notification moves the Payment from [success] to [failed]. *)
Lemma terminal_payment_is_rewritten :
  (p_status <$> payments (snd first_delivery) !! "mg_o1_1700000000000") = Some "success"
  ∧ length (outbox (snd first_delivery)) = 1%nat
  ∧ (p_processed_at <$> payments (snd first_delivery) !! "mg_o1_1700000000000")
      = Some (Some (t0 + 5000))
  ∧ (p_processed_at <$> payments (snd replayed_delivery) !! "mg_o1_1700000000000")
      = Some (Some (t0 + 9000))
  ∧ length (outbox (snd replayed_delivery)) = 2%nat
  ∧ fst late_failure = processed
  ∧ (p_status <$> payments (snd late_failure) !! "mg_o1_1700000000000") = Some "failed".
Proof. vm_compute. repeat split; reflexivity. Qed.

(** C5, an instance: MTN's [SUCCESSFUL] notification for the pending
    Payment of order o1 is processed (Payment [success], Order [paid]) and
    answered 400. *)
Lemma successful_webhook_is_answered_400_witness :
  fst (Router.webhook (rt:=symbolic_runtime) sample_config net_accepting (t0 + 5000)
         (marker "x-mtn-signature") mtn_successful pending_mtn)
    = rejected "this.processAffiliateCommission is not a function"
  ∧ http_status (fst (Router.webhook (rt:=symbolic_runtime) sample_config net_accepting
                        (t0 + 5000) (marker "x-mtn-signature") mtn_successful pending_mtn))
    = 400
  ∧ (p_status <$>
       payments (snd (Router.webhook (rt:=symbolic_runtime) sample_config net_accepting
                        (t0 + 5000) (marker "x-mtn-signature") mtn_successful pending_mtn))
         !! "mg_o1_1700000000000") = Some "success".
Proof.
  destruct (successful_webhook_is_answered_400 (rt:=symbolic_runtime) sample_config
              net_accepting (t0 + 5000) (marker "x-mtn-signature") mtn_successful pending_mtn
              mtn_successful_update pending_mtn (sample_payment "mtn" "pending"))
    as (Hanswer & Hcode & Hpayment & _).
  - vm_compute. reflexivity.
  - vm_compute. reflexivity.
  - reflexivity.
  - split; [exact Hanswer|]. split; [exact Hcode|exact Hpayment].
Defined.

(** Other requests answered 400 although the source is known and no
    signature check failed: no Payment row exists under the parsed id, or a
    correctly signed KoraPay event is of a kind the service has no case
    for. *)
Example known_source_valid_signature_still_400 :
  Router.webhook_source (marker "x-mtn-signature") = Some FromMTN
  ∧ Router.webhook (rt:=symbolic_runtime) sample_config net_accepting (t0 + 5000)
      (marker "x-mtn-signature") mtn_unknown_payment pending_mtn
    = (rejected "Failed to update payment record", pending_mtn)
  ∧ Router.webhook_source (kora_signed kora_other_event) = Some FromKora
  ∧ KoraPay.verifyWebhookSignature (rt:=symbolic_runtime) sample_config kora_other_event
      (Router.signature_of (kora_signed kora_other_event)) = Ok true
  ∧ Router.webhook (rt:=symbolic_runtime) sample_config net_accepting (t0 + 5000)
      (kora_signed kora_other_event) kora_other_event pending_mtn
    = (rejected "Cannot read properties of null (reading 'status')", pending_mtn).
Proof. vm_compute. repeat split; reflexivity. Qed.

(** ** The identifier a webhook is matched on *)

Section Scenario.
Context {rt : Runtime}.

(** The notification carries the signature PayFast's scheme gives it. *)
Lemma payfast_complete_verifies cfg :
  PayFast.verifySignature cfg (payfast_complete cfg) = Ok (true, JObj payfast_complete_fields).
Proof.
  unfold PayFast.verifySignature, payfast_complete.
  cbn -[PayFast.generateSignature].
  by rewrite String.eqb_refl.
Qed.

(** What the PayFast service makes of it: a success for payment id [o1]. *)
Lemma payfast_complete_parsed st :
  ∃ st1, Router.route_webhook sample_config net_accepting (marker "x-payfast-signature")
           (payfast_complete sample_config) st = (Ok (Some payfast_complete_update), st1).
Proof.
  unfold Router.route_webhook.
  replace (Router.webhook_source (marker "x-payfast-signature")) with (Some FromPayFast)
    by (vm_compute; reflexivity).
  unfold Router.handleWebhook, PayFast.handleWebhook, bindM, lift.
  change (form_data true (payfast_complete sample_config))
    with (Ok (payfast_complete sample_config)).
  cbn [mbind Res_bind]. rewrite payfast_complete_verifies. cbn [fst snd negb].
  unfold PayFast.validatePayment, try_catch, bindM, axios. cbn.
  eexists. reflexivity.
Qed.

(** C2 at a failing input, for every runtime. Order o1 is initialised with
    PayFast, which stores the pending Payment [mg_o1_1700000000000];
    PayFast then posts its correctly signed [COMPLETE] notification, which
    PayFast's validation endpoint confirms. The service parses it to
    status [success] with payment id [o1]; no Payment row has that id, so
    the answer is 400 and the Payment and the Order stay [pending]. *)
Theorem payfast_success_webhook_is_lost :
  (p_status <$> payments (snd payfast_initialized) !! "mg_o1_1700000000000") = Some "pending"
  ∧ fst payfast_notified = rejected "Failed to update payment record"
  ∧ payments (snd payfast_notified) = payments (snd payfast_initialized)
  ∧ orders (snd payfast_notified) = orders (snd payfast_initialized)
  ∧ (o_payment_status <$> orders (snd payfast_notified) !! "o1") = Some "pending".
Proof.
  split; [vm_compute; reflexivity|].
  destruct (payfast_complete_parsed (snd payfast_initialized)) as [st1 Hparsed].
  assert (Hnone : payments (snd payfast_initialized)
                    !! js_toString (wu_payment_id payfast_complete_update) = None)
    by (vm_compute; reflexivity).
  unfold payfast_notified.
  rewrite (webhook_not_found _ _ _ _ _ _ _ _ Hparsed Hnone). cbn [fst snd].
  destruct (quiet_route_webhook _ _ _ _ _ _ _ Hparsed) as (Hp&Ho&_).
  split; [done|]. split; [done|]. split; [done|].
  rewrite Ho. vm_compute. reflexivity.
Qed.
End Scenario.

(** *** The reference and its segments *)


Lemma split_cons sep s : ∃ seg segs, split sep s = seg :: segs ∧
  (String.length seg ≤ String.length s)%nat.
Proof.
  induction s as [|c s (seg & segs & IH & Hlen)]; simpl.
  - by exists "", [].
  - destruct (Ascii.eqb c sep).
    + exists "", (split sep s). split; [done | simpl; lia].
    + rewrite IH. exists (String c seg), segs. split; [done | simpl; lia].
Qed.

(** Splitting distributes over a separator in the middle. *)
Lemma split_app_sep sep a b :
  split sep (a +:+ String sep b) = (split sep a ++ split sep b)%list.
Proof.
  induction a as [|c a IH]; simpl.
  - by rewrite Ascii.eqb_refl.
  - destruct (Ascii.eqb c sep); [by rewrite IH|].
    rewrite IH. destruct (split_cons sep a) as (seg & segs & -> & _). done.
Qed.

Lemma split_without_sep sep s : contains sep s = false → split sep s = [s].
Proof.
  induction s as [|c s IH]; simpl; [done|].
  intros [Hc Hs]%orb_false_elim. rewrite Hc, (IH Hs). done.
Qed.







Section Identifiers.
Context {rt : Runtime} (cfg : Config) (net : HttpRequest → AxiosOutcome) (now : Z).
Context (order : Order) (user : User).








Lemma is_str_true v lit : is_str v lit = true → v = JStr lit.
Proof.
  destruct v; simpl; try discriminate.
  by intros ->%String.eqb_eq.
Qed.



End Identifiers.





(** An identifier with an underscore is not a UUID; for such an id KoraPay
    would take the part before the underscore: the attempt of [a_b] is
    stored under [mg_a_b_1700000000000] and its notification is parsed to
    [a]. *)
Example kora_webhook_id_is_a_prefix :
  is_uuid (o_id order_a_b) = false
  ∧ match fst (KoraPay.initializePayment sample_config net_accepting t0
               order_a_b (sample_user "ZA") JUndefined (payable "ZA")) with
  | Ok res => payment_id res = "mg_a_b_1700000000000"
  | Throw _ => False
  end
  ∧ KoraPay.handleWebhook (rt:=symbolic_runtime) sample_config
      (kora_charge_success "mg_a_b_1700000000000")
      (Router.signature_of (kora_signed (kora_charge_success "mg_a_b_1700000000000")))
    = Ok (Some {| wu_payment_id := JStr "a";
                  wu_transaction_id := JStr "mg_a_b_1700000000000";
                  wu_status := "success";
                  wu_gateway_response := kora_charge_success "mg_a_b_1700000000000" |})
  ∧ String.eqb "a" (o_id order_a_b) = false.
Proof. vm_compute. repeat split; reflexivity. Qed.

(** ** The status vocabulary *)

Section Vocabulary.
Context {rt : Runtime} (cfg : Config) (net : HttpRequest → AxiosOutcome).

Lemma paygate_cancelled_verifies :
  PayGate.verifyChecksum cfg (paygate_cancelled cfg) = Ok true.
Proof.
  assert (Hsame : ∀ v,
    PayGate.generateChecksum cfg (paygate_cancelled_fields ++ [("CHECKSUM", v)])%list
    = PayGate.generateChecksum cfg paygate_cancelled_fields)
    by (intros v; vm_compute; reflexivity).
  assert (Hget : get (paygate_cancelled cfg) "CHECKSUM"
                 = Ok (JStr (PayGate.generateChecksum cfg paygate_cancelled_fields)))
    by reflexivity.
  unfold PayGate.verifyChecksum. rewrite Hget.
  change (fields_of (paygate_cancelled cfg))
    with (paygate_cancelled_fields ++
          [("CHECKSUM", JStr (PayGate.generateChecksum cfg paygate_cancelled_fields))])%list.
  cbn [mbind Res_bind]. rewrite Hsame. cbn [is_str].
  by rewrite String.eqb_refl.
Qed.

(** Every status a service can return: the tri-state, and [cancelled]
    from PayGate alone. *)
Lemma parsed_status_range source payload signature st u st1 :
  Router.handleWebhook cfg net source payload signature st = (Ok (Some u), st1) →
  wu_status u ∈ tri_state ∨ (source = FromPayGate ∧ wu_status u = "cancelled").
Proof.
  unfold tri_state. destruct source; simpl.
  - unfold lift, KoraPay.handleWebhook, KoraPay.reference_segment, mbind, Res_bind.
    intros H. repeat (case_match; simplify_eq/=); left; set_solver.
  - unfold lift, MTN.handleWebhook, mbind, Res_bind.
    intros H. repeat (case_match; simplify_eq/=); left; set_solver.
  - unfold lift, Orange.handleWebhook, mbind, Res_bind.
    intros H. repeat (case_match; simplify_eq/=); left; set_solver.
  - unfold lift, PayGate.handleWebhook, PayGate.map_status, mbind, Res_bind.
    intros H. repeat (case_match; simplify_eq/=); first [left; set_solver | by right].
  - unfold PayFast.handleWebhook, PayFast.map_status, bindM, lift, ret, throw.
    intros H. repeat (case_match; simplify_eq/=); left; set_solver.
Qed.

(** C9 at a failing input, for every runtime and configuration: PayGate's
    correctly checksummed notification with transaction status 4 is parsed
    to the status [cancelled], which is none of [pending], [success],
    [failed]; PayFast and Orange parse a cancellation to [failed]. *)
Theorem paygate_cancellation_leaves_the_tri_state signature :
  PayGate.handleWebhook cfg (paygate_cancelled cfg) signature
    = Ok (Some {| wu_payment_id := JStr "o1";
                  wu_transaction_id := JStr "REQ-1";
                  wu_status := "cancelled";
                  wu_gateway_response := paygate_cancelled cfg |})
  ∧ ("cancelled" ∉ tri_state)
  ∧ PayFast.map_status (JStr "CANCELLED") = "failed"
  ∧ status_of (Orange.handleWebhook cfg
       (JObj [("status", JStr "CANCELLED"); ("order_id", JStr "mg_o1_1700000000000")])
       JUndefined) = Ok (Some "failed").
Proof.
  split.
  - unfold PayGate.handleWebhook.
    change (form_data false (paygate_cancelled cfg)) with (Ok (paygate_cancelled cfg)).
    cbn [mbind Res_bind]. rewrite paygate_cancelled_verifies. reflexivity.
  - split; [|split; reflexivity].
    unfold tri_state. intros Hin. repeat (apply elem_of_cons in Hin as [Hin|Hin]; [discriminate|]).
    by apply elem_of_nil in Hin.
Qed.
End Vocabulary.

(** * Further properties of the services and the router *)

(** ** Form bodies *)

Lemma contains_app c a b : contains c (a +:+ b) = contains c a || contains c b.
Proof.
  induction a as [|x a IH]; simpl; [done|]. by rewrite IH, orb_assoc.
Qed.

(** Splitting a joined list at the separator gives the list back. *)
Lemma split_join sep item items :
  Forall (fun i => contains sep i = false) (item :: items) →
  split sep (join (String sep "") (item :: items)) = item :: items.
Proof.
  revert item. induction items as [|next items IH]; intros item Hfree.
  - simpl. apply split_without_sep. by inversion Hfree.
  - inversion Hfree as [|? ? Hitem Hrest]; subst.
    change (join (String sep "") (item :: next :: items))
      with (item +:+ String sep (join (String sep "") (next :: items))).
    rewrite split_app_sep, (split_without_sep _ _ Hitem), (IH next Hrest). done.
Qed.

Lemma split_pair k v :
  contains "=" k = false → contains "=" v = false →
  split "=" (k +:+ "=" +:+ v) = [k; v].
Proof.
  intros Hk Hv. change (k +:+ "=" +:+ v) with (k +:+ String "=" v).
  by rewrite split_app_sep, (split_without_sep _ _ Hk), (split_without_sep _ _ Hv).
Qed.

Lemma set_key_fresh k v fields :
  k ∉ keys fields → set_key k v fields = (fields ++ [(k, v)])%list.
Proof.
  induction fields as [|[k' v'] fields IH]; simpl; [done|].
  intros Hk. apply not_elem_of_cons in Hk as [Hne Hk].
  destruct (String.eqb_spec k k'); [done|]. by rewrite (IH Hk).
Qed.

Lemma keys_set_key k v fields :
  keys (set_key k v fields) = if bool_decide (k ∈ keys fields) then keys fields
                              else (keys fields ++ [k])%list.
Proof.
  induction fields as [|[k' v'] fields IH]; simpl; [done|].
  destruct (String.eqb_spec k k') as [->|Hne].
  - rewrite bool_decide_eq_true_2 by (simpl; left). done.
  - simpl. unfold keys in *. rewrite IH.
    destruct (bool_decide_reflect (k ∈ fields.*1)).
    + rewrite bool_decide_eq_true_2 by (simpl; by right). done.
    + rewrite bool_decide_eq_false_2 by (simpl; by apply not_elem_of_cons). done.
Qed.

Lemma set_key_NoDup k v fields : NoDup (keys fields) → NoDup (keys (set_key k v fields)).
Proof.
  intros Hnd. rewrite keys_set_key. case_bool_decide; [done|].
  apply NoDup_app. split; [done|]. split; [|apply NoDup_singleton].
  by intros x Hx ->%list_elem_of_singleton.
Qed.


(** ** Canonical order of the signed fields *)

Lemma ascii_compare_trans_le a b c :
  Ascii.compare a b ≠ Gt → Ascii.compare b c ≠ Gt → Ascii.compare a c ≠ Gt.
Proof.
  unfold Ascii.compare. rewrite !N.compare_gt_iff. lia.
Qed.

Lemma string_compare_refl s : String.compare s s = Eq.
Proof.
  induction s as [|c s IH]; simpl; [done|].
  unfold Ascii.compare. by rewrite N.compare_refl.
Qed.

Lemma leb_trans a b c :
  String.leb a b = true → String.leb b c = true → String.leb a c = true.
Proof.
  unfold String.leb. revert b c.
  induction a as [|x a IH]; intros [|y b] [|z c]; simpl; try done.
  unfold Ascii.compare.
  destruct (N.compare_spec (N_of_ascii x) (N_of_ascii y)) as [Hxy|Hxy|Hxy];
    destruct (N.compare_spec (N_of_ascii y) (N_of_ascii z)) as [Hyz|Hyz|Hyz];
    destruct (N.compare_spec (N_of_ascii x) (N_of_ascii z)) as [Hxz|Hxz|Hxz];
    try done; try lia.
  apply IH.
Qed.

#[local] Instance key_le_trans : Transitive key_le.
Proof. intros a b c. apply leb_trans. Qed.

#[local] Instance key_le_antisym : AntiSymm (=) key_le.
Proof. intros a b. apply String.leb_antisym. Qed.

Lemma insert_sorted_perm k ks : insert_sorted k ks ≡ₚ k :: ks.
Proof.
  induction ks as [|k' ks IH]; simpl; [done|].
  destruct (String.leb k k'); [done|]. rewrite IH. apply Permutation_swap.
Qed.

Lemma sort_keys_perm ks : sort_keys ks ≡ₚ ks.
Proof.
  induction ks as [|k ks IH]; simpl; [done|].
  change (sort_keys (k :: ks)) with (insert_sorted k (sort_keys ks)).
  by rewrite insert_sorted_perm, IH.
Qed.

Lemma insert_sorted_sorted k ks : Sorted key_le ks → Sorted key_le (insert_sorted k ks).
Proof.
  induction 1 as [|k' ks Hs IH Hhd]; simpl.
  - by repeat constructor.
  - destruct (String.leb k k') eqn:Hle.
    + constructor; [by constructor|]. by constructor.
    + assert (Hk : key_le k' k).
      { destruct (String.leb_total k k') as [H|H]; [congruence|done]. }
      constructor; [done|].
      destruct ks as [|k'' ks]; simpl in *.
      * by constructor.
      * destruct (String.leb k k''); constructor; [done|].
        by inversion Hhd.
Qed.

Lemma sort_keys_sorted ks : Sorted key_le (sort_keys ks).
Proof.
  induction ks as [|k ks IH]; [constructor|].
  change (sort_keys (k :: ks)) with (insert_sorted k (sort_keys ks)).
  by apply insert_sorted_sorted.
Qed.

(** [keys.sort()] does not depend on the order the keys came in. *)
Lemma sort_keys_permutation ks ks' : ks ≡ₚ ks' → sort_keys ks = sort_keys ks'.
Proof.
  intros Hp. apply (Sorted_unique key_le); auto using sort_keys_sorted.
  by rewrite !sort_keys_perm.
Qed.

Lemma elem_of_sort_keys k ks : k ∈ sort_keys ks ↔ k ∈ ks.
Proof. by rewrite sort_keys_perm. Qed.

(** In an object, a property is looked up by name alone. *)
Lemma assoc_permutation k fields fields' :
  NoDup (keys fields) → fields ≡ₚ fields' → assoc k fields = assoc k fields'.
Proof.
  intros Hnd Hp. revert Hnd.
  induction Hp as [|[k1 v1] l l' Hp IH|[k1 v1] [k2 v2] l|l l' l'' Hp1 IH1 Hp2 IH2];
    intros Hnd; simpl.
  - done.
  - destruct (String.eqb k k1); [done|]. apply IH. by inversion Hnd.
  - destruct (String.eqb_spec k k1) as [H1|H1]; destruct (String.eqb_spec k k2) as [H2|H2];
      try done.
    subst k1 k2. simpl in Hnd. inversion Hnd as [|? ? Hin _]. exfalso. apply Hin. left.
  - rewrite IH1 by done. apply IH2. unfold keys in *. by rewrite <- Hp1.
Qed.

Lemma assoc_app_other k k' v fields :
  k ≠ k' → assoc k (fields ++ [(k', v)])%list = assoc k fields.
Proof.
  intros Hne. induction fields as [|[k1 v1] fields IH]; simpl.
  - by destruct (String.eqb_spec k k').
  - by destruct (String.eqb k k1).
Qed.

Lemma assoc_app_fresh k v fields :
  k ∉ keys fields → assoc k (fields ++ [(k, v)])%list = v.
Proof.
  induction fields as [|[k1 v1] fields IH]; simpl.
  - by rewrite String.eqb_refl.
  - intros [Hne Hk]%not_elem_of_cons. destruct (String.eqb_spec k k1); [done|]. by apply IH.
Qed.

Lemma delete_key_fresh k fields : k ∉ keys fields → delete_key k fields = fields.
Proof.
  induction fields as [|[k1 v1] fields IH]; [done|].
  intros [Hne Hk]%not_elem_of_cons. unfold delete_key in *. rewrite filter_cons. simpl.
  simpl in Hne. destruct (String.eqb_spec k1 k); [by subst|]. simpl.
  f_equal. by apply IH.
Qed.

Lemma delete_key_app k v fields :
  k ∉ keys fields → delete_key k (fields ++ [(k, v)])%list = fields.
Proof.
  intros Hk. unfold delete_key. rewrite filter_app.
  fold (delete_key k fields). rewrite (delete_key_fresh _ _ Hk).
  rewrite filter_cons. simpl. by rewrite ?String.eqb_refl, ?app_nil_r.
Qed.

Lemma filter_keys_ext (f g : string → bool) ks :
  Forall (fun key => f key = g key) ks →
  filter (fun key => f key = true) ks = filter (fun key => g key = true) ks.
Proof.
  induction 1 as [|key ks Hkey _ IH]; [done|].
  rewrite !filter_cons, IH, Hkey. by destruct (g key).
Qed.

Section Checksums.
Context {rt : Runtime} (cfg : Config).

(** X3. PayGate's checksum depends on the fields as a set: two objects with
    the same properties in a different order have the same checksum. *)
Theorem paygate_checksum_order_independent data data' :
  NoDup (keys data) → data ≡ₚ data' →
  PayGate.generateChecksum cfg data = PayGate.generateChecksum cfg data'.
Proof.
  intros Hnd Hp. unfold PayGate.generateChecksum.
  assert (Hkeys : sort_keys (filter (fun key => negb (String.eqb key "CHECKSUM") = true) (keys data))
                = sort_keys (filter (fun key => negb (String.eqb key "CHECKSUM") = true) (keys data'))).
  { apply sort_keys_permutation. unfold keys. by rewrite Hp. }
  rewrite <- Hkeys. do 3 f_equal.
  f_equal. apply list_fmap_ext. intros _ key _. f_equal. by apply assoc_permutation.
Qed.

Lemma paygate_checksum_ignores_checksum data v :
  "CHECKSUM" ∉ keys data →
  PayGate.generateChecksum cfg (data ++ [("CHECKSUM", v)])%list = PayGate.generateChecksum cfg data.
Proof.
  intros Hfresh. unfold PayGate.generateChecksum.
  unfold keys. rewrite fmap_app, filter_app. simpl.
  rewrite filter_cons, filter_nil. simpl. rewrite ?app_nil_r.
  do 4 f_equal. apply list_fmap_ext. intros i key Hkey. f_equal.
  apply assoc_app_other.
  apply list_elem_of_lookup_2, elem_of_sort_keys, list_elem_of_filter in Hkey as [Hne _].
  by destruct (String.eqb_spec key "CHECKSUM").
Qed.

(** X4. What PayGate's [generateChecksum] signs, [verifyChecksum] accepts:
    an object without a CHECKSUM property, once
    [data.CHECKSUM = generateChecksum(data)] is set on it, verifies. *)
Theorem paygate_signed_data_verifies data :
  "CHECKSUM" ∉ keys data →
  PayGate.verifyChecksum cfg
    (JObj (set_key "CHECKSUM" (JStr (PayGate.generateChecksum cfg data)) data)) = Ok true.
Proof.
  intros Hfresh. rewrite (set_key_fresh _ _ _ Hfresh).
  unfold PayGate.verifyChecksum. cbn [get mbind Res_bind fields_of].
  rewrite (assoc_app_fresh _ _ _ Hfresh), (paygate_checksum_ignores_checksum _ _ Hfresh).
  cbn [is_str]. by rewrite String.eqb_refl.
Qed.

(** X5. The same for PayFast's signature: the order of the properties does
    not matter. *)
Theorem payfast_signature_order_independent data data' :
  NoDup (keys data) → data ≡ₚ data' →
  PayFast.generateSignature cfg data = PayFast.generateSignature cfg data'.
Proof.
  intros Hnd Hp. unfold PayFast.generateSignature.
  assert (Hfilter : ∀ key, PayFast.signed_key data key = PayFast.signed_key data' key).
  { intros key. unfold PayFast.signed_key. by rewrite (assoc_permutation key _ _ Hnd Hp). }
  assert (Hkeys : sort_keys (filter (fun key => PayFast.signed_key data key = true) (keys data))
                = sort_keys (filter (fun key => PayFast.signed_key data' key = true) (keys data'))).
  { apply sort_keys_permutation. unfold keys. rewrite <- Hp.
    erewrite list_filter_iff; [done|]. intros key. by rewrite Hfilter. }
  rewrite <- Hkeys.
  assert (Hmap : ((fun key => key +:+ "=" +:+ PayFast.encode_plus (js_toString (assoc key data)) +:+ "&")
                   <$> sort_keys (filter (fun key => PayFast.signed_key data key = true) (keys data)))
               = ((fun key => key +:+ "=" +:+ PayFast.encode_plus (js_toString (assoc key data')) +:+ "&")
                   <$> sort_keys (filter (fun key => PayFast.signed_key data key = true) (keys data)))).
  { apply list_fmap_ext. intros _ key _. by rewrite (assoc_permutation key _ _ Hnd Hp). }
  by rewrite Hmap.
Qed.

Lemma payfast_signature_ignores_signature data v :
  "signature" ∉ keys data →
  PayFast.generateSignature cfg (data ++ [("signature", v)])%list
  = PayFast.generateSignature cfg data.
Proof.
  intros Hfresh. unfold PayFast.generateSignature.
  assert (Hfilter : filter (fun key => PayFast.signed_key (data ++ [("signature", v)])%list key = true)
                      (keys (data ++ [("signature", v)])%list)
                  = filter (fun key => PayFast.signed_key data key = true) (keys data)).
  { unfold keys. rewrite fmap_app, filter_app. simpl.
    rewrite filter_cons, filter_nil. simpl. rewrite ?app_nil_r.
    apply (filter_keys_ext (PayFast.signed_key _) (PayFast.signed_key _)).
    apply Forall_forall. intros key Hkey.
    unfold PayFast.signed_key.
    destruct (String.eqb_spec key "signature") as [->|Hne]; [done|].
    by rewrite (assoc_app_other _ _ _ _ Hne). }
  rewrite Hfilter.
  assert (Hmap : ((fun key => key +:+ "=" +:+
                     PayFast.encode_plus (js_toString (assoc key (data ++ [("signature", v)])%list)) +:+ "&")
                   <$> sort_keys (filter (fun key => PayFast.signed_key data key = true) (keys data)))
               = ((fun key => key +:+ "=" +:+ PayFast.encode_plus (js_toString (assoc key data)) +:+ "&")
                   <$> sort_keys (filter (fun key => PayFast.signed_key data key = true) (keys data)))).
  { apply list_fmap_ext. intros i key Hkey. rewrite assoc_app_other; [done|].
    apply list_elem_of_lookup_2, elem_of_sort_keys, list_elem_of_filter in Hkey as [Hs _].
    unfold PayFast.signed_key in Hs. by destruct (String.eqb_spec key "signature"). }
  by rewrite Hmap.
Qed.

(** X6. What PayFast's [generateSignature] signs, [verifySignature]
    accepts, and the object it hands on has the signature removed: it is the
    object as it was before signing. *)
Theorem payfast_signed_data_verifies data :
  "signature" ∉ keys data →
  PayFast.verifySignature cfg
    (JObj (set_key "signature" (JStr (PayFast.generateSignature cfg data)) data))
  = Ok (true, JObj data).
Proof.
  intros Hfresh. rewrite (set_key_fresh _ _ _ Hfresh).
  unfold PayFast.verifySignature. cbn [get mbind Res_bind fields_of].
  rewrite (assoc_app_fresh _ _ _ Hfresh), (delete_key_app _ _ _ Hfresh).
  cbn [is_str fields_of]. by rewrite String.eqb_refl.
Qed.
End Checksums.
(** What [assign] does to the value under a name. *)
Lemma assoc_set_key_eq k v fields : assoc k (set_key k v fields) = v.
Proof.
  induction fields as [|[k' v'] fields IH]; simpl.
  - by rewrite String.eqb_refl.
  - destruct (String.eqb_spec k k') as [->|Hne]; simpl.
    + by rewrite String.eqb_refl.
    + by destruct (String.eqb_spec k k').
Qed.

Lemma assoc_set_key_ne k k' v fields :
  k' ≠ k → assoc k' (set_key k v fields) = assoc k' fields.
Proof.
  intros Hne. induction fields as [|[k1 v1] fields IH]; simpl.
  - by destruct (String.eqb_spec k' k).
  - destruct (String.eqb_spec k k1) as [->|_]; simpl.
    + by destruct (String.eqb_spec k' k1).
    + by rewrite IH.
Qed.

Lemma assoc_insert_index_eq n k v fields :
  array_index k = Some n → assoc k (insert_index n k v fields) = v.
Proof.
  intros Hk. induction fields as [|[k' v'] fields IH]; simpl.
  - by rewrite String.eqb_refl.
  - destruct (array_index k') as [m|] eqn:Hk'; [|by simpl; rewrite String.eqb_refl].
    destruct (m <? n) eqn:Hlt; [|by simpl; rewrite String.eqb_refl].
    simpl. destruct (String.eqb_spec k k') as [->|_]; [|done].
    rewrite Hk in Hk'. injection Hk' as ->. lia.
Qed.

Lemma assoc_insert_index_ne n k k' v fields :
  k' ≠ k → assoc k' (insert_index n k v fields) = assoc k' fields.
Proof.
  intros Hne. induction fields as [|[k1 v1] fields IH]; simpl.
  - by destruct (String.eqb_spec k' k).
  - destruct (array_index k1) as [m|]; [destruct (m <? n)|]; simpl;
      rewrite ?IH; by destruct (String.eqb_spec k' k).
Qed.

Lemma assoc_assign_eq k v fields :
  k ≠ "__proto__" → assoc k (assign k v fields) = v.
Proof.
  intros Hk. unfold assign. destruct (String.eqb_spec k "__proto__"); [done|].
  case_bool_decide as Hin; [apply assoc_set_key_eq|].
  destruct (array_index k) as [idx|] eqn:Hidx; [by apply assoc_insert_index_eq|].
  by apply assoc_app_fresh.
Qed.

Lemma assoc_assign_ne k k' v fields :
  k' ≠ k → assoc k' (assign k v fields) = assoc k' fields.
Proof.
  intros Hne. unfold assign. destruct (String.eqb k "__proto__"); [done|].
  case_bool_decide; [by apply assoc_set_key_ne|].
  destruct (array_index k); [by apply assoc_insert_index_ne|by apply assoc_app_other].
Qed.

Lemma insert_index_perm n k v fields : insert_index n k v fields ≡ₚ (k, v) :: fields.
Proof.
  induction fields as [|[k' v'] fields IH]; simpl; [done|].
  destruct (array_index k'); [destruct (_ <? _)|]; try done.
  rewrite IH. apply Permutation_swap.
Qed.

(** A new name, other than [__proto__], adds one property. *)
Lemma assign_fresh k v fields :
  k ≠ "__proto__" → k ∉ keys fields → assign k v fields ≡ₚ (fields ++ [(k, v)])%list.
Proof.
  intros Hk Hfresh. unfold assign. destruct (String.eqb_spec k "__proto__"); [done|].
  rewrite bool_decide_eq_false_2 by done.
  destruct (array_index k); [|done].
  rewrite insert_index_perm. by rewrite Permutation_cons_append.
Qed.

Section FormBodies.
Context {rt : Runtime}.

Lemma for_each_app (step : list (string * Js) → string → Res (list (string * Js)))
    (result : list (string * Js)) (pairs : list string) (entry : string) :
  for_each step result (pairs ++ [entry])%list
  = (result' ← for_each step result pairs; step result' entry).
Proof.
  revert result. induction pairs as [|first pairs IH]; intros result; simpl.
  - by destruct (step result entry).
  - destruct (step result first); simpl; [apply IH|done].
Qed.

Lemma form_step_pair (plus : bool) result key value name text :
  key ≠ "" → contains "=" key = false → contains "=" value = false →
  decodeURIComponent key = Some name →
  decodeURIComponent (if plus then replace_plus value else value) = Some text →
  form_step plus result (key +:+ "=" +:+ value) = Ok (assign name (JStr text) result).
Proof.
  intros Hkey Hk Hv Hname Htext. unfold form_step, decode.
  rewrite (split_pair _ _ Hk Hv).
  destruct (String.eqb_spec key ""); [done|]. cbn [negb]. by rewrite Hname, Htext.
Qed.

(** X1. A pair appended to a form body wins over any earlier value of its
    key and leaves the other keys as they were: if [parseFormData] accepts
    the body, it accepts the longer body, where the decoded key (any but
    [__proto__]) has the decoded value and every other name has the value
    it had. *)
Theorem parseFormData_last_value_wins (plus : bool) body key value name text fields :
  parseFormData plus body = Ok (JObj fields) →
  key ≠ "" → separator_free key = true → separator_free value = true →
  decodeURIComponent key = Some name →
  decodeURIComponent (if plus then replace_plus value else value) = Some text →
  name ≠ "__proto__" →
  ∃ fields',
    parseFormData plus (body +:+ "&" +:+ key +:+ "=" +:+ value) = Ok (JObj fields')
    ∧ assoc name fields' = JStr text
    ∧ ∀ other, other ≠ name → assoc other fields' = assoc other fields.
Proof.
  intros Hbody Hkey Hk Hv Hname Htext Hproto.
  unfold separator_free in Hk, Hv.
  apply andb_true_iff in Hk as [Hk1 Hk2], Hv as [Hv1 Hv2].
  apply negb_true_iff in Hk1, Hk2, Hv1, Hv2.
  unfold parseFormData in *.
  destruct (for_each (form_step plus) [] (split "&" body)) as [parsed|] eqn:Hparsed;
    [|done].
  injection Hbody as ->.
  change (body +:+ "&" +:+ key +:+ "=" +:+ value)
    with (body +:+ String "&" (key +:+ "=" +:+ value)).
  rewrite split_app_sep, (split_without_sep "&" (key +:+ "=" +:+ value)).
  2:{ change (key +:+ "=" +:+ value) with (key +:+ String "=" value).
      rewrite contains_app. simpl. by rewrite Hk1, Hv1. }
  destruct (split_cons "&" body) as (seg & segs & Hsplit & _).
  rewrite Hsplit in Hparsed |- *.
  change ((seg :: segs) ++ [key +:+ "=" +:+ value])%list
    with (seg :: (segs ++ [key +:+ "=" +:+ value]))%list.
  change (seg :: (segs ++ [key +:+ "=" +:+ value]))%list
    with ((seg :: segs) ++ [key +:+ "=" +:+ value])%list.
  rewrite for_each_app, Hparsed. cbn [mbind Res_bind].
  rewrite (form_step_pair plus fields key value name text) by done.
  eexists. split; [reflexivity|]. split.
  - by apply assoc_assign_eq.
  - intros other Hother. by apply assoc_assign_ne.
Qed.

Lemma for_each_form_pairs pairs decoded acc :
  Forall (fun kv => fst kv ≠ "" ∧ separator_free (fst kv) = true
                    ∧ separator_free (snd kv) = true) pairs →
  Forall2 (fun kv d => decodeURIComponent (fst kv) = Some (fst d)
                       ∧ decodeURIComponent (snd kv) = Some (snd d)) pairs decoded →
  NoDup (keys acc ++ (fst <$> decoded))%list →
  "__proto__" ∉ fst <$> decoded →
  ∃ fields,
    for_each (form_step false) acc ((fun kv => fst kv +:+ "=" +:+ snd kv) <$> pairs)
    = Ok fields
    ∧ fields ≡ₚ (acc ++ ((fun d => (fst d, JStr (snd d))) <$> decoded))%list.
Proof.
  intros Hfree Hdec. revert acc Hfree.
  induction Hdec as [|[k v] [name text] pairs decoded [Hname Htext] _ IH];
    intros acc Hfree Hnd Hproto.
  - exists acc. split; [done|]. by rewrite app_nil_r.
  - inversion Hfree as [|? ? (Hne & Hk & Hv) Hrest]; subst.
    simpl in Hne, Hk, Hv, Hname, Htext.
    unfold separator_free in Hk, Hv.
    apply andb_true_iff in Hk as [_ Hk], Hv as [_ Hv]. apply negb_true_iff in Hk, Hv.
    rewrite fmap_cons. cbn [for_each fst snd].
    rewrite (form_step_pair false acc k v name text) by done. cbn [mbind Res_bind].
    rewrite fmap_cons in Hnd, Hproto. cbn [fst] in Hnd, Hproto.
    apply not_elem_of_cons in Hproto as [Hproto Hproto'].
    assert (Hfresh : name ∉ keys acc).
    { intros Hin. apply NoDup_app in Hnd as (_ & Hdisj & _).
      apply (Hdisj name Hin). left. }
    destruct (IH (assign name (JStr text) acc) Hrest) as (fields & Hrun & Hperm).
    + unfold keys. rewrite (assign_fresh _ _ _ (not_eq_sym Hproto) Hfresh).
      rewrite fmap_app. cbn. rewrite <- app_assoc. exact Hnd.
    + done.
    + exists fields. split; [done|].
      rewrite Hperm, (assign_fresh _ _ _ (not_eq_sym Hproto) Hfresh).
      rewrite fmap_cons. cbn. by rewrite <- app_assoc.
Qed.

(** X2. PayGate's [parseFormData] inverts form encoding, as a set of
    properties: a body [k1=v1&k2=v2...] whose keys are non-empty, whose
    keys and values hold no [&] and no [=] and can be decoded, and whose
    decoded keys are distinct and none of them [__proto__], is parsed to an
    object that has exactly those properties, decoded (in the order in
    which the engine lists them). *)
Theorem parseFormData_form_string pairs decoded :
  Forall (fun kv => fst kv ≠ "" ∧ separator_free (fst kv) = true
                    ∧ separator_free (snd kv) = true) pairs →
  Forall2 (fun kv d => decodeURIComponent (fst kv) = Some (fst d)
                       ∧ decodeURIComponent (snd kv) = Some (snd d)) pairs decoded →
  NoDup (fst <$> decoded) →
  "__proto__" ∉ fst <$> decoded →
  ∃ fields,
    parseFormData false (form_string pairs) = Ok (JObj fields)
    ∧ fields ≡ₚ (fun d => (fst d, JStr (snd d))) <$> decoded
    ∧ ∀ d, d ∈ decoded → get (JObj fields) (fst d) = Ok (JStr (snd d)).
Proof.
  intros Hfree Hdec Hnd Hproto. unfold parseFormData.
  assert (Hrun : ∃ fields,
            for_each (form_step false) [] (split "&" (form_string pairs)) = Ok fields
            ∧ fields ≡ₚ (fun d => (fst d, JStr (snd d))) <$> decoded).
  { destruct pairs as [|p pairs].
    - apply Forall2_nil_inv_l in Hdec as ->. by exists [].
    - assert (Hsplit : split "&" (form_string (p :: pairs))
                       = (fun kv => fst kv +:+ "=" +:+ snd kv) <$> (p :: pairs)).
      { unfold form_string. rewrite fmap_cons. apply split_join.
        change (Forall (fun i => contains "&" i = false)
                  ((fun kv => fst kv +:+ "=" +:+ snd kv) <$> (p :: pairs))).
        apply Forall_fmap. eapply Forall_impl; [exact Hfree|].
        intros [k v] (_ & Hk & Hv). simpl.
        unfold separator_free in *. apply andb_true_iff in Hk as [Hk _], Hv as [Hv _].
        apply negb_true_iff in Hk, Hv. simpl in Hk, Hv.
        change (contains "&" (k +:+ String "=" v) = false).
        rewrite contains_app. simpl. by rewrite Hk, Hv. }
      rewrite Hsplit. by apply (for_each_form_pairs (p :: pairs) decoded []). }
  destruct Hrun as (fields & -> & Hperm). exists fields.
  split; [done|]. split; [done|].
  intros [name text] Hd. cbn [get fst snd]. f_equal.
  assert (Hnd' : NoDup (keys ((fun d => (fst d, JStr (snd d))) <$> decoded))).
  { unfold keys. by rewrite <- list_fmap_compose. }
  rewrite <- (assoc_permutation name _ _ Hnd' (symmetry Hperm)).
  clear -Hd Hnd. induction decoded as [|[n t] decoded IH]; [by apply elem_of_nil in Hd|].
  rewrite fmap_cons in Hnd. apply NoDup_cons in Hnd as [Hfresh Hnd].
  apply elem_of_cons in Hd as [[= -> ->]|Hd]; cbn.
  - by rewrite String.eqb_refl.
  - destruct (String.eqb_spec name n) as [->|_]; [|by apply IH].
    exfalso. apply Hfresh. apply list_elem_of_fmap. by exists (n, text).
Qed.
End FormBodies.

(** ** Phone numbers *)

Lemma all_digits_digits_only s : all_digits (digits_only s) = true.
Proof.
  induction s as [|c s IH]; [done|]. simpl.
  destruct (is_digit c) eqn:Hc; [|done]. simpl. by rewrite Hc.
Qed.

Lemma digits_only_all_digits s : all_digits s = true → digits_only s = s.
Proof.
  induction s as [|c s IH]; [done|]. simpl.
  intros [Hc Hs]%andb_true_iff. rewrite Hc. by rewrite IH.
Qed.

Lemma all_digits_app a b : all_digits (a +:+ b) = all_digits a && all_digits b.
Proof.
  induction a as [|c a IH]; [done|]. simpl. rewrite IH. by rewrite andb_assoc.
Qed.

Lemma substring_all s : String.substring 0 (String.length s) s = s.
Proof. induction s as [|c s IH]; [done|]. simpl. by rewrite IH. Qed.

Lemma prefix_app p s : String.prefix p (p +:+ s) = true.
Proof.
  induction p as [|c p IH]; simpl; [by destruct s|].
  destruct (Ascii.ascii_dec c c); [done|congruence].
Qed.

Lemma prefix_empty s : String.prefix "" s = true.
Proof. by destruct s. Qed.

Lemma table_get_elem_of k v tbl : table_get k tbl = Some v → (k, v) ∈ tbl.
Proof.
  induction tbl as [|[k' v'] tbl IH]; simpl; [done|].
  destruct (String.eqb_spec k k') as [->|_].
  - intros [= ->]. left.
  - intros H. right. by apply IH.
Qed.

Lemma leading_zero_dropped cleaned :
  all_digits cleaned = true →
  all_digits (if startsWith "0" cleaned
              then String.substring 1 (String.length cleaned - 1) cleaned
              else cleaned) = true.
Proof.
  destruct cleaned as [|c rest]; [done|]. unfold startsWith.
  destruct (String.prefix "0" (String c rest)); [|done].
  intros [_ Hrest]%andb_true_iff.
  change (String.length (String c rest) - 1)%nat with (String.length rest - 0)%nat.
  rewrite Nat.sub_0_r. change (String.substring 1 (String.length rest) (String c rest))
    with (String.substring 0 (String.length rest) rest).
  by rewrite substring_all.
Qed.

Lemma with_country_code_shape table cleaned country code :
  table_get country table = Some code →
  all_digits code = true → all_digits cleaned = true →
  all_digits (with_country_code table cleaned country) = true
  ∧ startsWith code (with_country_code table cleaned country) = true
  ∧ with_country_code table (with_country_code table cleaned country) country
    = with_country_code table cleaned country.
Proof.
  intros Hcode Hdc Hd. unfold with_country_code. rewrite !Hcode.
  destruct (String.eqb_spec code "") as [->|Hne]; simpl.
  { by rewrite prefix_empty. }
  destruct (startsWith code cleaned) eqn:Hstart; simpl.
  { by rewrite Hstart. }
  rewrite all_digits_app, Hdc, (leading_zero_dropped _ Hd).
  unfold startsWith at 1 3. by rewrite !prefix_app.
Qed.

Section Phones.
Context {rt : Runtime}.

(** X7. For a country of MTN's table, [formatPhoneNumber] of any string is a
    string of digits that starts with the country's calling code, and
    formatting it again gives it back. *)
Theorem mtn_formatPhoneNumber_canonical phoneNumber country code :
  table_get country MTN.countryCodes = Some code →
  ∃ formatted,
    MTN.formatPhoneNumber (JStr phoneNumber) country = Ok formatted
    ∧ all_digits formatted = true
    ∧ startsWith code formatted = true
    ∧ MTN.formatPhoneNumber (JStr formatted) country = Ok formatted.
Proof.
  intros Hcode. eexists. split; [reflexivity|].
  assert (Hdc : all_digits code = true).
  { apply table_get_elem_of in Hcode. unfold MTN.countryCodes in Hcode.
    repeat (apply elem_of_cons in Hcode as [[= _ ->]|Hcode]; [done|]).
    by apply elem_of_nil in Hcode. }
  destruct (with_country_code_shape _ (digits_only phoneNumber) _ _ Hcode Hdc
              (all_digits_digits_only _)) as (Hd & Hp & Hi).
  split; [done|]. split; [done|].
  unfold MTN.formatPhoneNumber. simpl. rewrite (digits_only_all_digits _ Hd). by rewrite Hi.
Qed.

(** X8. For a country of Orange's table, [formatPhoneNumber] of any string
    is [+] followed by digits that start with the country's calling code, and
    formatting it again gives it back. *)
Theorem orange_formatPhoneNumber_canonical phoneNumber country code :
  table_get country Orange.countryCodes = Some code →
  ∃ digits,
    Orange.formatPhoneNumber (JStr phoneNumber) country = Ok ("+" +:+ digits)
    ∧ all_digits digits = true
    ∧ startsWith code digits = true
    ∧ Orange.formatPhoneNumber (JStr ("+" +:+ digits)) country = Ok ("+" +:+ digits).
Proof.
  intros Hcode. eexists. split; [reflexivity|].
  assert (Hdc : all_digits code = true).
  { apply table_get_elem_of in Hcode. unfold Orange.countryCodes in Hcode.
    repeat (apply elem_of_cons in Hcode as [[= _ ->]|Hcode]; [done|]).
    by apply elem_of_nil in Hcode. }
  destruct (with_country_code_shape _ (digits_only phoneNumber) _ _ Hcode Hdc
              (all_digits_digits_only _)) as (Hd & Hp & Hi).
  split; [done|]. split; [done|].
  unfold Orange.formatPhoneNumber, phone_digits. cbn [mbind Res_bind].
  change (digits_only ("+" +:+ ?digits)) with (digits_only digits).
  rewrite (digits_only_all_digits _ Hd). by rewrite Hi.
Qed.
End Phones.

(** ** Handlers whose answer depends on the gateway alone *)

Lemma stateless_ret {A} (a : A) : stateless (ret a).
Proof. done. Qed.

Lemma stateless_throw {A} (e : Exn) : stateless (throw (A:=A) e).
Proof. done. Qed.

Lemma stateless_lift {A} (x : Res A) : stateless (lift x).
Proof. done. Qed.

Lemma stateless_axios net rq : stateless (axios net rq).
Proof. intros st1 st2. unfold axios. destruct (net rq); [by destruct (_ && _)|done]. Qed.

Lemma stateless_bind {A B} (m : M A) (k : A → M B) :
  stateless m → (∀ a, stateless (k a)) → stateless (bindM m k).
Proof.
  intros Hm Hk st1 st2. unfold bindM. specialize (Hm st1 st2).
  destruct (m st1) as [[a1|e1] st1'], (m st2) as [[a2|e2] st2']; simplify_eq/=; [apply Hk|done].
Qed.

Lemma stateless_try_catch {A} (m : M A) (h : Exn → M A) :
  stateless m → (∀ e, stateless (h e)) → stateless (try_catch m h).
Proof.
  intros Hm Hh st1 st2. unfold try_catch. specialize (Hm st1 st2).
  destruct (m st1) as [[a1|e1] st1'], (m st2) as [[a2|e2] st2']; simplify_eq/=; [done|apply Hh].
Qed.

Ltac stateless_step :=
  first
    [ apply stateless_ret | apply stateless_throw | apply stateless_lift
    | apply stateless_axios
    | apply stateless_bind; [| intros ?]
    | apply stateless_try_catch; [| intros ?]
    | match goal with
      | |- stateless (if ?b then _ else _) => destruct b
      | |- stateless (match ?x with _ => _ end) => destruct x
      end ].

Ltac stateless_auto := cbv zeta; repeat stateless_step.

Section Stateless.
Context {rt : Runtime} (cfg : Config) (net : HttpRequest → AxiosOutcome) (now : Z).

Lemma stateless_route_initialize pm order user return_url phone :
  stateless (Router.route_initialize cfg net now pm order user return_url phone).
Proof.
  unfold Router.route_initialize, KoraPay.initializePayment, MTN.initializePayment,
    MTN.getAccessToken, Orange.initializePayment, Orange.getAccessToken,
    PayGate.initializePayment, PayFast.initializePayment.
  stateless_auto.
Qed.

Lemma quiet_route_verify pm payment_id transaction_reference :
  quiet (Router.route_verify cfg net pm payment_id transaction_reference).
Proof.
  unfold Router.route_verify, KoraPay.verifyPayment, MTN.verifyPayment, MTN.getAccessToken,
    Orange.verifyPayment, Orange.getAccessToken, PayGate.verifyPayment, PayFast.verifyPayment.
  quiet_auto.
Qed.
End Stateless.

(** ** What a call of [initialize] can do *)

Section InitializeFrame.
Context {rt : Runtime} (cfg : Config) (net : HttpRequest → AxiosOutcome) (now : Z).

(** Either the call fails and no row has changed, or it stores one new
    pending Payment for a pending order of the caller. *)
Lemma initialize_result user body st r st' :
  Router.initialize cfg net now user body st = (r, st') →
  (is_ok r = false ∧ same_rows st st')
  ∨ (∃ fields resp order res st1,
       body = JObj fields ∧ r = Ok resp
       ∧ truthy (assoc "order_id" fields) = true
       ∧ truthy (assoc "payment_method" fields) = true
       ∧ phone_missing (assoc "payment_method" fields) (assoc "phone_number" fields) = false
       ∧ orders st !! js_toString (assoc "order_id" fields) = Some order
       ∧ o_user_id order = u_id user
       ∧ o_payment_status order = "pending"
       ∧ Router.route_initialize cfg net now (assoc "payment_method" fields) order user
           (assoc "return_url" fields) (assoc "phone_number" fields) st = (Ok res, st1)
       ∧ same_rows st st1
       ∧ payments st !! payment_id res = None
       ∧ r_payment_id resp = payment_id res
       ∧ r_amount resp = o_total_price order
       ∧ r_currency resp = currency res
       ∧ r_payment_method resp = js_toString (assoc "payment_method" fields)
       ∧ st' = with_payments
                 (insert (payment_id res)
                    {| p_id := payment_id res;
                       p_order_id := o_id order;
                       p_user_id := u_id user;
                       p_payment_method := js_toString (assoc "payment_method" fields);
                       p_amount := o_total_price order;
                       p_currency := currency res;
                       p_status := "pending";
                       p_gateway_transaction_id := transaction_id res;
                       p_gateway_response := gateway_response res;
                       p_processed_at := None;
                       p_created_at := now;
                       p_updated_at := now |}) st1).
Proof.
  unfold Router.initialize, bindM, lift.
  destruct body as [| |b|n|s|fields]; cbn [get truthy negb orb];
    try (intros [= <- <-]; left; split; [done|apply same_rows_refl]).
  destruct (truthy (assoc "order_id" fields)) eqn:Hid; cbn [negb orb];
    [|intros [= <- <-]; left; split; [done|apply same_rows_refl]].
  destruct (truthy (assoc "payment_method" fields)) eqn:Hpm; cbn [negb orb];
    [|intros [= <- <-]; left; split; [done|apply same_rows_refl]].
  unfold Router.select_order.
  destruct (orders st !! js_toString (assoc "order_id" fields)) as [order|] eqn:Hfound;
    [|intros [= <- <-]; left; split; [done|apply same_rows_refl]].
  destruct (String.eqb_spec (o_user_id order) (u_id user)) as [Howner|];
    [|intros [= <- <-]; left; split; [done|apply same_rows_refl]].
  destruct (String.eqb_spec (o_payment_status order) "pending") as [Hpending|]; simpl;
    [|intros [= <- <-]; left; split; [done|apply same_rows_refl]].
  fold (phone_missing (assoc "payment_method" fields) (assoc "phone_number" fields)).
  destruct (phone_missing _ _) eqn:Hphone;
    [intros [= <- <-]; left; split; [done|apply same_rows_refl]|].
  unfold Router.create_payment, try_catch, bindM.
  destruct (Router.route_initialize _ _ _ _ _ _ _ _ st) as [[res|e] st1] eqn:Hroute.
  - pose proof (quiet_route_initialize _ _ _ _ _ _ _ _ _ _ _ Hroute) as Hq.
    unfold Router.insert_payment. cbn [p_id].
    destruct (payments st1 !! payment_id res) eqn:Hfree.
    + intros [= <- <-]. left. split; [done|exact Hq].
    + intros [= <- <-]. right. exists fields. eexists _, order, res, st1.
      repeat (split; [done|]). split.
      { destruct Hq as (Hp & _). by rewrite <- Hp. }
      done.
  - pose proof (quiet_route_initialize _ _ _ _ _ _ _ _ _ _ _ Hroute) as Hq.
    intros [= <- <-]. left. by split.
Qed.

(** X9. Whatever the request and the gateway's answers, [initialize] leaves
    orders, users, promotion codes, commissions and the outbox as they
    were. When it answers with an error, the payments are as they were
    too; when it returns, the payments have gained exactly one row, under
    an id that was free: pending, unprocessed, of the caller, and stored
    under the id returned. *)
Theorem initialize_adds_one_pending_row_or_nothing user body st :
  let out := Router.initialize cfg net now user body st in
  orders (snd out) = orders st ∧ users (snd out) = users st
  ∧ promo_codes (snd out) = promo_codes st
  ∧ affiliate_stats (snd out) = affiliate_stats st
  ∧ outbox (snd out) = outbox st
  ∧ match fst out with
    | Ok resp =>
        payments st !! r_payment_id resp = None
        ∧ ∃ row, payments (snd out) = <[r_payment_id resp := row]> (payments st)
                 ∧ p_id row = r_payment_id resp ∧ p_status row = "pending"
                 ∧ p_processed_at row = None ∧ p_user_id row = u_id user
    | Throw _ => payments (snd out) = payments st
    end.
Proof.
  intros out. subst out.
  destruct (Router.initialize cfg net now user body st) as [r st'] eqn:Hrun.
  apply initialize_result in Hrun
    as [[Hfail (Hp & Ho & Hu & Hc & Ha & Hm)]
       |(fields & resp & order & res & st1 & -> & -> & _ & _ & _ & _ & _ & _ & _
         & (Hp & Ho & Hu & Hc & Ha & Hm) & Hfree & Hid & _ & _ & _ & ->)]; simpl.
  - repeat (split; [done|]). by destruct r.
  - repeat (split; [done|]). rewrite Hid. split; [done|].
    eexists. split; [by rewrite Hp|]. done.
Qed.

(** X10. A Payment that [initialize] has just stored is what the status
    endpoint shows its owner: pending, unprocessed, with the amount, the
    currency and the method of the answer of [initialize], and with the
    order still pending. *)
Theorem status_after_initialize user body st resp st' :
  orders_keyed st →
  Router.initialize cfg net now user body st = (Ok resp, st') →
  ∃ answer order,
    Router.status user (r_payment_id resp) st' = (Ok answer, st')
    ∧ s_payment_id answer = r_payment_id resp
    ∧ s_status answer = "pending"
    ∧ s_amount answer = r_amount resp
    ∧ s_currency answer = r_currency resp
    ∧ s_payment_method answer = r_payment_method resp
    ∧ s_processed_at answer = None
    ∧ s_order answer = Some order
    ∧ os_payment_status order = "pending"
    ∧ os_total_price order = r_amount resp.
Proof.
  intros Hkeyed Hrun.
  apply initialize_result in Hrun
    as [[Hfail _]
       |(fields & resp' & order & res & st1 & -> & [= <-] & _ & _ & _ & Hfound & Howner
         & Hpending & _ & (Hp & Ho & _) & Hfree & Hid & Hamount & Hcur & Hpm & ->)];
    [done|].
  unfold Router.status, bindM, Router.select_payment, Router.order_summary.
  cbn [js_toString payments with_payments orders]. rewrite Hid, lookup_insert_eq.
  cbn [p_user_id]. rewrite String.eqb_refl. cbn [p_order_id orders with_payments].
  rewrite Ho.
  rewrite <- (Hkeyed _ _ Hfound) in Hfound. rewrite Hfound.
  eexists _, _. split; [reflexivity|]. cbn. by repeat split.
Qed.

Lemma route_initialize_id (gateway : HttpRequest → AxiosOutcome)
    pm order user return_url phone st res st1 :
  Router.route_initialize cfg gateway now pm order user return_url phone st = (Ok res, st1) →
  payment_id res = reference_of (o_id order) now.
Proof.
  unfold Router.route_initialize.
  destruct (is_str pm "kora").
  { unfold KoraPay.initializePayment, try_catch, bindM, lift, ret, throw.
    intros H. repeat (case_match; simplify_eq/=); done. }
  destruct (is_str pm "mtn").
  { unfold MTN.initializePayment, try_catch, bindM, lift, ret, throw.
    intros H. repeat (case_match; simplify_eq/=); done. }
  destruct (is_str pm "orange").
  { unfold Orange.initializePayment, try_catch, bindM, lift, ret, throw.
    intros H. repeat (case_match; simplify_eq/=); done. }
  destruct (is_str pm "paygate").
  { unfold PayGate.initializePayment, try_catch, bindM, lift, ret, throw.
    intros H. repeat (case_match; simplify_eq/=); done. }
  destruct (is_str pm "payfast"); [|done].
  unfold PayFast.initializePayment, try_catch, bindM, lift, ret, throw.
  intros H. repeat (case_match; simplify_eq/=); done.
Qed.

(** A second [initialize] of a request that has just been served, at the
    same clock value and whatever the gateway answers this time. *)
Lemma initialize_again (gateway : HttpRequest → AxiosOutcome) user body st resp st' :
  Router.initialize cfg net now user body st = (Ok resp, st') →
  ∃ fields order res st1 r2 st2,
    Router.route_initialize cfg net now (assoc "payment_method" fields) order user
      (assoc "return_url" fields) (assoc "phone_number" fields) st = (Ok res, st1)
    ∧ Router.route_initialize cfg gateway now (assoc "payment_method" fields) order user
        (assoc "return_url" fields) (assoc "phone_number" fields) st' = (r2, st2)
    ∧ same_rows st' st2
    ∧ Router.initialize cfg gateway now user body st' =
        (Throw (new_Error ("Payment initialization failed: " +:+
                           match r2 with
                           | Ok _ => "Payment initialization failed"
                           | Throw e => exn_message e
                           end)), st2).
Proof.
  intros Hrun.
  apply initialize_result in Hrun
    as [[Hfail _]
       |(fields & resp' & order & res & st1 & -> & [= <-] & Hoid & Hmethod & Hphone & Hfound
         & Howner & Hpending & Hroute & (Hp & Ho & _) & Hfree & Hid & _ & _ & _ & ->)];
    [done|].
  rewrite (initialize_checked cfg gateway now user fields _ order Hoid Hmethod);
    [|by cbn; rewrite Ho|done].
  rewrite Hpending, Hphone. cbn [String.eqb Ascii.eqb Bool.eqb negb].
  unfold Router.create_payment, try_catch, bindM.
  match goal with
  | |- context [Router.route_initialize ?a ?b ?c ?d ?e ?f ?g ?h ?s] =>
      destruct (Router.route_initialize a b c d e f g h s) as [r2 st2] eqn:Hagain
  end.
  pose proof (quiet_route_initialize _ _ _ _ _ _ _ _ _ _ _ Hagain) as Hq.
  exists fields, order, res, st1, r2, st2. split; [done|]. split; [done|]. split; [done|].
  destruct r2 as [res2|e2]; [|done].
  pose proof (route_initialize_id _ _ _ _ _ _ _ _ _ Hroute) as Hid1.
  pose proof (route_initialize_id _ _ _ _ _ _ _ _ _ Hagain) as Hid2.
  unfold Router.insert_payment. cbn [p_id].
  destruct Hq as (Hp2 & Hrest). rewrite Hp2. cbn [payments with_payments].
  by rewrite Hid2, <- Hid1, lookup_insert_eq.
Qed.

(** X11. The reference of a payment is made of the order and the clock
    alone, so two Payments of one order cannot be stored at one clock
    value. After an [initialize] that returned, a second [initialize] of
    the same request at the same clock value never returns, whatever the
    gateway answers this time: it fails with a plain [Error] whose message
    begins with "Payment initialization failed: ", and it changes no row.
    When the gateway is the same function of the request as at the first
    call, what follows the prefix is the "Payment initialization failed"
    of the refused insert. *)
Theorem initialize_twice_at_one_instant user body st resp st' :
  Router.initialize cfg net now user body st = (Ok resp, st') →
  (∀ gateway : HttpRequest → AxiosOutcome,
     ∃ detail st'',
       Router.initialize cfg gateway now user body st' =
         (Throw (new_Error ("Payment initialization failed: " +:+ detail)), st'')
       ∧ same_rows st' st'')
  ∧ ∃ st'',
      Router.initialize cfg net now user body st' =
        (Throw (new_Error "Payment initialization failed: Payment initialization failed"), st'')
      ∧ same_rows st' st''.
Proof.
  intros Hrun. split.
  - intros gateway.
    destruct (initialize_again gateway _ _ _ _ _ Hrun)
      as (fields & order & res & st1 & r2 & st2 & _ & _ & Hrows & Hagain).
    by eexists _, st2.
  - destruct (initialize_again net _ _ _ _ _ Hrun)
      as (fields & order & res & st1 & r2 & st2 & Hroute & Hroute2 & Hrows & Hagain).
    exists st2. split; [|done]. rewrite Hagain.
    pose proof (stateless_route_initialize cfg net now (assoc "payment_method" fields) order
                  user (assoc "return_url" fields) (assoc "phone_number" fields) st st')
      as Hsame.
    rewrite Hroute, Hroute2 in Hsame. simpl in Hsame. by subst r2.
Qed.
End InitializeFrame.

(** ** What a call of [webhook] can do *)

Section WebhookFrame.
Context {rt : Runtime} (cfg : Config) (net : HttpRequest → AxiosOutcome) (now : Z).

(** Either the request is answered 400 with every row as it was, or the
    service yielded an update for an existing Payment row. *)
Lemma webhook_cases headers payload st :
  (∃ reason st1,
     Router.webhook cfg net now headers payload st = (rejected reason, st1)
     ∧ same_rows st st1)
  ∨ (∃ u row st1,
       Router.route_webhook cfg net headers payload st = (Ok (Some u), st1)
       ∧ same_rows st st1
       ∧ payments st !! js_toString (wu_payment_id u) = Some row
       ∧ Router.webhook cfg net now headers payload st =
           if String.eqb (wu_status u) "success" then
             (rejected "this.processAffiliateCommission is not a function",
              after_success now u row st1)
           else (processed, after_other now u row st1)).
Proof.
  destruct (Router.route_webhook cfg net headers payload st) as [[[u|]|e] st1] eqn:H;
    pose proof (quiet_route_webhook cfg net headers payload _ _ _ H) as Hq.
  - destruct (payments st !! js_toString (wu_payment_id u)) as [row|] eqn:Hrow.
    + right. exists u, row, st1. repeat (split; [done|]). by apply webhook_found.
    + left. eexists _, st1. split; [by eapply webhook_not_found|done].
  - left. eexists _, st1. split; [by apply webhook_no_update|done].
  - left. eexists _, st1. split; [by apply webhook_thrown|done].
Qed.

Lemma after_success_frame u row st1 :
  users (after_success now u row st1) = users st1
  ∧ promo_codes (after_success now u row st1) = promo_codes st1
  ∧ affiliate_stats (after_success now u row st1) = affiliate_stats st1
  ∧ orders (after_success now u row st1) = alter (Router.paid_order now) (p_order_id row) (orders st1)
  ∧ payments (after_success now u row st1)
    = <[js_toString (wu_payment_id u) := Router.updated_payment now u row]> (payments st1).
Proof.
  unfold after_success, Router.send_confirmation, Router.mark_order_paid. cbn [snd].
  assert (Halter : ∀ os : gmap string Order,
            match os !! p_order_id row with
            | Some order => <[p_order_id row := Router.paid_order now order]> os
            | None => os
            end = alter (Router.paid_order now) (p_order_id row) os).
  { intros os. apply map_eq. intros id.
    destruct (decide (id = p_order_id row)) as [->|Hne].
    - rewrite lookup_alter_eq. destruct (os !! p_order_id row) eqn:E.
      + by rewrite lookup_insert_eq.
      + by rewrite E.
    - rewrite lookup_alter_ne by done. destruct (os !! p_order_id row); [|done].
      by rewrite lookup_insert_ne. }
  repeat case_match; cbn; by rewrite ?Halter.
Qed.

Lemma updated_payment_immutable u row :
  immutable_columns (Router.updated_payment now u row) = immutable_columns row.
Proof. done. Qed.

Lemma updated_payment_twice u row :
  Router.updated_payment now u (Router.updated_payment now u row)
  = Router.updated_payment now u row.
Proof.
  unfold Router.updated_payment. cbn.
  by destruct (wu_transaction_id u), (wu_gateway_response u).
Qed.

(** X12. No webhook, whatever its headers and body, adds or removes a
    Payment row or changes the columns a Payment gets at its insertion
    (id, order, user, method, amount, currency, creation time); and it
    rewrites at most one row. *)
Theorem webhook_keeps_immutable_columns headers payload st :
  let st' := snd (Router.webhook cfg net now headers payload st) in
  immutable_columns <$> payments st' = immutable_columns <$> payments st
  ∧ ∃ id, ∀ id', id' ≠ id → payments st' !! id' = payments st !! id'.
Proof.
  intros st'. subst st'.
  destruct (webhook_cases headers payload st)
    as [(reason & st1 & -> & (Hp & _))|(u & row & st1 & _ & (Hp & _) & Hrow & ->)].
  - simpl. rewrite Hp. split; [done|]. by exists "".
  - assert (Hpay : payments (snd (if String.eqb (wu_status u) "success" then
               (rejected "this.processAffiliateCommission is not a function",
                after_success now u row st1)
             else (processed, after_other now u row st1)))
           = <[js_toString (wu_payment_id u) := Router.updated_payment now u row]> (payments st)).
    { destruct (String.eqb (wu_status u) "success"); cbn [snd].
      - rewrite (proj2 (proj2 (proj2 (proj2 (after_success_frame u row st1))))). by rewrite Hp.
      - unfold after_other. cbn. by rewrite Hp. }
    rewrite Hpay. split.
    + rewrite fmap_insert, updated_payment_immutable.
      apply insert_id. by rewrite lookup_fmap, Hrow.
    + exists (js_toString (wu_payment_id u)). intros id' Hne. by rewrite lookup_insert_ne.
Qed.

(** X13. No webhook changes an order except, at most, by marking one order
    paid; users and promotion codes are never changed, and no affiliate
    commission is ever recorded, whatever promotion code the order
    carries. *)
Theorem webhook_only_marks_an_order_paid headers payload st :
  let st' := snd (Router.webhook cfg net now headers payload st) in
  users st' = users st ∧ promo_codes st' = promo_codes st
  ∧ affiliate_stats st' = affiliate_stats st
  ∧ (orders st' = orders st
     ∨ ∃ id, orders st' = alter (Router.paid_order now) id (orders st)).
Proof.
  intros st'. subst st'.
  destruct (webhook_cases headers payload st)
    as [(reason & st1 & -> & (_ & Ho & Hu & Hc & Ha & _))
       |(u & row & st1 & _ & (_ & Ho & Hu & Hc & Ha & _) & Hrow & ->)].
  - simpl. repeat (split; [done|]). by left.
  - destruct (String.eqb (wu_status u) "success"); cbn [snd].
    + destruct (after_success_frame u row st1) as (Hu' & Hc' & Ha' & Ho' & _).
      rewrite Hu', Hc', Ha', Ho', Hu, Hc, Ha, Ho. repeat (split; [done|]).
      right. by eexists.
    + unfold after_other. cbn. repeat (split; [done|]). by left.
Qed.

(** X14. The endpoint answers 200 only when it has changed no order and
    sent no e-mail: a notification that marks an order paid is always
    answered 400. *)
Theorem webhook_200_changes_no_order headers payload st answer st' :
  Router.webhook cfg net now headers payload st = (answer, st') →
  http_status answer = 200 →
  orders st' = orders st ∧ outbox st' = outbox st.
Proof.
  intros Hrun Hok.
  destruct (webhook_cases headers payload st)
    as [(reason & st1 & Hweb & _)
       |(u & row & st1 & _ & (_ & Ho & _ & _ & _ & Hm) & Hrow & Hweb)];
    rewrite Hweb in Hrun.
  - by injection Hrun as <- <-.
  - destruct (String.eqb (wu_status u) "success"); injection Hrun as <- <-; [done|].
    unfold after_other. by cbn.
Qed.

Lemma payfast_webhook_again (gateway : HttpRequest → AxiosOutcome)
    payload signature st u st1 st2 :
  PayFast.handleWebhook cfg net payload signature st = (Ok (Some u), st1) →
  answers_valid cfg gateway →
  ∃ st3, PayFast.handleWebhook cfg gateway payload signature st2 = (Ok (Some u), st3).
Proof.
  unfold PayFast.handleWebhook, bindM, lift. intros Hfirst Hvalid.
  destruct (form_data true payload) as [posted|]; [|done].
  destruct (PayFast.verifySignature cfg posted) as [[ok data]|]; [|done].
  cbn [fst snd] in *. destruct ok; [|done]. cbn [negb] in *.
  destruct (PayFast.validatePayment cfg net data st) as [[[]|] st0]; [|done|done].
  cbn [negb] in Hfirst.
  unfold PayFast.validatePayment, try_catch, bindM, axios, ret.
  match goal with |- context [gateway ?r] => destruct (Hvalid r) as (status & Hrange & ->) end;
    [done|].
  rewrite Hrange. cbn [snd is_str String.eqb Ascii.eqb Bool.eqb negb].
  destruct (get data "payment_status"); [|done].
  destruct (get data "custom_str1"); [|done].
  destruct (get data "pf_payment_id"); [|done].
  destruct (get data "m_payment_id"); [|done].
  unfold ret in *. injection Hfirst as <- _. by eexists.
Qed.

(** A service that has yielded an update for a notification yields the
    same update when the notification is delivered again; only PayFast
    asks its gateway, and must be told [VALID] once more. *)
Lemma route_webhook_again (gateway : HttpRequest → AxiosOutcome) headers payload st u st1 st2 :
  Router.route_webhook cfg net headers payload st = (Ok (Some u), st1) →
  (Router.webhook_source headers = Some FromPayFast → answers_valid cfg gateway) →
  ∃ st3, Router.route_webhook cfg gateway headers payload st2 = (Ok (Some u), st3).
Proof.
  unfold Router.route_webhook.
  destruct (Router.webhook_source headers) as [[]|]; cbn [Router.handleWebhook]; [..|done].
  1-4: unfold lift; intros [= -> _] _; by eexists.
  intros Hfirst Hvalid. eapply payfast_webhook_again; [done|by apply Hvalid].
Qed.

Lemma touch_updated_payment later u row :
  String.eqb (wu_status u) "success" = false →
  Router.updated_payment later u (Router.updated_payment now u row)
  = touch later (Router.updated_payment now u row).
Proof.
  intros Hstatus. unfold Router.updated_payment, touch. cbn. rewrite Hstatus.
  by destruct (wu_transaction_id u), (wu_gateway_response u).
Qed.

(** X15. A notification answered with 200 can be delivered again, at any
    later clock value and whatever the gateway answers then, provided
    that, when the notification is PayFast's, PayFast's validation
    endpoint answers [VALID] once more (the other four services ask
    nobody). The second delivery is answered 200 too; it sets the
    [updated_at] column of one Payment anew and changes nothing else: no
    other column, no other Payment, no order, and no e-mail is sent. *)
Theorem processed_webhook_replay_changes_nothing
    (gateway : HttpRequest → AxiosOutcome) later headers payload st answer st' :
  Router.webhook cfg net now headers payload st = (answer, st') →
  http_status answer = 200 →
  (Router.webhook_source headers = Some FromPayFast → answers_valid cfg gateway) →
  ∃ id st'',
    Router.webhook cfg gateway later headers payload st' = (processed, st'')
    ∧ payments st'' = alter (touch later) id (payments st')
    ∧ orders st'' = orders st' ∧ users st'' = users st'
    ∧ promo_codes st'' = promo_codes st'
    ∧ affiliate_stats st'' = affiliate_stats st'
    ∧ outbox st'' = outbox st'.
Proof.
  intros Hrun Hok Hvalid.
  destruct (webhook_cases headers payload st)
    as [(reason & st1 & Hweb & _)
       |(u & row & st1 & Hroute & (Hp & _) & Hrow & Hweb)];
    rewrite Hweb in Hrun.
  { by injection Hrun as <- <-. }
  destruct (String.eqb (wu_status u) "success") eqn:Hstatus; injection Hrun as <- <-; [done|].
  destruct (route_webhook_again gateway headers payload st u st1
              (after_other now u row st1) Hroute Hvalid) as [st2 Hagain].
  pose proof (quiet_route_webhook cfg gateway headers payload _ _ _ Hagain)
    as (Hp2 & Ho2 & Hu2 & Hc2 & Ha2 & Hm2).
  assert (Hrow2 : payments (after_other now u row st1) !! js_toString (wu_payment_id u)
                  = Some (Router.updated_payment now u row)).
  { unfold after_other. cbn. by rewrite lookup_insert_eq. }
  rewrite (webhook_found cfg gateway later headers payload _ u st2 _ Hagain Hrow2), Hstatus.
  exists (js_toString (wu_payment_id u)). eexists. split; [reflexivity|].
  unfold after_other at 1 3 5 7 9 11. cbn.
  rewrite Hp2, Ho2, Hu2, Hc2, Ha2, Hm2.
  split; [|done].
  rewrite (touch_updated_payment later u row Hstatus).
  unfold after_other. cbn.
  apply map_eq. intros key. destruct (decide (key = js_toString (wu_payment_id u))) as [->|Hne].
  - by rewrite lookup_insert_eq, lookup_alter_eq, lookup_insert_eq.
  - by rewrite lookup_insert_ne, lookup_alter_ne by done.
Qed.
End WebhookFrame.

(** ** GET /payments/status/:id and POST /payments/verify *)

Lemma quiet_select_payment id user : quiet (Router.select_payment id user).
Proof.
  intros st r st'. unfold Router.select_payment.
  repeat case_match; intros [= <- <-]; apply same_rows_refl.
Qed.

Section Reads.
Context {rt : Runtime} (cfg : Config) (net : HttpRequest → AxiosOutcome) (now : Z).

(** X16. [verify] asks the gateway and reports; it never writes: whatever
    the request and whatever the gateway answers, also [verified], every
    row is left as it was. *)
Theorem verify_changes_no_row user body st :
  same_rows st (snd (Router.verify cfg net now user body st)).
Proof.
  assert (Hq : quiet (Router.verify cfg net now user body)).
  { unfold Router.verify.
    repeat first
      [ apply quiet_select_payment | apply quiet_route_verify | quiet_step ]. }
  destruct (Router.verify cfg net now user body st) as [r st'] eqn:Hrun.
  by eapply Hq.
Qed.

(** X17. [verify] answers for a Payment of somebody else as it answers for
    one that does not exist: not found, and no gateway is asked. *)
Theorem verify_hides_payments_of_others user fields st :
  truthy (assoc "payment_id" fields) = true →
  (∀ row, payments st !! js_toString (assoc "payment_id" fields) = Some row →
          p_user_id row ≠ u_id user) →
  Router.verify cfg net now user (JObj fields) st
  = (Throw (new_NotFoundError "Payment not found"), st).
Proof.
  intros Hid Hforeign. unfold Router.verify, bindM, lift. cbn [get]. rewrite Hid.
  cbn [negb]. unfold Router.select_payment.
  destruct (payments st !! js_toString (assoc "payment_id" fields)) as [row|] eqn:Hrow;
    [|done].
  specialize (Hforeign row eq_refl).
  by destruct (String.eqb_spec (p_user_id row) (u_id user)).
Qed.

(** X18. For a PayFast Payment of the caller [verify] answers [verified]
    without asking anyone, whatever the status of the Payment. *)
Theorem verify_payfast_asks_nobody user fields st row :
  truthy (assoc "payment_id" fields) = true →
  payments st !! js_toString (assoc "payment_id" fields) = Some row →
  p_user_id row = u_id user →
  p_payment_method row = "payfast" →
  ∃ answer,
    Router.verify cfg net now user (JObj fields) st = (Ok answer, st)
    ∧ vr_verification_status answer = "verified"
    ∧ vr_payment_id answer = assoc "payment_id" fields.
Proof.
  intros Hid Hrow Howner Hmethod. unfold Router.verify, bindM, lift. cbn [get].
  rewrite Hid. cbn [negb]. unfold Router.select_payment.
  rewrite Hrow, Howner, String.eqb_refl. unfold Router.route_verify. rewrite Hmethod.
  eexists. split; [reflexivity|]. done.
Qed.
End Reads.

(** X19. The status endpoint only reads, and it shows a Payment to its owner
    alone: it answers with the stored row when the id names a Payment of
    the caller, and with the same not-found error when the id names no
    Payment or somebody else's. *)
Theorem status_shows_own_payments_only user id st :
  snd (Router.status user id st) = st
  ∧ match fst (Router.status user id st) with
    | Ok answer =>
        ∃ row, payments st !! id = Some row ∧ p_user_id row = u_id user
               ∧ s_payment_id answer = p_id row ∧ s_status answer = p_status row
               ∧ s_amount answer = p_amount row ∧ s_currency answer = p_currency row
               ∧ s_payment_method answer = p_payment_method row
               ∧ s_processed_at answer = p_processed_at row
    | Throw e =>
        e = new_NotFoundError "Payment not found"
        ∧ ∀ row, payments st !! id = Some row → p_user_id row ≠ u_id user
    end.
Proof.
  unfold Router.status, bindM, Router.select_payment. cbn [js_toString].
  destruct (payments st !! id) as [row|] eqn:Hrow; [|by cbn].
  destruct (String.eqb_spec (p_user_id row) (u_id user)) as [Howner|Hforeign]; cbn.
  - split; [done|]. by exists row.
  - split; [done|]. split; [done|]. by intros ? [= <-].
Qed.

(** ** Errors on their way to the client *)

(** X20. The status the error middleware sends for an exception that leaves
    a payment handler is the status of the exception's class: 400 for a
    validation error, 404 for not found, 500 for anything else, in every
    environment. *)
Theorem error_response_status NODE_ENV e :
  er_status (error_response NODE_ENV e) = statusCode e.
Proof.
  unfold error_response, error_object, statusCode.
  by destruct (exn_class e).
Qed.

Section InitializeErrors.
Context {rt : Runtime} (cfg : Config) (net : HttpRequest → AxiosOutcome) (now : Z).

Lemma initialize_errors user body st e st' :
  Router.initialize cfg net now user body st = (Throw e, st') →
  exn_class e = PlainError ∨ exn_class e = TypeError
  ∨ ((exn_class e = ValidationError ∨ exn_class e = NotFoundError)
     ∧ exn_message e ∈ guard_messages).
Proof.
  unfold Router.initialize, bindM, lift, guard_messages.
  destruct body as [| |b|n|s|fields]; cbn [get truthy negb orb];
    try (intros [= <- <-]; cbn;
         first [ by right; left | right; right; split; [by left|by left] ]).
  destruct (negb (truthy (assoc "order_id" fields)) || negb (truthy (assoc "payment_method" fields))).
  { intros [= <- <-]. right; right. split; [by left|]. by left. }
  unfold Router.select_order.
  destruct (orders st !! js_toString (assoc "order_id" fields)) as [order|];
    [|intros [= <- <-]; right; right; split; [by right|]; by right; left].
  destruct (String.eqb (o_user_id order) (u_id user));
    [|intros [= <- <-]; right; right; split; [by right|]; by right; left].
  destruct (negb (String.eqb (o_payment_status order) "pending")).
  { intros [= <- <-]. right; right. split; [by left|]. by right; right; left. }
  destruct (_ && _).
  { intros [= <- <-]. right; right. split; [by left|]. by right; right; right; left. }
  unfold Router.create_payment. intros [e0 ->]%try_catch_throw_inv. by left.
Qed.

(** X21. In production nothing a gateway or the engine said reaches the
    client of [initialize]: a failure is answered either with status 500
    and the fixed internal-error text and code, or with 400 or 404 and one
    of the four messages of the handler's own guards. *)
Theorem initialize_errors_in_production user body st e st' :
  Router.initialize cfg net now user body st = (Throw e, st') →
  let response := error_response (JStr "production") e in
  (er_status response = 500
   ∧ er_message response = "An internal server error occurred"
   ∧ er_code response = JStr "INTERNAL_ERROR")
  ∨ ((er_status response = 400 ∨ er_status response = 404)
     ∧ er_message response ∈ guard_messages).
Proof.
  intros Hrun response. subst response.
  apply initialize_errors in Hrun as [Hclass|[Hclass|[Hclass Hmsg]]].
  - left. unfold error_response, error_object. by rewrite Hclass.
  - left. unfold error_response, error_object. by rewrite Hclass.
  - right. unfold error_response, error_object.
    assert (Hne : String.eqb (exn_message e) "" = false).
    { unfold guard_messages in Hmsg.
      repeat (apply elem_of_cons in Hmsg as [->|Hmsg]; [done|]). by apply elem_of_nil in Hmsg. }
    destruct Hclass as [-> | ->]; cbn; rewrite Hne; auto.
Qed.
End InitializeErrors.

Lemma by_name_or_response_cases error :
  ErrorHandler.by_name_or_response error = error
  ∨ ErrorHandler.handleKnownErrors (ErrorHandler.by_name_or_response error)
    = Ok (ErrorHandler.by_name_or_response error).
Proof.
  unfold ErrorHandler.by_name_or_response.
  destruct (String.eqb (eo_name error) "JsonWebTokenError"); [by right|].
  destruct (String.eqb (eo_name error) "TokenExpiredError"); [by right|].
  destruct (String.eqb (eo_name error) "ValidationError"); [by right|].
  unfold ErrorHandler.http_error.
  destruct (eo_response_status error) as [status|]; [|by left].
  destruct ((400 <=? status) && (status <? 500)); [by right|].
  destruct (500 <=? status); [by right|by left].
Qed.

(** X22. [handleKnownErrors] normalises: the error it returns is one it
    returns unchanged. *)
Theorem handleKnownErrors_idempotent error processed :
  ErrorHandler.handleKnownErrors error = Ok processed →
  ErrorHandler.handleKnownErrors processed = Ok processed.
Proof.
  intros H. pose proof H as Hsame. unfold ErrorHandler.handleKnownErrors in H.
  destruct (truthy (eo_code error)).
  - destruct (eo_code error) as [| | | |code|]; try done.
    destruct (ErrorHandler.postgres_error code) as [known|] eqn:Hpg.
    + injection H as <-. unfold ErrorHandler.postgres_error in Hpg.
      destruct (startsWith "23" code); [|done].
      destruct (String.eqb code "23505"); [by injection Hpg as <-|].
      destruct (String.eqb code "23503"); [by injection Hpg as <-|].
      destruct (String.eqb code "23502"); [by injection Hpg as <-|done].
    + injection H as <-.
      destruct (by_name_or_response_cases error) as [Hself|Hfixed]; [|done].
      by rewrite Hself in Hsame |- *.
  - injection H as <-.
    destruct (by_name_or_response_cases error) as [Hself|Hfixed]; [|done].
    by rewrite Hself in Hsame |- *.
Qed.

(** ** The methods table and the adapters *)

Section Methods.
Context {rt : Runtime} (cfg : Config) (net : HttpRequest → AxiosOutcome) (now : Z).

Lemma listed_methods country method :
  method ∈ Router.listAvailableMethods country →
  (country = "ZA" ∧ pm_id method ∈ ["paygate"; "payfast"; "kora"] ∧ pm_type method = "card")
  ∨ (country = "CM"
     ∧ ((pm_id method ∈ ["orange"; "mtn"] ∧ pm_type method = "mobile_money")
        ∨ (pm_id method = "kora" ∧ pm_type method = "card"))).
Proof.
  unfold Router.listAvailableMethods, Router.paymentMethods. cbn [Router.methods_of].
  destruct (String.eqb_spec country "ZA") as [->|_].
  { intros H. left. split; [done|].
    repeat (apply elem_of_cons in H as [->|H]; [cbn; split; [|done]; repeat first [by left|right]|]).
    by apply elem_of_nil in H. }
  destruct (String.eqb_spec country "CM") as [->|_]; [|by intros ?%elem_of_nil].
  intros H. right. split; [done|].
  apply elem_of_cons in H as [->|H]; [left; split; [by left|done]|].
  apply elem_of_cons in H as [->|H]; [left; split; [by right; left|done]|].
  apply elem_of_cons in H as [->|H]; [by right|].
  by apply elem_of_nil in H.
Qed.

Lemma route_initialize_currency pm order user return_url phone st res st1 :
  Router.route_initialize cfg net now pm order user return_url phone st = (Ok res, st1) →
  currency res =
    if is_str pm "kora" then KoraPay.getCurrency (u_country user)
    else if is_str pm "mtn" then MTN.getCurrency (u_country user)
    else if is_str pm "orange" then Orange.getCurrency (u_country user)
    else "ZAR".
Proof.
  unfold Router.route_initialize.
  destruct (is_str pm "kora").
  { unfold KoraPay.initializePayment, try_catch, bindM, lift, ret, throw.
    intros H. repeat (case_match; simplify_eq/=); done. }
  destruct (is_str pm "mtn").
  { unfold MTN.initializePayment, try_catch, bindM, lift, ret, throw.
    intros H. repeat (case_match; simplify_eq/=); done. }
  destruct (is_str pm "orange").
  { unfold Orange.initializePayment, try_catch, bindM, lift, ret, throw.
    intros H. repeat (case_match; simplify_eq/=); done. }
  destruct (is_str pm "paygate").
  { unfold PayGate.initializePayment, try_catch, bindM, lift, ret, throw.
    intros H. repeat (case_match; simplify_eq/=); done. }
  destruct (is_str pm "payfast"); [|done].
  unfold PayFast.initializePayment, try_catch, bindM, lift, ret, throw.
  intros H. repeat (case_match; simplify_eq/=); done.
Qed.

(** X23. The methods endpoint and [initialize] agree: every method listed
    for a country is one [initialize] knows, it is a mobile-money method
    exactly when [initialize] wants a phone number for it, and when a user
    of that country pays with it the Payment is in the currency the
    methods endpoint advertises for the country. *)
Theorem listed_method_is_initialized_in_advertised_currency
    country method user fields st resp st' :
  method ∈ Router.listAvailableMethods country →
  u_country user = country →
  assoc "payment_method" fields = JStr (pm_id method) →
  Router.initialize cfg net now user (JObj fields) st = (Ok resp, st') →
  known_method (JStr (pm_id method)) = true
  ∧ (pm_type method = "mobile_money" ↔ phone_missing (JStr (pm_id method)) JUndefined = true)
  ∧ table_get country currencies = Some (r_currency resp)
  ∧ (p_currency <$> payments st' !! r_payment_id resp) = Some (r_currency resp).
Proof.
  intros Hlisted Hcountry Hmethod Hrun.
  apply initialize_result in Hrun
    as [[Hfail _]
       |(fields' & resp' & order & res & st1 & [= <-] & [= <-] & _ & _ & _ & _ & _ & _
         & Hroute & _ & _ & Hid & _ & Hcur & _ & ->)]; [done|].
  apply route_initialize_currency in Hroute. rewrite Hmethod, Hcountry in Hroute.
  rewrite Hcur, Hid. cbn [payments with_payments]. rewrite lookup_insert_eq. cbn.
  apply listed_methods in Hlisted
    as [(-> & Hid' & Htype)|(-> & [[Hid' Htype]|[Hid' Htype]])]; rewrite Htype.
  - repeat (apply elem_of_cons in Hid' as [Hid'|Hid']; [rewrite Hid' in *; by rewrite Hroute|]).
    by apply elem_of_nil in Hid'.
  - repeat (apply elem_of_cons in Hid' as [Hid'|Hid']; [rewrite Hid' in *; by rewrite Hroute|]).
    by apply elem_of_nil in Hid'.
  - rewrite Hid' in *. by rewrite Hroute.
Qed.
End Methods.

(** ** Notifications *)

Lemma lower_upper_ascii c : lower_ascii (upper_ascii c) = lower_ascii c.
Proof. by destruct c as [[] [] [] [] [] [] [] []]. Qed.

Lemma toLowerCase_toUpperCase s : toLowerCase (toUpperCase s) = toLowerCase s.
Proof.
  induction s as [|c s IH]; [done|].
  cbn [toUpperCase toLowerCase]. by rewrite lower_upper_ascii, IH.
Qed.

Section Notifications.
Context {rt : Runtime} (cfg : Config) (net : HttpRequest → AxiosOutcome) (now : Z).

Lemma orange_digest_verifies payload :
  Orange.verifyWebhookSignature cfg payload
    (JStr (md5_hex (JSON_stringify payload +:+ js_toString (orange_merchantKey cfg)))) = true.
Proof.
  unfold Orange.verifyWebhookSignature.
  destruct (negb (truthy (orange_merchantKey cfg))); [done|]. by rewrite String.eqb_refl.
Qed.

(** X24. Orange's check compares hexadecimal digests without regard to
    letter case: the digest of the body and the merchant key is accepted
    as it is and in capitals. *)
Theorem orange_signature_in_either_case payload :
  let digest := md5_hex (JSON_stringify payload +:+ js_toString (orange_merchantKey cfg)) in
  Orange.verifyWebhookSignature cfg payload (JStr digest) = true
  ∧ Orange.verifyWebhookSignature cfg payload (JStr (toUpperCase digest)) = true.
Proof.
  intros digest. unfold Orange.verifyWebhookSignature.
  destruct (negb (truthy (orange_merchantKey cfg))); [done|].
  fold digest. by rewrite toLowerCase_toUpperCase, String.eqb_refl.
Qed.

(** X25. PayFast's handler yields an update only after PayFast's validation
    endpoint has answered [VALID] to the one request the handler makes;
    the update carries one of the three Payment statuses. *)
Theorem payfast_update_was_validated payload signature st u st' :
  PayFast.handleWebhook cfg net payload signature st = (Ok (Some u), st') →
  ∃ rq status,
    net rq = Responded status (JStr "VALID")
    ∧ st' = with_net_log (fun l => (l ++ [rq])%list) st
    ∧ rq_method rq = "POST"
    ∧ rq_url rq = (if testMode cfg then "https://sandbox.payfast.co.za/eng/query/validate"
                   else "https://www.payfast.co.za/eng/query/validate")
    ∧ wu_status u ∈ tri_state.
Proof.
  unfold PayFast.handleWebhook, bindM, lift.
  destruct (form_data true payload) as [posted|]; [|done].
  destruct (PayFast.verifySignature cfg posted) as [[ok data]|] eqn:Hsig; [|done].
  cbn [fst snd]. destruct ok; [|done]. cbn [negb].
  unfold PayFast.validatePayment, try_catch, bindM, axios, ret.
  match goal with |- context [net ?r] => set (rq := r) end.
  destruct (net rq) as [status answer|] eqn:Hnet; [|done].
  destruct ((200 <=? status) && (status <? 300)); [|done].
  cbn [snd]. destruct (is_str answer "VALID") eqn:Hvalid; [|done].
  apply is_str_true in Hvalid as ->. cbn [negb].
  intros H. exists rq, status. split; [done|].
  assert (Hst : st' = with_net_log (fun l => (l ++ [rq])%list) st
                ∧ ∃ paymentStatus, wu_status u = PayFast.map_status paymentStatus).
  { destruct (get data "payment_status") as [paymentStatus|]; [|done].
    destruct (get data "custom_str1"); [|done].
    destruct (get data "pf_payment_id"); [|done].
    destruct (get data "m_payment_id"); [|done].
    injection H as <- <-. split; [done|]. by exists paymentStatus. }
  destruct Hst as [-> [paymentStatus Hstatus]]. split; [done|]. split; [done|].
  split; [done|].
  rewrite Hstatus. unfold PayFast.map_status, tri_state.
  repeat case_match; repeat first [by left | right].
Qed.
End Notifications.

(** ** From initiation to a paid order *)

Section Completion.
Context {rt : Runtime} (cfg : Config) (net : HttpRequest → AxiosOutcome) (now later : Z).

Lemma orange_signed_route order_id txnid st :
  ∃ u, Router.route_webhook cfg net (orange_signed cfg (orange_success order_id txnid))
         (orange_success order_id txnid) st = (Ok (Some u), st)
       ∧ wu_payment_id u = JStr order_id ∧ wu_status u = "success".
Proof.
  unfold Router.route_webhook, Router.webhook_source, Router.signature_of, Router.header,
    orange_signed.
  rewrite !lookup_insert_ne by done. rewrite !lookup_singleton_ne by done.
  rewrite lookup_insert_eq. cbn [truthy negb String.eqb Ascii.eqb Bool.eqb].
  rewrite lookup_insert_ne by done. rewrite lookup_singleton_eq.
  cbn [Router.handleWebhook lift]. unfold Orange.handleWebhook, js_or.
  set (digest := md5_hex _).
  assert (Hpass : truthy (if truthy (JStr digest) then JStr digest else JUndefined)
                  && negb (Orange.verifyWebhookSignature cfg (orange_success order_id txnid)
                             (if truthy (JStr digest) then JStr digest else JUndefined))
                  = false).
  { destruct (truthy (JStr digest)) eqn:Hsent; [|done].
    unfold digest. rewrite orange_digest_verifies. apply andb_false_r. }
  rewrite Hpass. eexists. split; [reflexivity|]. done.
Qed.

Lemma success_notification_effect headers payload st u st1 row order :
  Router.route_webhook cfg net headers payload st = (Ok (Some u), st1) →
  wu_status u = "success" →
  payments st !! js_toString (wu_payment_id u) = Some row →
  orders st !! p_order_id row = Some order →
  payments (snd (Router.webhook cfg net later headers payload st))
    !! js_toString (wu_payment_id u) = Some (Router.updated_payment later u row)
  ∧ orders (snd (Router.webhook cfg net later headers payload st)) !! p_order_id row
    = Some (Router.paid_order later order).
Proof.
  intros Hroute Hstatus Hrow Horder.
  pose proof (quiet_route_webhook cfg net headers payload _ _ _ Hroute) as (Hp & Ho & _).
  rewrite (webhook_found cfg net later _ _ _ u _ _ Hroute Hrow), Hstatus.
  cbn [String.eqb Ascii.eqb Bool.eqb snd].
  destruct (after_success_frame later u row st1) as (_ & _ & _ & Ho' & Hp').
  rewrite Hp', Ho', Hp, Ho, lookup_insert_eq, lookup_alter_eq, Horder. done.
Qed.

(** X26. For Orange Money the ids line up from end to end: after an
    [initialize] that returned, the signed success notification that names
    the returned payment id makes that Payment [success] and its order
    [success] and [paid]. *)
Theorem orange_notification_completes_the_order user body st resp st' txnid :
  orders_keyed st →
  Router.initialize cfg net now user body st = (Ok resp, st') →
  let payload := orange_success (r_payment_id resp) txnid in
  let st'' := snd (Router.webhook cfg net later (orange_signed cfg payload) payload st') in
  ∃ row order,
    payments st'' !! r_payment_id resp = Some row
    ∧ p_status row = "success" ∧ p_processed_at row ≠ None
    ∧ orders st'' !! p_order_id row = Some order
    ∧ o_payment_status order = "success" ∧ o_status order = "paid".
Proof.
  intros Hkeyed Hrun payload st''. subst payload st''.
  apply initialize_result in Hrun
    as [[Hfail _]
       |(fields & resp' & order & res & st1 & -> & [= <-] & _ & _ & _ & Hfound & _
         & _ & _ & (_ & Ho & _) & _ & Hid & _ & _ & _ & ->)]; [done|].
  rewrite <- Hid.
  match goal with |- context [with_payments (insert _ ?r) st1] => set (row := r) end.
  destruct (orange_signed_route (r_payment_id resp) txnid
              (with_payments (insert (r_payment_id resp) row) st1))
    as (u & Hroute & Hu & Hstatus).
  assert (Hrow : payments (with_payments (insert (r_payment_id resp) row) st1)
                 !! js_toString (wu_payment_id u) = Some row).
  { rewrite Hu. cbn. by rewrite lookup_insert_eq. }
  assert (Horder : orders (with_payments (insert (r_payment_id resp) row) st1)
                   !! p_order_id row = Some order).
  { cbn. rewrite Ho. by rewrite <- (Hkeyed _ _ Hfound) in Hfound. }
  destruct (success_notification_effect _ _ _ _ _ _ _ Hroute Hstatus Hrow Horder)
    as [Hpaid Hmarked].
  rewrite Hu in Hpaid. cbn [js_toString] in Hpaid.
  exists (Router.updated_payment later u row), (Router.paid_order later order).
  split; [done|]. cbn. rewrite Hstatus. by cbn.
Qed.
End Completion.

(** ** PayGate's reply and MTN's polling *)

Lemma take_token_free s :
  contains "&" (PayGate.take_token s) = false ∧ contains PayGate.double_quote (PayGate.take_token s) = false.
Proof.
  induction s as [|c s [IH1 IH2]]; [done|]. cbn [PayGate.take_token].
  destruct (Ascii.eqb c "&") eqn:Hamp; [done|].
  destruct (Ascii.eqb c PayGate.double_quote) eqn:Hquote; [done|].
  cbn [orb contains]. by rewrite Hamp, Hquote, IH1, IH2.
Qed.

Lemma take_token_prefix s : ∃ after, s = PayGate.take_token s +:+ after.
Proof.
  induction s as [|c s [after IH]]; [by exists ""|]. cbn [PayGate.take_token].
  destruct (Ascii.eqb c "&" || Ascii.eqb c PayGate.double_quote).
  - by eexists.
  - exists after. change (String c s = String c (PayGate.take_token s +:+ after)).
    by f_equal.
Qed.

Lemma prefix_split p s : String.prefix p s = true → ∃ rest, s = p +:+ rest.
Proof.
  revert s. induction p as [|c p IH]; intros s; [by exists s|].
  destruct s as [|c' s]; [done|]. cbn [String.prefix].
  destruct (Ascii.ascii_dec c c') as [<-|]; [|done].
  intros [rest ->]%IH. by exists rest.
Qed.

(** X27. What [initializePayment] takes from PayGate's reply as the pay
    request id stands in the reply right after [PAY_REQUEST_ID=], is not
    empty, and holds neither an ampersand nor a double quote. *)
Theorem match_PAY_REQUEST_ID_token s token :
  PayGate.match_PAY_REQUEST_ID s = Some token →
  token ≠ "" ∧ contains "&" token = false ∧ contains PayGate.double_quote token = false
  ∧ ∃ before after, s = before +:+ "PAY_REQUEST_ID=" +:+ token +:+ after.
Proof.
  induction s as [|c s IH]; [done|].
  cbn [PayGate.match_PAY_REQUEST_ID].
  assert (Hrec : PayGate.match_PAY_REQUEST_ID s = Some token →
            token ≠ "" ∧ contains "&" token = false
            ∧ contains PayGate.double_quote token = false
            ∧ ∃ before after, String c s = before +:+ "PAY_REQUEST_ID=" +:+ token +:+ after).
  { intros (Hne & Ha & Hq & before & after & ->)%IH. repeat (split; [done|]).
    by exists (String c before), after. }
  destruct (startsWith "PAY_REQUEST_ID=" (String c s)) eqn:Hstart; [|done].
  apply prefix_split in Hstart as [rest Hrest]. rewrite Hrest.
  assert (Hsub : String.substring 15 (String.length ("PAY_REQUEST_ID=" +:+ rest) - 15)
                   ("PAY_REQUEST_ID=" +:+ rest) = rest).
  { simpl. rewrite ?Nat.sub_0_r. apply substring_all. }
  rewrite Hsub.
  destruct (String.eqb_spec (PayGate.take_token rest) "") as [|Hne]; [by rewrite <- Hrest|].
  intros [= <-]. split; [done|].
  destruct (take_token_free rest) as [Ha Hq]. repeat (split; [done|]).
  destruct (take_token_prefix rest) as [after Hafter].
  exists "", after. cbn. by rewrite <- Hafter.
Qed.

Section Polling.
Context {rt : Runtime} (cfg : Config) (net : HttpRequest → AxiosOutcome).

Lemma mtn_verified_by_gateway paymentId transactionReference st v st' :
  MTN.verifyPayment cfg net paymentId transactionReference st = (Ok v, st') →
  v_status v = "verified" →
  ∃ rq status data,
    net rq = Responded status data ∧ rq ∈ net_log st' ∧ rq_method rq = "GET"
    ∧ get data "status" = Ok (JStr "SUCCESSFUL").
Proof.
  unfold MTN.verifyPayment, try_catch, bindM, lift, ret, throw.
  destruct (MTN.getAccessToken cfg net st) as [[accessToken|] st1]; [|done].
  unfold axios.
  match goal with |- context [net ?r] => set (rq := r) end.
  destruct (net rq) as [status data|] eqn:Hnet; [|done].
  destruct ((200 <=? status) && (status <? 300)); [|done].
  cbn [snd]. destruct (get data "status") as [answer|] eqn:Hget; [|done].
  intros [= <- <-]. cbn [v_status]. unfold verdict.
  destruct (is_str answer "SUCCESSFUL") eqn:Hanswer; [|done].
  apply is_str_true in Hanswer as ->. intros _.
  exists rq, status, data. repeat (split; [done|]). split; [|done].
  cbn. apply elem_of_app. right. left.
Qed.

(** X28. MTN's polling helper never throws and never touches a row; it
    answers [true] only when the gateway replied to its status request
    with the status [SUCCESSFUL]. *)
Theorem mtn_checkPaymentStatus_reports_the_gateway transactionReference st :
  ∃ paid st',
    MTN.checkPaymentStatus cfg net transactionReference st = (Ok paid, st')
    ∧ same_rows st st'
    ∧ (paid = true →
       ∃ rq status data,
         net rq = Responded status data ∧ rq ∈ net_log st' ∧ rq_method rq = "GET"
         ∧ get data "status" = Ok (JStr "SUCCESSFUL")).
Proof.
  unfold MTN.checkPaymentStatus, try_catch, bindM, ret.
  destruct (MTN.verifyPayment cfg net JNull transactionReference st) as [[v|e] st1] eqn:Hv;
    pose proof (quiet_route_verify cfg net "mtn" JNull transactionReference _ _ _ Hv) as Hq.
  - eexists _, st1. split; [reflexivity|]. split; [done|].
    intros Hpaid%String.eqb_eq. by eapply mtn_verified_by_gateway.
  - exists false, st1. split; [done|]. split; [done|]. done.
Qed.
End Polling.

(** ** The theorems above on the sample deployment *)

Ltac decide_closed := refine (bool_decide_unpack _ _); vm_compute; exact I.

Lemma sample_orders_keyed country order ps :
  orders_keyed (sample_state country order ps).
Proof.
  intros id o Hrow. cbn [orders sample_state] in Hrow.
  by apply lookup_singleton_Some in Hrow as [<- <-].
Qed.

Lemma parseFormData_last_value_wins_witness :
  ∃ fields',
    parseFormData (rt:=symbolic_runtime) false
      ("TRANSACTION_STATUS=1&PAY_REQUEST_ID=REQ-1" +:+ "&" +:+ "TRANSACTION_STATUS" +:+ "=" +:+ "2")
    = Ok (JObj fields')
    ∧ assoc "TRANSACTION_STATUS" fields' = JStr "2"
    ∧ ∀ other, other ≠ "TRANSACTION_STATUS" →
        assoc other fields'
        = assoc other [("TRANSACTION_STATUS", JStr "1"); ("PAY_REQUEST_ID", JStr "REQ-1")].
Proof.
  apply (parseFormData_last_value_wins (rt:=symbolic_runtime) false
           "TRANSACTION_STATUS=1&PAY_REQUEST_ID=REQ-1" "TRANSACTION_STATUS" "2"
           "TRANSACTION_STATUS" "2").
  - vm_compute. reflexivity.
  - discriminate.
  - reflexivity.
  - reflexivity.
  - reflexivity.
  - reflexivity.
  - discriminate.
Defined.

Lemma parseFormData_form_string_witness :
  ∃ fields,
    parseFormData (rt:=symbolic_runtime) false
      (form_string [("TRANSACTION_STATUS", "1"); ("PAY_REQUEST_ID", "REQ-1")])
    = Ok (JObj fields)
    ∧ fields ≡ₚ [("TRANSACTION_STATUS", JStr "1"); ("PAY_REQUEST_ID", JStr "REQ-1")]
    ∧ ∀ d, d ∈ [("TRANSACTION_STATUS", "1"); ("PAY_REQUEST_ID", "REQ-1")] →
        get (JObj fields) (fst d) = Ok (JStr (snd d)).
Proof.
  apply (parseFormData_form_string (rt:=symbolic_runtime)
           [("TRANSACTION_STATUS", "1"); ("PAY_REQUEST_ID", "REQ-1")]
           [("TRANSACTION_STATUS", "1"); ("PAY_REQUEST_ID", "REQ-1")]).
  - repeat constructor; discriminate.
  - repeat constructor.
  - decide_closed.
  - decide_closed.
Defined.

Lemma paygate_checksum_order_independent_witness :
  PayGate.generateChecksum (rt:=symbolic_runtime) sample_config
    [("REFERENCE", JStr "mg_o1_1700000000000"); ("PAYGATE_ID", JStr "10011072130")]
  = PayGate.generateChecksum (rt:=symbolic_runtime) sample_config
      [("PAYGATE_ID", JStr "10011072130"); ("REFERENCE", JStr "mg_o1_1700000000000")].
Proof.
  apply (paygate_checksum_order_independent (rt:=symbolic_runtime)).
  - decide_closed.
  - apply perm_swap.
Defined.

Lemma paygate_signed_data_verifies_witness :
  PayGate.verifyChecksum (rt:=symbolic_runtime) sample_config
    (JObj (set_key "CHECKSUM"
             (JStr (PayGate.generateChecksum (rt:=symbolic_runtime) sample_config
                      paygate_cancelled_fields))
             paygate_cancelled_fields))
  = Ok true.
Proof.
  apply (paygate_signed_data_verifies (rt:=symbolic_runtime)).
  decide_closed.
Defined.

Lemma payfast_signature_order_independent_witness :
  PayFast.generateSignature (rt:=symbolic_runtime) sample_config
    [("payment_status", JStr "COMPLETE"); ("custom_str1", JStr "o1")]
  = PayFast.generateSignature (rt:=symbolic_runtime) sample_config
      [("custom_str1", JStr "o1"); ("payment_status", JStr "COMPLETE")].
Proof.
  apply (payfast_signature_order_independent (rt:=symbolic_runtime)).
  - decide_closed.
  - apply perm_swap.
Defined.

Lemma payfast_signed_data_verifies_witness :
  PayFast.verifySignature (rt:=symbolic_runtime) sample_config
    (JObj (set_key "signature"
             (JStr (PayFast.generateSignature (rt:=symbolic_runtime) sample_config
                      payfast_complete_fields))
             payfast_complete_fields))
  = Ok (true, JObj payfast_complete_fields).
Proof.
  apply (payfast_signed_data_verifies (rt:=symbolic_runtime)).
  decide_closed.
Defined.

Lemma mtn_formatPhoneNumber_canonical_witness :
  ∃ formatted,
    MTN.formatPhoneNumber (JStr "0670 000 000") "CM" = Ok formatted
    ∧ all_digits formatted = true
    ∧ startsWith "237" formatted = true
    ∧ MTN.formatPhoneNumber (JStr formatted) "CM" = Ok formatted.
Proof. apply (mtn_formatPhoneNumber_canonical "0670 000 000" "CM" "237"). reflexivity. Defined.

Lemma orange_formatPhoneNumber_canonical_witness :
  ∃ digits,
    Orange.formatPhoneNumber (JStr "+221 77 000 00 00") "SN" = Ok ("+" +:+ digits)
    ∧ all_digits digits = true
    ∧ startsWith "221" digits = true
    ∧ Orange.formatPhoneNumber (JStr ("+" +:+ digits)) "SN" = Ok ("+" +:+ digits).
Proof.
  apply (orange_formatPhoneNumber_canonical "+221 77 000 00 00" "SN" "221"). reflexivity.
Defined.

Lemma status_after_initialize_witness :
  ∃ resp st' answer,
    Router.initialize (rt:=symbolic_runtime) sample_config net_accepting t0 (sample_user "ZA")
      payfast_request (payable "ZA") = (Ok resp, st')
    ∧ Router.status (sample_user "ZA") (r_payment_id resp) st' = (Ok answer, st')
    ∧ s_status answer = "pending".
Proof.
  destruct (Router.initialize (rt:=symbolic_runtime) sample_config net_accepting t0
              (sample_user "ZA") payfast_request (payable "ZA")) as [[resp|e] st'] eqn:Hrun;
    [|vm_compute in Hrun; discriminate].
  destruct (status_after_initialize (rt:=symbolic_runtime) sample_config net_accepting t0
              (sample_user "ZA") payfast_request (payable "ZA") resp st'
              (sample_orders_keyed _ _ _) Hrun)
    as (answer & order & Hstatus & _ & Hpending & _).
  exists resp, st', answer. split; [reflexivity|]. split; [exact Hstatus|exact Hpending].
Defined.

Lemma initialize_twice_at_one_instant_witness :
  ∃ resp st',
    Router.initialize (rt:=symbolic_runtime) sample_config net_accepting t0 (sample_user "ZA")
      payfast_request (payable "ZA") = (Ok resp, st')
    ∧ (∃ detail st'',
         Router.initialize (rt:=symbolic_runtime) sample_config net_down t0 (sample_user "ZA")
           payfast_request st'
         = (Throw (new_Error ("Payment initialization failed: " +:+ detail)), st'')
         ∧ same_rows st' st'')
    ∧ ∃ st'',
        Router.initialize (rt:=symbolic_runtime) sample_config net_accepting t0
          (sample_user "ZA") payfast_request st'
        = (Throw (new_Error "Payment initialization failed: Payment initialization failed"),
           st'')
        ∧ same_rows st' st''.
Proof.
  destruct (Router.initialize (rt:=symbolic_runtime) sample_config net_accepting t0
              (sample_user "ZA") payfast_request (payable "ZA")) as [[resp|e] st'] eqn:Hrun;
    [|vm_compute in Hrun; discriminate].
  destruct (initialize_twice_at_one_instant (rt:=symbolic_runtime) sample_config net_accepting
              t0 (sample_user "ZA") payfast_request (payable "ZA") resp st' Hrun)
    as [Hany Hsame].
  exists resp, st'. split; [reflexivity|]. split; [exact (Hany net_down)|exact Hsame].
Defined.

Lemma webhook_200_changes_no_order_witness :
  orders (snd (Router.webhook (rt:=symbolic_runtime) sample_config net_accepting (t0 + 5000)
                 (marker "x-mtn-signature") mtn_failed pending_mtn))
  = orders pending_mtn
  ∧ outbox (snd (Router.webhook (rt:=symbolic_runtime) sample_config net_accepting (t0 + 5000)
                   (marker "x-mtn-signature") mtn_failed pending_mtn))
    = outbox pending_mtn.
Proof.
  apply (webhook_200_changes_no_order (rt:=symbolic_runtime) sample_config net_accepting
           (t0 + 5000) (marker "x-mtn-signature") mtn_failed pending_mtn
           (fst (Router.webhook (rt:=symbolic_runtime) sample_config net_accepting (t0 + 5000)
                   (marker "x-mtn-signature") mtn_failed pending_mtn))).
  - apply surjective_pairing.
  - vm_compute. reflexivity.
Defined.

Lemma processed_webhook_replay_changes_nothing_witness :
  ∃ id st'',
    Router.webhook (rt:=symbolic_runtime) sample_config net_down (t0 + 9000)
      (marker "x-mtn-signature") mtn_failed
      (snd (Router.webhook (rt:=symbolic_runtime) sample_config net_accepting (t0 + 5000)
              (marker "x-mtn-signature") mtn_failed pending_mtn))
    = (processed, st'')
    ∧ payments st''
      = alter (touch (t0 + 9000)) id
          (payments
             (snd (Router.webhook (rt:=symbolic_runtime) sample_config net_accepting
                     (t0 + 5000) (marker "x-mtn-signature") mtn_failed pending_mtn))).
Proof.
  destruct (processed_webhook_replay_changes_nothing (rt:=symbolic_runtime) sample_config
              net_accepting (t0 + 5000) net_down (t0 + 9000) (marker "x-mtn-signature")
              mtn_failed pending_mtn
              (fst (Router.webhook (rt:=symbolic_runtime) sample_config net_accepting
                      (t0 + 5000) (marker "x-mtn-signature") mtn_failed pending_mtn))
              (snd (Router.webhook (rt:=symbolic_runtime) sample_config net_accepting
                      (t0 + 5000) (marker "x-mtn-signature") mtn_failed pending_mtn)))
    as (id & st'' & Hrun & Hpayments & _).
  - apply surjective_pairing.
  - vm_compute. reflexivity.
  - vm_compute. discriminate.
  - exists id, st''. split; [exact Hrun|exact Hpayments].
Defined.

Lemma verify_hides_payments_of_others_witness :
  Router.verify (rt:=symbolic_runtime) sample_config net_accepting t0 other_user
    (JObj verify_request) pending_mtn
  = (Throw (new_NotFoundError "Payment not found"), pending_mtn).
Proof.
  apply (verify_hides_payments_of_others (rt:=symbolic_runtime) sample_config net_accepting t0
           other_user verify_request pending_mtn).
  - reflexivity.
  - intros row Hrow. vm_compute in Hrow. injection Hrow as <-. discriminate.
Defined.

Lemma verify_payfast_asks_nobody_witness :
  ∃ answer,
    Router.verify (rt:=symbolic_runtime) sample_config net_down t0 (sample_user "ZA")
      (JObj verify_request) failed_payfast = (Ok answer, failed_payfast)
    ∧ vr_verification_status answer = "verified"
    ∧ vr_payment_id answer = assoc "payment_id" verify_request.
Proof.
  apply (verify_payfast_asks_nobody (rt:=symbolic_runtime) sample_config net_down t0
           (sample_user "ZA") verify_request failed_payfast (sample_payment "payfast" "failed")).
  - reflexivity.
  - vm_compute. reflexivity.
  - reflexivity.
  - reflexivity.
Defined.

Lemma initialize_errors_in_production_witness :
  ∃ e st',
    Router.initialize (rt:=symbolic_runtime) sample_config net_down t0 (sample_user "ZA")
      (JObj kora_request) (payable "ZA") = (Throw e, st')
    ∧ ((er_status (error_response (JStr "production") e) = 500
        ∧ er_message (error_response (JStr "production") e)
          = "An internal server error occurred"
        ∧ er_code (error_response (JStr "production") e) = JStr "INTERNAL_ERROR")
       ∨ ((er_status (error_response (JStr "production") e) = 400
           ∨ er_status (error_response (JStr "production") e) = 404)
          ∧ er_message (error_response (JStr "production") e) ∈ guard_messages)).
Proof.
  destruct (Router.initialize (rt:=symbolic_runtime) sample_config net_down t0
              (sample_user "ZA") (JObj kora_request) (payable "ZA")) as [[resp|e] st'] eqn:Hrun;
    [vm_compute in Hrun; discriminate|].
  exists e, st'. split; [reflexivity|].
  exact (initialize_errors_in_production (rt:=symbolic_runtime) sample_config net_down t0
           (sample_user "ZA") (JObj kora_request) (payable "ZA") e st' Hrun).
Defined.

Lemma handleKnownErrors_idempotent_witness :
  ErrorHandler.handleKnownErrors (ErrorHandler.ConflictError "Resource already exists")
  = Ok (ErrorHandler.ConflictError "Resource already exists").
Proof. apply (handleKnownErrors_idempotent duplicate_key). reflexivity. Defined.

Lemma listed_method_is_initialized_in_advertised_currency_witness :
  ∃ resp st',
    Router.initialize (rt:=symbolic_runtime) sample_config net_accepting t0 (sample_user "ZA")
      payfast_request (payable "ZA") = (Ok resp, st')
    ∧ table_get "ZA" currencies = Some (r_currency resp).
Proof.
  destruct (Router.initialize (rt:=symbolic_runtime) sample_config net_accepting t0
              (sample_user "ZA") payfast_request (payable "ZA")) as [[resp|e] st'] eqn:Hrun;
    [|vm_compute in Hrun; discriminate].
  exists resp, st'. split; [reflexivity|].
  refine (proj1 (proj2 (proj2
    (listed_method_is_initialized_in_advertised_currency (rt:=symbolic_runtime) sample_config
       net_accepting t0 "ZA"
       (mkPaymentMethod "payfast" "PayFast" "card" "/images/payfast-logo.png"
          "Credit/Debit Cards, EFT, SnapScan" "2.9% + R2.00")
       (sample_user "ZA")
       [("order_id", JStr "o1"); ("payment_method", JStr "payfast")]
       (payable "ZA") resp st' _ _ _ Hrun)))).
  - apply list_elem_of_further, list_elem_of_here.
  - reflexivity.
  - reflexivity.
Defined.

Lemma payfast_update_was_validated_witness :
  ∃ rq status,
    net_accepting rq = Responded status (JStr "VALID")
    ∧ rq_url rq = "https://sandbox.payfast.co.za/eng/query/validate".
Proof.
  destruct (PayFast.handleWebhook (rt:=symbolic_runtime) sample_config net_accepting
              (payfast_complete (H:=symbolic_runtime) sample_config) JUndefined (payable "ZA"))
    as [[[u|]|e] st'] eqn:Hrun; try (vm_compute in Hrun; discriminate).
  destruct (payfast_update_was_validated (rt:=symbolic_runtime) sample_config net_accepting _ _ _
              _ _ Hrun) as (rq & status & Hnet & _ & _ & Hurl & _).
  exists rq, status. split; [exact Hnet|exact Hurl].
Defined.

Lemma orange_notification_completes_the_order_witness :
  ∃ resp st',
    Router.initialize (rt:=symbolic_runtime) sample_config net_accepting t0 (sample_user "CM")
      orange_request (payable "CM") = (Ok resp, st')
    ∧ (p_status <$>
         payments
           (snd (Router.webhook (rt:=symbolic_runtime) sample_config net_accepting (t0 + 60000)
                   (orange_signed (H:=symbolic_runtime) sample_config
                      (orange_success (r_payment_id resp) "MP-1"))
                   (orange_success (r_payment_id resp) "MP-1") st'))
         !! r_payment_id resp) = Some "success".
Proof.
  destruct (Router.initialize (rt:=symbolic_runtime) sample_config net_accepting t0
              (sample_user "CM") orange_request (payable "CM")) as [[resp|e] st'] eqn:Hrun;
    [|vm_compute in Hrun; discriminate].
  destruct (orange_notification_completes_the_order (rt:=symbolic_runtime) sample_config
              net_accepting t0 (t0 + 60000) (sample_user "CM") orange_request (payable "CM")
              resp st' "MP-1" (sample_orders_keyed _ _ _) Hrun)
    as (row & order & Hrow & Hstatus & _).
  exists resp, st'. split; [reflexivity|].
  cbv zeta in Hrow. rewrite Hrow. cbn. by rewrite Hstatus.
Defined.

Lemma match_PAY_REQUEST_ID_token_witness :
  "REQ-1" ≠ "" ∧ contains "&" "REQ-1" = false
  ∧ contains PayGate.double_quote "REQ-1" = false
  ∧ ∃ before after, paygate_reply = before +:+ "PAY_REQUEST_ID=" +:+ "REQ-1" +:+ after.
Proof. apply (match_PAY_REQUEST_ID_token paygate_reply "REQ-1"). reflexivity. Defined.
